(** * GCP to R2 migration script: a shallow embedding

    The repository holds two variants of one script,
    [findAndProcessRecentFolders]:

    - gcp-r2-migration.ts: the variant that lists the destination folder,
      filters the source files against the keys found there and transfers
      the rest through a [pLimit(8)] pool with a download retry loop
      (module [FullDiff] below);
    - the second file: the variant that asks the destination for a
      single key under the folder prefix and skips the folder when one is
      there (module [PresenceCheck] below).

    Both share the scan of the source bucket (Step 1 of the script).

    The two cloud clients are collaborators of the script, not part of it:
    they are a [Backend] record of state-passing functions over an abstract
    world [W].  The script is written in a small state-and-exception monad
    whose state is the world together with the trace of the calls made and
    the console lines printed. *)

From Stdlib Require Import String Ascii ZArith Lia Bool List ListSet DecimalString.
From Stdlib Require Import Permutation.
Import ListNotations.
Open Scope string_scope.

Set Implicit Arguments.

(* ------------------------------------------------------------------ *)
(** ** JavaScript values used by the script *)

(** A value that is a string or [undefined]. *)
Definition JsStr := option string.

Definition JsStr_eq_dec : forall x y : JsStr, {x = y} + {x <> y}.
Proof. decide equality; apply string_dec. Defined.

(** Truthiness of a string-or-undefined: [undefined] and [''] are falsy. *)
Definition truthy (v : JsStr) : bool :=
  match v with
  | None => false
  | Some s => negb (String.eqb s "")
  end.

(** Template-literal interpolation [`${v}`]. *)
Definition interpolate (v : JsStr) : string :=
  match v with
  | None => "undefined"
  | Some s => s
  end.

(** [s.split(sep)] for a one-character separator. *)
Fixpoint split (sep : ascii) (s : string) : list string :=
  match s with
  | EmptyString => [EmptyString]
  | String c rest =>
      if Ascii.eqb c sep then EmptyString :: split sep rest
      else match split sep rest with
           | [] => [String c EmptyString]
           | h :: t => String c h :: t
           end
  end.

(** [arr[i]] for an integer index: [undefined] outside the array. *)
Definition js_index {A} (arr : list A) (i : Z) : option A :=
  if (i <? 0)%Z then None else nth_error arr (Z.to_nat i).

(** A [Set] keeps insertion order; [add] of a member changes nothing.
    [ListSet.set_add] appends at the end exactly in that way. *)
Definition JsSet := list JsStr.
Definition Set_add (x : JsStr) (s : JsSet) : JsSet := set_add JsStr_eq_dec x s.
Definition Set_has (x : JsStr) (s : JsSet) : bool := set_mem JsStr_eq_dec x s.

Definition Buffer := list Byte.byte.

(* ------------------------------------------------------------------ *)
(** ** Configuration constants of the script *)

Record Config := {
  GCP_BUCKET_NAME : string;
  GCP_INTERNAL_PATH : string;
  FOLDER_DATE_CHECK_FILE : string;
  MINIMUM_DATE : Z;            (* milliseconds since the epoch *)
  BATCH_SIZE : nat;
  S3_BUCKET_NAME : string
}.

(** The constants as the files have them: placeholders to be filled in,
    and [new Date('2025-03-10T00:00:00Z')]. *)
Definition placeholder_config : Config := {|
  GCP_BUCKET_NAME := "[YOUR_GCP_BUCKET_NAME]";
  GCP_INTERNAL_PATH := "[YOUR_GCP_INTERNAL_PATH]";
  FOLDER_DATE_CHECK_FILE := "[FOLDER_DATE]";
  MINIMUM_DATE := 1741564800000;
  BATCH_SIZE := 1000;
  S3_BUCKET_NAME := "[YOUR_S3_BUCKET_NAME]"
|}.

(* ------------------------------------------------------------------ *)
(** ** Objects exchanged with the two clients *)

(** [file.metadata]: [timeCreated] is kept as the instant that
    [new Date(file.metadata.timeCreated)] denotes, [None] for an invalid
    date (its time value is NaN). *)
Record FileMetadata := {
  timeCreated : option Z;
  contentType : JsStr
}.

Record File := {
  name : string;
  metadata : FileMetadata
}.

(** Options of [gcpBucket.getFiles]. *)
Record GetFilesOptions := {
  prefix : string;
  maxResults : option nat;
  pageToken : option string
}.

(** Input of [ListObjectsV2Command]; a field the script does not set is
    [None]. *)
Record ListObjectsV2Input := {
  list_Bucket : string;
  list_Prefix : string;
  list_MaxKeys : option nat;
  list_ContinuationToken : option string
}.

Record S3Object := { Key : JsStr }.

Record ListObjectsV2Output := {
  Contents : option (list S3Object);
  NextContinuationToken : JsStr
}.

(** Input of [PutObjectCommand]. *)
Record PutObjectInput := {
  put_Bucket : string;
  put_Key : string;
  put_Body : option Buffer;
  put_ContentType : JsStr
}.

Definition Err := string.

(** Answer of a client call: a value, or a thrown error. *)
Inductive Reply (A : Type) : Type :=
| Ok (a : A)
| Fail (e : Err).
Arguments Fail {A} e.

(** The two clients.  Each call may change the world. *)
Record Backend (W : Type) := {
  (* [await gcpBucket.getFiles(options)]: the files and
     [apiResponse.nextPageToken] *)
  gcs_getFiles : GetFilesOptions -> W -> Reply (list File * JsStr) * W;
  (* [await file.download()]: the first component of the answer *)
  gcs_download : File -> W -> Reply (option Buffer) * W;
  (* [await s3.send(new ListObjectsV2Command(params))] *)
  s3_listObjectsV2 : ListObjectsV2Input -> W -> Reply ListObjectsV2Output * W;
  (* [await s3.send(new PutObjectCommand(params))] *)
  s3_putObject : PutObjectInput -> W -> Reply unit * W
}.

(* ------------------------------------------------------------------ *)
(** ** Console lines and the trace *)

Inductive LogLine :=
| LogGettingFileList (bucket path : string)
| LogSearching (minimum : Z)
| LogNoFilesAtPath
| LogRequest (request total folders recentInBatch : nat)
| LogNoNewFolders
| LogScanComplete (found : nat)
| LogAllNewFolders (folders : list JsStr)
| LogStartingMigration
| LogStartFolder (folder : JsStr)
| LogFoundExisting (existing : nat)
| LogFoundInGcp (found migrating : nat)
| LogFullySynced
| LogFoldersMigrated (migrated total : nat) (remaining : Z)
| LogRetrying (key : string) (attempt : nat)
| LogDownloadFailed (e : Err)
| LogSkipping (key : string)
| LogTransferred (transferred total : nat) (key : string)
| LogFolderComplete (folder : JsStr)
| LogAlreadyExists (folder : JsStr)
| LogNotFoundInS3 (folder : JsStr)
| LogFoundToTransfer (found : nat)
| LogFolderEmpty
| LogFinished
| LogOverallError (e : Err).

Inductive Event :=
| EvGetFiles (o : GetFilesOptions)
| EvDownload (key : string)
| EvListObjectsV2 (p : ListObjectsV2Input)
| EvPutObject (p : PutObjectInput)
| EvSleep (ms : nat)
| EvLog (l : LogLine).

(* ------------------------------------------------------------------ *)
(** ** The monad of the script *)

Inductive Res (A : Type) : Type :=
| Val (a : A)        (* the awaited value *)
| Exn (e : Err)      (* a thrown error, or a rejected promise *)
| OutOfFuel.         (* a loop that has not ended within the fuel *)
Arguments Exn {A} e.
Arguments OutOfFuel {A}.

Record St (W : Type) := { world : W; trace : list Event }.

Definition M (W A : Type) := St W -> Res A * St W.

Definition ret {W A} (a : A) : M W A := fun st => (Val a, st).

Definition bind {W A B} (m : M W A) (k : A -> M W B) : M W B :=
  fun st =>
    match m st with
    | (Val a, st') => k a st'
    | (Exn e, st') => (Exn e, st')
    | (OutOfFuel, st') => (OutOfFuel, st')
    end.

Definition throw {W A} (e : Err) : M W A := fun st => (Exn e, st).

Definition out_of_fuel {W A} : M W A := fun st => (OutOfFuel, st).

(** [try { m } catch (e) { h e }] *)
Definition try_catch {W A} (m : M W A) (h : Err -> M W A) : M W A :=
  fun st =>
    match m st with
    | (Exn e, st') => h e st'
    | r => r
    end.

Definition emit {W} (e : Event) : M W unit :=
  fun st => (Val tt, {| world := world st; trace := trace st ++ [e] |}).

Definition log {W} (l : LogLine) : M W unit := emit (EvLog l).

(** A client call: the call is recorded, then the client answers. *)
Definition call {W A} (e : Event) (f : W -> Reply A * W) : M W A :=
  fun st =>
    match f (world st) with
    | (Ok a, w) => (Val a, {| world := w; trace := trace st ++ [e] |})
    | (Fail err, w) => (Exn err, {| world := w; trace := trace st ++ [e] |})
    end.

Declare Scope script_scope.
Delimit Scope script_scope with script.
Notation "x <- m ;; k" := (bind m (fun x => k))
  (at level 61, m at next level, right associativity) : script_scope.
Notation "' pat <- m ;; k" := (bind m (fun x => match x with pat => k end))
  (at level 61, pat pattern, m at next level, right associativity) : script_scope.
Notation "m ;; k" := (bind m (fun _ => k))
  (at level 61, right associativity) : script_scope.
Open Scope script_scope.

(** [if (c) { m }] *)
Definition when {W} (c : bool) (m : M W unit) : M W unit :=
  if c then m else ret tt.

(** The state [st] after calls that leave the world [w] and add the
    events [l] to the trace. *)
Definition extend {W} (st : St W) (w : W) (l : list Event) : St W :=
  {| world := w; trace := (trace st ++ l)%list |}.

(* ------------------------------------------------------------------ *)
(** ** Step 1: the scan of the source bucket (the same in both files) *)

Record ScanState := {
  recentFoldersFound : JsSet;
  totalFilesCount : nat;
  requestCount : nat;
  allFoldersFoundInTotal : JsSet
}.

Definition initial_scan : ScanState := {|
  recentFoldersFound := [];
  totalFilesCount := 0;
  requestCount := 0;
  allFoldersFoundInTotal := []
|}.

(** [file.name.split('/')] *)
Definition pathParts (file : File) : list string := split "/" (name file).

(** [pathParts[pathParts.length - 2]] *)
Definition folderName_of (file : File) : JsStr :=
  js_index (pathParts file) (Z.of_nat (length (pathParts file)) - 2).

(** [pathParts[pathParts.length - 1]] *)
Definition fileName_of (file : File) : JsStr :=
  js_index (pathParts file) (Z.of_nat (length (pathParts file)) - 1).

(** [fileName === FOLDER_DATE_CHECK_FILE] *)
Definition is_marker (cfg : Config) (file : File) : bool :=
  match fileName_of file with
  | Some s => String.eqb s (FOLDER_DATE_CHECK_FILE cfg)
  | None => false
  end.

(** [new Date(file.metadata.timeCreated) >= MINIMUM_DATE]; a comparison
    with an invalid date is false. *)
Definition created_on_or_after (cfg : Config) (file : File) : bool :=
  match timeCreated (metadata file) with
  | Some t => (MINIMUM_DATE cfg <=? t)%Z
  | None => false
  end.

(** The body of [for (const file of files)]; the second component is
    [recentFoundInBatch]. *)
Definition classify_file (cfg : Config) (acc : ScanState * nat) (file : File)
  : ScanState * nat :=
  let '(sc, recentFoundInBatch) := acc in
  let folderName := folderName_of file in
  let fileName := fileName_of file in
  let sc :=
    if truthy folderName && truthy fileName
    then {| recentFoldersFound := recentFoldersFound sc;
            totalFilesCount := totalFilesCount sc;
            requestCount := requestCount sc;
            allFoldersFoundInTotal := Set_add folderName (allFoldersFoundInTotal sc) |}
    else sc in
  if is_marker cfg file then
    if created_on_or_after cfg file then
      ({| recentFoldersFound := Set_add folderName (recentFoldersFound sc);
          totalFilesCount := totalFilesCount sc;
          requestCount := requestCount sc;
          allFoldersFoundInTotal := allFoldersFoundInTotal sc |},
       S recentFoundInBatch)
    else (sc, recentFoundInBatch)
  else (sc, recentFoundInBatch).

Definition classify_files (cfg : Config) (files : list File) (sc : ScanState)
  : ScanState * nat :=
  fold_left (classify_file cfg) files (sc, 0).

Section Script.
Context {W : Type} (be : Backend W) (cfg : Config).

Definition scan_options (pageToken : JsStr) : GetFilesOptions := {|
  prefix := GCP_INTERNAL_PATH cfg;
  maxResults := Some (BATCH_SIZE cfg);
  pageToken := if truthy pageToken then pageToken else None
|}.

(** The [do { ... } while (pageToken)] loop of Step 1. *)
Fixpoint scan_loop (fuel : nat) (pageToken : JsStr) (sc : ScanState)
  : M W ScanState :=
  match fuel with
  | O => out_of_fuel
  | S fuel' =>
      let sc := {| recentFoldersFound := recentFoldersFound sc;
                   totalFilesCount := totalFilesCount sc;
                   requestCount := S (requestCount sc);
                   allFoldersFoundInTotal := allFoldersFoundInTotal sc |} in
      let options := scan_options pageToken in
      '(files, nextPageToken) <- call (EvGetFiles options) (gcs_getFiles be options) ;;
      match files with
      | [] =>
          when (negb (truthy pageToken)) (log LogNoFilesAtPath) ;;
          ret sc
      | _ :: _ =>
          let sc := {| recentFoldersFound := recentFoldersFound sc;
                       totalFilesCount := totalFilesCount sc + length files;
                       requestCount := requestCount sc;
                       allFoldersFoundInTotal := allFoldersFoundInTotal sc |} in
          let '(sc, recentFoundInBatch) := classify_files cfg files sc in
          log (LogRequest (requestCount sc) (totalFilesCount sc)
                          (length (allFoldersFoundInTotal sc)) recentFoundInBatch) ;;
          if truthy nextPageToken then scan_loop fuel' nextPageToken sc
          else ret sc
      end
  end.

(** Step 1 up to [Array.from(recentFoldersFound)] and the lines that
    announce the result. *)
Definition scan (fuel : nat) : M W (list JsStr) :=
  log (LogGettingFileList (GCP_BUCKET_NAME cfg) (GCP_INTERNAL_PATH cfg)) ;;
  log (LogSearching (MINIMUM_DATE cfg)) ;;
  sc <- scan_loop fuel None initial_scan ;;
  let finalFolders := recentFoldersFound sc in
  (if (length finalFolders =? 0)%nat then log LogNoNewFolders
   else log (LogScanComplete (length finalFolders)) ;;
        log (LogAllNewFolders finalFolders)) ;;
  ret finalFolders.

(** [`${GCP_INTERNAL_PATH}${folderName}/`] *)
Definition folder_prefix (folderName : JsStr) : string :=
  GCP_INTERNAL_PATH cfg ++ interpolate folderName ++ "/".

Definition folder_files_options (folderName : JsStr) : GetFilesOptions := {|
  prefix := folder_prefix folderName;
  maxResults := None;
  pageToken := None
|}.

(** The lines printed when a folder is counted as migrated. *)
Definition remaining (total migrated : nat) : Z :=
  (Z.of_nat total - Z.of_nat migrated)%Z.
End Script.

(* ------------------------------------------------------------------ *)
(** ** gcp-r2-migration.ts: destination listing, filter, pool *)

Inductive Settled :=
| Fulfilled
| Rejected (e : Err).

Module FullDiff.
Section Script.
Context {W : Type} (be : Backend W) (cfg : Config).

Definition list_params (folderName : JsStr) : ListObjectsV2Input := {|
  list_Bucket := S3_BUCKET_NAME cfg;
  list_Prefix := folder_prefix cfg folderName;
  list_MaxKeys := None;
  list_ContinuationToken := None
|}.

(** [listResponse.Contents.forEach(item => { if (item.Key) r2Files.add(item.Key) })] *)
Definition add_keys (items : list S3Object) (r2Files : JsSet) : JsSet :=
  fold_left (fun acc item => if truthy (Key item) then Set_add (Key item) acc else acc)
            items r2Files.

(** The [do { ... } while (r2ContinuationToken)] loop.  [listParams] is
    built from the bucket and the prefix in every round; the token is
    only read for the loop test. *)
Fixpoint list_r2_files (fuel : nat) (folderName : JsStr) (r2Files : JsSet)
  : M W JsSet :=
  match fuel with
  | O => out_of_fuel
  | S fuel' =>
      let listParams := list_params folderName in
      listResponse <- call (EvListObjectsV2 listParams)
                           (s3_listObjectsV2 be listParams) ;;
      let r2Files :=
        match Contents listResponse with
        | Some items => add_keys items r2Files
        | None => r2Files
        end in
      let r2ContinuationToken := NextContinuationToken listResponse in
      if truthy r2ContinuationToken then list_r2_files fuel' folderName r2Files
      else ret r2Files
  end.

(** [gcpFiles.filter(file => !r2Files.has(file.name))] *)
Definition not_in_r2 (r2Files : JsSet) (gcpFiles : list File) : list File :=
  filter (fun file => negb (Set_has (Some (name file)) r2Files)) gcpFiles.

(** Steps 1 to 3 of a folder: the files to migrate. *)
Definition files_to_migrate (fuel : nat) (folderName : JsStr)
  : M W (list File) :=
  r2Files <- list_r2_files fuel folderName [] ;;
  log (LogFoundExisting (length r2Files)) ;;
  let options := folder_files_options cfg folderName in
  '(gcpFiles, _) <- call (EvGetFiles options) (gcs_getFiles be options) ;;
  let filesToMigrate := not_in_r2 r2Files gcpFiles in
  log (LogFoundInGcp (length gcpFiles) (length filesToMigrate)) ;;
  ret filesToMigrate.

(** The retry loop [for (let i = 0; i < 3; i++)].  The result is
    [Some fileBuffer] when [downloadSuccess] is set and [None] when the
    loop ends without it ([fileBuffer] holds no buffer then: the loop is
    left as soon as one is there). *)
Fixpoint download_loop (rounds i : nat) (file : File) : M W (option Buffer) :=
  match rounds with
  | O => ret None
  | S rounds' =>
      got <- try_catch
               (fileBuffer <- call (EvDownload (name file)) (gcs_download be file) ;;
                match fileBuffer with
                | None => throw "Downloaded buffer is null or undefined."
                | Some b => ret (Some b)
                end)
               (fun e =>
                  log (LogRetrying (name file) (i + 1)) ;;
                  log (LogDownloadFailed e) ;;
                  emit (EvSleep 1000) ;;
                  ret None) ;;
      match got with
      | Some b => ret (Some b)
      | None => download_loop rounds' (S i) file
      end
  end.

Definition upload_params (file : File) (fileBuffer : Buffer) : PutObjectInput := {|
  put_Bucket := S3_BUCKET_NAME cfg;
  put_Key := name file;
  put_Body := Some (if (0 <? length fileBuffer)%nat then fileBuffer else []);
  put_ContentType :=
    if truthy (contentType (metadata file)) then contentType (metadata file)
    else Some "application/octet-stream"
|}.

(** The function handed to [limit].  It takes and gives back the shared
    [transferredCount]. *)
Definition transfer_task (totalFilesToTransfer : nat) (file : File)
           (transferredCount : nat) : M W nat :=
  fileBuffer <- download_loop 3 0 file ;;
  match fileBuffer with
  | None =>
      log (LogSkipping (name file)) ;;
      ret transferredCount
  | Some b =>
      let uploadParams := upload_params file b in
      call (EvPutObject uploadParams) (s3_putObject be uploadParams) ;;
      let transferredCount := S transferredCount in
      log (LogTransferred transferredCount totalFilesToTransfer (name file)) ;;
      ret transferredCount
  end.

(** [filesToMigrate.map(file => limit(...))]: every task is queued at
    once, runs and settles on its own; a rejected task stops no other.
    [limit] lets up to eight tasks interleave; here they are taken one
    after the other in the order of submission, and the pool is drained
    before [Promise.all] is resumed.  In the script a rejection resumes
    the [await] at once and the tasks still queued run to their end
    afterwards: the calls made are the same, only their place relative to
    the line of the top-level [catch] differs. *)
Fixpoint run_pool (totalFilesToTransfer : nat) (files : list File)
         (transferredCount : nat) : M W (list Settled) :=
  match files with
  | [] => ret []
  | file :: rest =>
      fun st =>
        match transfer_task totalFilesToTransfer file transferredCount st with
        | (Val c, st') =>
            (rs <- run_pool totalFilesToTransfer rest c ;; ret (Fulfilled :: rs)) st'
        | (Exn e, st') =>
            (rs <- run_pool totalFilesToTransfer rest transferredCount ;;
             ret (Rejected e :: rs)) st'
        | (OutOfFuel, st') => (OutOfFuel, st')
        end
  end.

(** [await Promise.all(uploadPromises)]: rejects with the error of the
    first promise that is rejected.  In the script that is the first in
    time; here, with the pool run in submission order, the first in the
    list.  The properties below that speak of the error passed on only
    use that it is the error of one of the rejected promises. *)
Fixpoint Promise_all (uploadPromises : list Settled) : M W unit :=
  match uploadPromises with
  | [] => ret tt
  | Fulfilled :: rest => Promise_all rest
  | Rejected e :: _ => throw e
  end.

(** The body of [for (const folderName of finalFolders)]; it gives back
    [migratedFoldersCount]. *)
Definition migrate_folder (fuel : nat) (totalFoldersToMigrate : nat)
           (folderName : JsStr) (migratedFoldersCount : nat) : M W nat :=
  log (LogStartFolder folderName) ;;
  filesToMigrate <- files_to_migrate fuel folderName ;;
  if (length filesToMigrate =? 0)%nat then
    log LogFullySynced ;;
    let migratedFoldersCount := S migratedFoldersCount in
    log (LogFoldersMigrated migratedFoldersCount totalFoldersToMigrate
           (remaining totalFoldersToMigrate migratedFoldersCount)) ;;
    ret migratedFoldersCount
  else
    uploadPromises <- run_pool (length filesToMigrate) filesToMigrate 0 ;;
    Promise_all uploadPromises ;;
    let migratedFoldersCount := S migratedFoldersCount in
    log (LogFolderComplete folderName) ;;
    log (LogFoldersMigrated migratedFoldersCount totalFoldersToMigrate
           (remaining totalFoldersToMigrate migratedFoldersCount)) ;;
    ret migratedFoldersCount.

Fixpoint migrate_folders (fuel : nat) (totalFoldersToMigrate : nat)
         (folders : list JsStr) (migratedFoldersCount : nat) : M W nat :=
  match folders with
  | [] => ret migratedFoldersCount
  | folderName :: rest =>
      c <- migrate_folder fuel totalFoldersToMigrate folderName migratedFoldersCount ;;
      migrate_folders fuel totalFoldersToMigrate rest c
  end.

(** The [try] block. *)
Definition pipeline (fuel : nat) : M W unit :=
  finalFolders <- scan be cfg fuel ;;
  log LogStartingMigration ;;
  migrate_folders fuel (length finalFolders) finalFolders 0 ;;
  log LogFinished.

Definition findAndProcessRecentFolders (fuel : nat) : M W unit :=
  try_catch (pipeline fuel) (fun error => log (LogOverallError error)).
End Script.
End FullDiff.

(* ------------------------------------------------------------------ *)
(** ** The second file: one-key presence check, sequential transfer *)

Module PresenceCheck.
Section Script.
Context {W : Type} (be : Backend W) (cfg : Config).

Definition list_params (folderName : JsStr) : ListObjectsV2Input := {|
  list_Bucket := S3_BUCKET_NAME cfg;
  list_Prefix := folder_prefix cfg folderName;
  list_MaxKeys := Some 1;
  list_ContinuationToken := None
|}.

(** [listResponse.Contents && listResponse.Contents.length > 0] *)
Definition already_exists (listResponse : ListObjectsV2Output) : bool :=
  match Contents listResponse with
  | Some items => (0 <? length items)%nat
  | None => false
  end.

Definition upload_params (file : File) (fileBuffer : option Buffer)
  : PutObjectInput := {|
  put_Bucket := S3_BUCKET_NAME cfg;
  put_Key := name file;
  put_Body := fileBuffer;
  put_ContentType := contentType (metadata file)
|}.

(** [for (const file of gcpFiles)]: one file after the other, no retry;
    an error of either client leaves the loop. *)
Fixpoint transfer_files (totalFiles : nat) (gcpFiles : list File)
         (transferredCount : nat) : M W unit :=
  match gcpFiles with
  | [] => ret tt
  | file :: rest =>
      fileBuffer <- call (EvDownload (name file)) (gcs_download be file) ;;
      let uploadParams := upload_params file fileBuffer in
      call (EvPutObject uploadParams) (s3_putObject be uploadParams) ;;
      let transferredCount := S transferredCount in
      log (LogTransferred transferredCount totalFiles (name file)) ;;
      transfer_files totalFiles rest transferredCount
  end.

Definition migrate_folder (totalFoldersToMigrate : nat)
           (folderName : JsStr) (migratedFoldersCount : nat) : M W nat :=
  log (LogStartFolder folderName) ;;
  let listParams := list_params folderName in
  listResponse <- call (EvListObjectsV2 listParams)
                       (s3_listObjectsV2 be listParams) ;;
  if already_exists listResponse then
    log (LogAlreadyExists folderName) ;;
    let migratedFoldersCount := S migratedFoldersCount in
    log (LogFoldersMigrated migratedFoldersCount totalFoldersToMigrate
           (remaining totalFoldersToMigrate migratedFoldersCount)) ;;
    ret migratedFoldersCount
  else
    log (LogNotFoundInS3 folderName) ;;
    let options := folder_files_options cfg folderName in
    '(gcpFiles, _) <- call (EvGetFiles options) (gcs_getFiles be options) ;;
    log (LogFoundToTransfer (length gcpFiles)) ;;
    if (length gcpFiles =? 0)%nat then
      log LogFolderEmpty ;;
      let migratedFoldersCount := S migratedFoldersCount in
      log (LogFoldersMigrated migratedFoldersCount totalFoldersToMigrate
             (remaining totalFoldersToMigrate migratedFoldersCount)) ;;
      ret migratedFoldersCount
    else
      transfer_files (length gcpFiles) gcpFiles 0 ;;
      let migratedFoldersCount := S migratedFoldersCount in
      log (LogFolderComplete folderName) ;;
      log (LogFoldersMigrated migratedFoldersCount totalFoldersToMigrate
             (remaining totalFoldersToMigrate migratedFoldersCount)) ;;
      ret migratedFoldersCount.

Fixpoint migrate_folders (totalFoldersToMigrate : nat)
         (folders : list JsStr) (migratedFoldersCount : nat) : M W nat :=
  match folders with
  | [] => ret migratedFoldersCount
  | folderName :: rest =>
      c <- migrate_folder totalFoldersToMigrate folderName migratedFoldersCount ;;
      migrate_folders totalFoldersToMigrate rest c
  end.

Definition pipeline (fuel : nat) : M W unit :=
  finalFolders <- scan be cfg fuel ;;
  log LogStartingMigration ;;
  migrate_folders (length finalFolders) finalFolders 0 ;;
  log LogFinished.

Definition findAndProcessRecentFolders (fuel : nat) : M W unit :=
  try_catch (pipeline fuel) (fun error => log (LogOverallError error)).
End Script.
End PresenceCheck.

(* ------------------------------------------------------------------ *)
(** ** A simulated pair of stores

    An executable instance of [Backend], used to run the script on
    concrete buckets.  The source bucket is a list of objects in listing
    order; the destination is a list of keys and answers a listing with at
    most [r2_page_size] keys per page (and at most [MaxKeys] when that is
    given), continuing after the key named by the continuation token. *)

Record SimWorld := {
  gcs_objects : list (File * Buffer);
  (* answers of the coming [download] calls that are not the stored body,
     each used once, in order, for the file it names *)
  download_script : list (string * Reply (option Buffer));
  gcs_list_error : option Err;
  r2_keys : list string;
  r2_page_size : nat;
  r2_list_error : option Err;
  r2_put_refused : list string
}.

(** The elements after the first one that satisfies [p]. *)
Fixpoint after {A} (p : A -> bool) (l : list A) : list A :=
  match l with
  | [] => []
  | x :: rest => if p x then rest else after p rest
  end.

Definition page_of {A} (size : option nat) (l : list A) : list A :=
  match size with
  | Some n => firstn n l
  | None => l
  end.

Definition page_rest {A} (size : option nat) (l : list A) : list A :=
  match size with
  | Some n => skipn n l
  | None => []
  end.

Definition sim_getFiles (o : GetFilesOptions) (w : SimWorld)
  : Reply (list File * JsStr) * SimWorld :=
  match gcs_list_error w with
  | Some e => (Fail e, w)
  | None =>
      let under := filter (fun f => String.prefix (prefix o) (name f))
                          (map fst (gcs_objects w)) in
      let from := match pageToken o with
                  | Some t => after (fun f => String.eqb (name f) t) under
                  | None => under
                  end in
      let page := page_of (maxResults o) from in
      let next := match page_rest (maxResults o) from with
                  | [] => None
                  | _ :: _ => option_map name (last (map Some page) None)
                  end in
      (Ok (page, next), w)
  end.

Fixpoint take_script (key : string) (s : list (string * Reply (option Buffer)))
  : option (Reply (option Buffer)) * list (string * Reply (option Buffer)) :=
  match s with
  | [] => (None, [])
  | (k, r) :: rest =>
      if String.eqb k key then (Some r, rest)
      else let '(found, rest') := take_script key rest in (found, (k, r) :: rest')
  end.

Definition stored_body (key : string) (objs : list (File * Buffer)) : option Buffer :=
  option_map snd (find (fun fb => String.eqb (name (fst fb)) key) objs).

Definition sim_download (f : File) (w : SimWorld)
  : Reply (option Buffer) * SimWorld :=
  let '(scripted, rest) := take_script (name f) (download_script w) in
  let w' := {| gcs_objects := gcs_objects w;
               download_script := rest;
               gcs_list_error := gcs_list_error w;
               r2_keys := r2_keys w;
               r2_page_size := r2_page_size w;
               r2_list_error := r2_list_error w;
               r2_put_refused := r2_put_refused w |} in
  match scripted with
  | Some r => (r, w')
  | None =>
      match stored_body (name f) (gcs_objects w) with
      | Some b => (Ok (Some b), w')
      | None => (Fail "No such object", w')
      end
  end.

Definition sim_listObjectsV2 (p : ListObjectsV2Input) (w : SimWorld)
  : Reply ListObjectsV2Output * SimWorld :=
  match r2_list_error w with
  | Some e => (Fail e, w)
  | None =>
      let under := filter (fun k => String.prefix (list_Prefix p) k) (r2_keys w) in
      let from := match list_ContinuationToken p with
                  | Some t => after (fun k => String.eqb k t) under
                  | None => under
                  end in
      let size := match list_MaxKeys p with
                  | Some n => Nat.min n (r2_page_size w)
                  | None => r2_page_size w
                  end in
      let page := firstn size from in
      let next := match skipn size from with
                  | [] => None
                  | _ :: _ => last (map Some page) None
                  end in
      (Ok {| Contents := match page with
                         | [] => None
                         | _ :: _ => Some (map (fun k => {| Key := Some k |}) page)
                         end;
             NextContinuationToken := next |}, w)
  end.

Definition sim_putObject (p : PutObjectInput) (w : SimWorld)
  : Reply unit * SimWorld :=
  if existsb (String.eqb (put_Key p)) (r2_put_refused w)
  then (Fail "PutObject refused", w)
  else (Ok tt,
        {| gcs_objects := gcs_objects w;
           download_script := download_script w;
           gcs_list_error := gcs_list_error w;
           r2_keys := if existsb (String.eqb (put_Key p)) (r2_keys w)
                      then r2_keys w else (r2_keys w ++ [put_Key p])%list;
           r2_page_size := r2_page_size w;
           r2_list_error := r2_list_error w;
           r2_put_refused := r2_put_refused w |}).

Definition sim : Backend SimWorld := {|
  gcs_getFiles := sim_getFiles;
  gcs_download := sim_download;
  s3_listObjectsV2 := sim_listObjectsV2;
  s3_putObject := sim_putObject
|}.

Definition start {W} (w : W) : St W := {| world := w; trace := [] |}.

(** A source object with a content type, created at [t]. *)
Definition object (key : string) (t : Z) (body : Buffer) : File * Buffer :=
  ({| name := key;
      metadata := {| timeCreated := Some t; contentType := Some "text/plain" |} |},
   body).

Definition bucket (objs : list (File * Buffer)) (r2 : list string) (page : nat)
  : SimWorld := {|
  gcs_objects := objs;
  download_script := [];
  gcs_list_error := None;
  r2_keys := r2;
  r2_page_size := page;
  r2_list_error := None;
  r2_put_refused := []
|}.

(** The configuration of the examples: root [root/], marker
    [marker.json], cut-off 2025-03-10T00:00:00Z. *)
Definition example_config : Config := {|
  GCP_BUCKET_NAME := "source";
  GCP_INTERNAL_PATH := "root/";
  FOLDER_DATE_CHECK_FILE := "marker.json";
  MINIMUM_DATE := 1741564800000;
  BATCH_SIZE := 1000;
  S3_BUCKET_NAME := "destination"
|}.

(** 2025-04-01T00:00:00Z and 2025-01-01T00:00:00Z *)
Definition april_2025 : Z := 1743465600000.
Definition january_2025 : Z := 1735689600000.

(** The calls and lines of a trace that concern uploads and skips. *)
Definition is_put_of (key : string) (e : Event) : bool :=
  match e with
  | EvPutObject p => String.eqb (put_Key p) key
  | _ => false
  end.

Definition is_skip_of (key : string) (e : Event) : bool :=
  match e with
  | EvLog (LogSkipping k) => String.eqb k key
  | _ => false
  end.

Definition is_download_of (key : string) (e : Event) : bool :=
  match e with
  | EvDownload k => String.eqb k key
  | _ => false
  end.

Definition count (p : Event -> bool) (t : list Event) : nat :=
  length (filter p t).

(** A folder [root/f1/] of 1001 objects: a recent marker and the files
    [root/f1/0] to [root/f1/999].  A [ListObjectsV2] answer holds at most
    1000 keys, so the listing of this folder at the destination takes two
    pages. *)
Definition decimal (n : nat) : string :=
  NilEmpty.string_of_uint (Nat.to_uint n).

Definition large_folder : list (File * Buffer) :=
  object "root/f1/marker.json" april_2025 [] ::
  map (fun i => object ("root/f1/" ++ decimal i) january_2025 []) (seq 0 1000).

Definition large_folder_keys : list string :=
  map (fun o => name (fst o)) large_folder.

(** Two folders: [f1] with a recent marker, [f2] with an old marker and
    a recent file beside it. *)
Definition f1_marker : File * Buffer := object "root/f1/marker.json" april_2025 [].
Definition f1_a : File * Buffer := object "root/f1/a.txt" january_2025 [].
Definition f2_marker : File * Buffer := object "root/f2/marker.json" january_2025 [].
Definition f2_b : File * Buffer := object "root/f2/b.txt" april_2025 [].

Definition two_folders : SimWorld :=
  bucket [f1_marker; f1_a; f2_marker; f2_b] [] 1000.

(** The same configuration with pages of three files. *)
Definition small_pages : Config := {|
  GCP_BUCKET_NAME := "source";
  GCP_INTERNAL_PATH := "root/";
  FOLDER_DATE_CHECK_FILE := "marker.json";
  MINIMUM_DATE := 1741564800000;
  BATCH_SIZE := 3;
  S3_BUCKET_NAME := "destination"
|}.

(** Two recent folders; the destination refuses [root/f1/a.txt]. *)
Definition f2_recent_marker : File * Buffer :=
  object "root/f2/marker.json" april_2025 [].

Definition refusing_destination : SimWorld := {|
  gcs_objects := [f1_marker; f1_a; f2_recent_marker; f2_b];
  download_script := [];
  gcs_list_error := None;
  r2_keys := [];
  r2_page_size := 1000;
  r2_list_error := None;
  r2_put_refused := ["root/f1/a.txt"]
|}.

(** The source listing throws. *)
Definition failing_source : SimWorld := {|
  gcs_objects := [f1_marker; f1_a; f2_marker; f2_b];
  download_script := [];
  gcs_list_error := Some "ListError";
  r2_keys := [];
  r2_page_size := 1000;
  r2_list_error := None;
  r2_put_refused := []
|}.

(** The destination listing throws. *)
Definition failing_destination : SimWorld := {|
  gcs_objects := [f1_marker; f1_a; f2_marker; f2_b];
  download_script := [];
  gcs_list_error := None;
  r2_keys := [];
  r2_page_size := 1000;
  r2_list_error := Some "ListError";
  r2_put_refused := []
|}.

(** The coming downloads of [root/f1/a.txt] are scripted. *)
Definition scripted (answers : list (Reply (option Buffer))) : SimWorld := {|
  gcs_objects := [f1_marker; f1_a; f2_marker; f2_b];
  download_script := map (fun r => ("root/f1/a.txt", r)) answers;
  gcs_list_error := None;
  r2_keys := [];
  r2_page_size := 1000;
  r2_list_error := None;
  r2_put_refused := []
|}.

(** [LogStartFolder folder] *)
Definition folder_started (folder : JsStr) (e : Event) : bool :=
  match e with
  | EvLog (LogStartFolder f) => if JsStr_eq_dec f folder then true else false
  | _ => false
  end.

Definition is_overall_error (e : Event) : bool :=
  match e with
  | EvLog (LogOverallError _) => true
  | _ => false
  end.

(* ------------------------------------------------------------------ *)
(** ** Notions used to state the properties *)

(** The last and the second-to-last path segment, by recursion on the
    segments rather than by index. *)
Fixpoint last_segment (parts : list string) : JsStr :=
  match parts with
  | [] => None
  | [x] => Some x
  | _ :: rest => last_segment rest
  end.

Fixpoint second_to_last_segment (parts : list string) : JsStr :=
  match parts with
  | [] => None
  | [_] => None
  | [x; _] => Some x
  | _ :: rest => second_to_last_segment rest
  end.

(** A string without the separator. *)
Fixpoint no_sep (sep : ascii) (s : string) : bool :=
  match s with
  | EmptyString => true
  | String c rest => negb (Ascii.eqb c sep) && no_sep sep rest
  end.

(** The marker test and the date test of the classifier, as propositions. *)
Definition marker_on_or_after (cfg : Config) (file : File) : Prop :=
  last_segment (split "/" (name file)) = Some (FOLDER_DATE_CHECK_FILE cfg) /\
  exists t, timeCreated (metadata file) = Some t /\ (MINIMUM_DATE cfg <= t)%Z.

(** The events that a computation adds to the trace all satisfy [P]. *)
Definition emits {W A} (P : Event -> Prop) (m : M W A) : Prop :=
  forall st, exists l, trace (snd (m st)) = (trace st ++ l)%list /\ Forall P l.

(** The values that a computation can end with satisfy [Q]. *)
Definition returns {W A} (Q : A -> Prop) (m : M W A) : Prop :=
  forall st a st', m st = (Val a, st') -> Q a.

(** A listing event names the prefix [pfx]; other events are not
    concerned. *)
Definition addresses (pfx : string) (e : Event) : Prop :=
  match e with
  | EvListObjectsV2 p => list_Prefix p = pfx
  | EvGetFiles o => prefix o = pfx
  | _ => True
  end.

Definition keys_of (files : list File) : list string := map name files.

Section Listing.
Context {W : Type} (be : Backend W) (cfg : Config).

(** [Serves tok w pages w']: asked page by page from the token [tok] in
    the world [w], the source client hands out exactly [pages], each but
    the last with a token for the next, and leaves the world [w'].  An
    empty page can only be a last page without a token. *)
Inductive Serves : JsStr -> W -> list (list File) -> W -> Prop :=
| Serves_nothing tok w next w' :
    gcs_getFiles be (scan_options cfg tok) w = (Ok ([], next), w') ->
    truthy next = false ->
    Serves tok w [] w'
| Serves_last tok w files next w' :
    files <> [] ->
    gcs_getFiles be (scan_options cfg tok) w = (Ok (files, next), w') ->
    truthy next = false ->
    Serves tok w [files] w'
| Serves_more tok w files next w1 pages w' :
    files <> [] ->
    gcs_getFiles be (scan_options cfg tok) w = (Ok (files, next), w1) ->
    truthy next = true ->
    Serves next w1 pages w' ->
    Serves tok w (files :: pages) w'.
End Listing.

(** What one [download] call can answer, seen from the retry loop: a
    buffer, or a failure (a thrown error, or no buffer). *)
Definition failed_attempt (r : Reply (option Buffer)) : bool :=
  match r with
  | Ok (Some _) => false
  | _ => true
  end.

(** The error that the [catch] of the retry loop receives. *)
Definition attempt_error (r : Reply (option Buffer)) : Err :=
  match r with
  | Fail e => e
  | _ => "Downloaded buffer is null or undefined."
  end.

(** The trace of one failed round of the retry loop. *)
Definition failed_round (key : string) (i : nat) (r : Reply (option Buffer))
  : list Event :=
  [EvDownload key;
   EvLog (LogRetrying key (i + 1));
   EvLog (LogDownloadFailed (attempt_error r));
   EvSleep 1000].

Section Attempts.
Context {W : Type} (be : Backend W).

End Attempts.

(** The keys that one answer of the destination adds to an empty
    [r2Files]. *)
Definition listed_keys (out : ListObjectsV2Output) : JsSet :=
  match Contents out with
  | Some items => FullDiff.add_keys items []
  | None => []
  end.

(** The rejection that [Promise.all] passes on: that of the first
    rejected promise. *)
Fixpoint first_rejection (rs : list Settled) : option Err :=
  match rs with
  | [] => None
  | Fulfilled :: rest => first_rejection rest
  | Rejected e :: _ => Some e
  end.

(** The keys of the upload calls of a trace, in order. *)
Fixpoint put_keys (t : list Event) : list string :=
  match t with
  | [] => []
  | EvPutObject p :: rest => put_Key p :: put_keys rest
  | _ :: rest => put_keys rest
  end.

Section Transfers.
Context {W : Type} (be : Backend W) (cfg : Config).

(** [Transfers files w w']: from the world [w], every file of [files] in
    turn is downloaded and then accepted by the destination, which
    leaves the world [w'] (second file: no retry, the buffer is passed
    on as it comes). *)
Inductive Transfers : list File -> W -> W -> Prop :=
| Transfers_nil w : Transfers [] w w
| Transfers_cons file rest w buf w1 w2 w' :
    gcs_download be file w = (Ok buf, w1) ->
    s3_putObject be (PresenceCheck.upload_params cfg file buf) w1 = (Ok tt, w2) ->
    Transfers rest w2 w' ->
    Transfers (file :: rest) w w'.
End Transfers.

(** [parts.join(sep)] *)
Fixpoint join (sep : string) (parts : list string) : string :=
  match parts with
  | [] => ""
  | [x] => x
  | x :: rest => x ++ sep ++ join sep rest
  end.

(** The folder test of the set of all folders, as a proposition: the
    second-to-last and the last segment are both there and non-empty. *)
Definition in_a_folder (x : JsStr) (file : File) : Prop :=
  second_to_last_segment (split "/" (name file)) = x /\
  truthy x = true /\
  truthy (last_segment (split "/" (name file))) = true.

Definition is_get_files (e : Event) : bool :=
  match e with
  | EvGetFiles _ => true
  | _ => false
  end.

Definition is_sleep (e : Event) : bool :=
  match e with
  | EvSleep _ => true
  | _ => false
  end.

(** The events of the scan: listings of the root with the page size, and
    console lines. *)
Definition scan_event (cfg : Config) (e : Event) : Prop :=
  match e with
  | EvGetFiles o =>
      prefix o = GCP_INTERNAL_PATH cfg /\ maxResults o = Some (BATCH_SIZE cfg)
  | EvLog _ => True
  | _ => False
  end.

(** The requests that gcp-r2-migration.ts sends to the destination. *)
Definition well_formed_request (cfg : Config) (e : Event) : Prop :=
  match e with
  | EvPutObject p =>
      put_Bucket p = S3_BUCKET_NAME cfg /\
      (exists b, put_Body p = Some b) /\
      truthy (put_ContentType p) = true
  | EvListObjectsV2 p =>
      list_Bucket p = S3_BUCKET_NAME cfg /\
      list_MaxKeys p = None /\
      list_ContinuationToken p = None
  | _ => True
  end.

(** The requests that the second file sends to the destination. *)
Definition presence_request (cfg : Config) (e : Event) : Prop :=
  match e with
  | EvPutObject p => put_Bucket p = S3_BUCKET_NAME cfg
  | EvListObjectsV2 p =>
      list_Bucket p = S3_BUCKET_NAME cfg /\
      list_MaxKeys p = Some 1 /\
      list_ContinuationToken p = None
  | EvSleep _ => False
  | _ => True
  end.

(** A line [Folders migrated: m/total (Remaining: r)] that is in step
    with the [total] of the run. *)
Definition progress_line (e : Event) : Prop :=
  match e with
  | EvLog (LogFoldersMigrated m total r) =>
      0 < m /\ m <= total /\ r = (Z.of_nat total - Z.of_nat m)%Z /\ (0 <= r)%Z
  | _ => True
  end.

(** A source whose second page is empty and still names a next page; the
    world counts the listing calls.  The other calls are not used. *)
Definition empty_second_page : Backend nat := {|
  gcs_getFiles := fun _ n =>
    match n with
    | O => (Ok ([fst f1_marker], Some "page-2"), 1)
    | S _ => (Ok ([], Some "page-3"), S n)
    end;
  gcs_download := fun _ n => (Fail "unused", n);
  s3_listObjectsV2 := fun _ n => (Fail "unused", n);
  s3_putObject := fun _ n => (Fail "unused", n)
|}.

Definition is_skip_line (e : Event) : bool :=
  match e with
  | EvLog (LogSkipping _) => true
  | _ => false
  end.

Section Exhausts.
Context {W : Type} (be : Backend W).

End Exhausts.


(** The destination refuses both files of [f1]. *)
Definition refusing_everything : SimWorld := {|
  gcs_objects := [f1_marker; f1_a; f2_recent_marker; f2_b];
  download_script := [];
  gcs_list_error := None;
  r2_keys := [];
  r2_page_size := 1000;
  r2_list_error := None;
  r2_put_refused := ["root/f1/marker.json"; "root/f1/a.txt"]
|}.

(** A pair of stores that never fails: the destination is empty when
    listed and takes every upload (the world is the list of uploaded
    keys), and the source lists the two files of [root/f1/] and gives an
    empty buffer for every download. *)
Definition obliging : Backend (list string) := {|
  gcs_getFiles := fun o w =>
    (Ok (if String.eqb (prefix o) "root/f1/" then [fst f1_marker; fst f1_a] else [],
         None), w);
  gcs_download := fun _ w => (Ok (Some []), w);
  s3_listObjectsV2 := fun _ w =>
    (Ok {| Contents := None; NextContinuationToken := None |}, w);
  s3_putObject := fun p w => (Ok tt, (w ++ [put_Key p])%list)
|}.

(** The upload request that gcp-r2-migration.ts builds for [file]: its own
    key, a body, and the content type of the source, or the generic
    binary type when the source has none or an empty one. *)
Definition upload_request_of (cfg : Config) (file : File) (p : PutObjectInput)
  : Prop :=
  put_Bucket p = S3_BUCKET_NAME cfg /\
  put_Key p = name file /\
  (exists b, put_Body p = Some b) /\
  put_ContentType p
  = match contentType (metadata file) with
    | None => Some "application/octet-stream"
    | Some c => if String.eqb c "" then Some "application/octet-stream" else Some c
    end.

(** Every upload of the trace is the request of [file]. *)
Definition task_request (cfg : Config) (file : File) (e : Event) : Prop :=
  match e with
  | EvPutObject p => upload_request_of cfg file p
  | _ => True
  end.

(** Every upload of the trace is the request of one of [files]. *)
Definition pool_request (cfg : Config) (files : list File) (e : Event) : Prop :=
  match e with
  | EvPutObject p => exists file, In file files /\ upload_request_of cfg file p
  | _ => True
  end.

(** Not the line of the top-level [catch]. *)
Definition no_overall_error (e : Event) : Prop := is_overall_error e = false.

(* ================================================================== *)
(** * Properties *)

(** ** Strings and sets *)

Lemma split_not_nil sep s : split sep s <> [].
Proof.
  destruct s as [|c rest]; simpl; [discriminate|].
  destruct (Ascii.eqb c sep); [discriminate|].
  destruct (split sep rest); discriminate.
Qed.

Lemma split_no_sep sep s : no_sep sep s = true -> split sep s = [s].
Proof.
  induction s as [|c rest IH]; simpl; intros H; [reflexivity|].
  apply andb_true_iff in H. destruct H as [Hc Hr].
  apply negb_true_iff in Hc. rewrite Hc, (IH Hr). reflexivity.
Qed.

Lemma split_app sep a b :
  split sep (a ++ String sep b) = (split sep a ++ split sep b)%list.
Proof.
  induction a as [|c rest IH]; simpl.
  - rewrite Ascii.eqb_refl. reflexivity.
  - destruct (Ascii.eqb c sep); simpl.
    + rewrite IH. reflexivity.
    + rewrite IH. destruct (split sep rest) eqn:E; simpl.
      * exfalso. exact (split_not_nil _ _ E).
      * reflexivity.
Qed.

Lemma last_segment_index parts :
  js_index parts (Z.of_nat (length parts) - 1) = last_segment parts.
Proof.
  unfold js_index. destruct parts as [|x rest]; [reflexivity|].
  replace (Z.of_nat (length (x :: rest)) - 1)%Z with (Z.of_nat (length rest))
    by (simpl length; lia).
  destruct (Z.ltb_spec (Z.of_nat (length rest)) 0); [lia|].
  rewrite Nat2Z.id. clear H. revert x.
  induction rest as [|y rest IH]; intros x; [reflexivity|].
  simpl length. simpl nth_error. rewrite IH. reflexivity.
Qed.

Lemma second_to_last_segment_index parts :
  js_index parts (Z.of_nat (length parts) - 2) = second_to_last_segment parts.
Proof.
  unfold js_index. destruct parts as [|x [|y rest]]; [reflexivity..|].
  replace (Z.of_nat (length (x :: y :: rest)) - 2)%Z with (Z.of_nat (length rest))
    by (simpl length; lia).
  destruct (Z.ltb_spec (Z.of_nat (length rest)) 0); [lia|].
  rewrite Nat2Z.id. clear H. revert x y.
  induction rest as [|z rest IH]; intros x y; [reflexivity|].
  simpl length. simpl nth_error. rewrite (IH y z). reflexivity.
Qed.

Lemma folderName_of_segments file :
  folderName_of file = second_to_last_segment (split "/" (name file)).
Proof. apply second_to_last_segment_index. Qed.

Lemma fileName_of_segments file :
  fileName_of file = last_segment (split "/" (name file)).
Proof. apply last_segment_index. Qed.

Lemma second_to_last_segment_app pre x y :
  second_to_last_segment (pre ++ [x; y]) = Some x.
Proof.
  induction pre as [|a pre IH]; [reflexivity|].
  simpl. rewrite IH. destruct pre as [|b [|c pre]]; reflexivity.
Qed.

Lemma last_segment_app pre y : last_segment (pre ++ [y]) = Some y.
Proof.
  induction pre as [|a pre IH]; [reflexivity|].
  simpl. rewrite IH. destruct pre; reflexivity.
Qed.

(** The folder of [p/seg/leaf] is [seg], whatever [p] is. *)
Lemma folderName_of_nested p seg leaf md :
  no_sep "/" seg = true -> no_sep "/" leaf = true ->
  folderName_of {| name := p ++ "/" ++ seg ++ "/" ++ leaf; metadata := md |}
  = Some seg.
Proof.
  intros Hs Hl. rewrite folderName_of_segments. simpl name.
  change (p ++ "/" ++ seg ++ "/" ++ leaf)
    with (p ++ String "/" (seg ++ String "/" leaf)).
  rewrite !split_app, (split_no_sep _ _ Hs), (split_no_sep _ _ Hl).
  apply second_to_last_segment_app.
Qed.

Lemma fileName_of_nested p leaf md :
  no_sep "/" leaf = true ->
  fileName_of {| name := p ++ "/" ++ leaf; metadata := md |} = Some leaf.
Proof.
  intros Hl. rewrite fileName_of_segments. simpl name.
  change (p ++ "/" ++ leaf) with (p ++ String "/" leaf).
  rewrite split_app, (split_no_sep _ _ Hl).
  apply last_segment_app.
Qed.

Lemma Set_add_iff x y s : In x (Set_add y s) <-> x = y \/ In x s.
Proof. apply set_add_iff. Qed.

Lemma Set_add_nodup y s : NoDup s -> NoDup (Set_add y s).
Proof. apply set_add_nodup. Qed.

Lemma Set_has_iff x s : Set_has x s = true <-> In x s.
Proof.
  unfold Set_has. split.
  - apply set_mem_correct1.
  - apply set_mem_correct2.
Qed.

(* ------------------------------------------------------------------ *)
(** ** The classifier *)

Lemma is_marker_true cfg file :
  is_marker cfg file = true <->
  last_segment (split "/" (name file)) = Some (FOLDER_DATE_CHECK_FILE cfg).
Proof.
  unfold is_marker. rewrite fileName_of_segments.
  destruct (last_segment (split "/" (name file))) as [s|].
  - rewrite String.eqb_eq. split; congruence.
  - split; discriminate.
Qed.

Lemma created_on_or_after_true cfg file :
  created_on_or_after cfg file = true <->
  exists t, timeCreated (metadata file) = Some t /\ (MINIMUM_DATE cfg <= t)%Z.
Proof.
  unfold created_on_or_after. destruct (timeCreated (metadata file)) as [t|].
  - rewrite Z.leb_le. split.
    + intros H. exists t. auto.
    + intros (t' & E & H). congruence.
  - split; [discriminate|]. intros (t' & E & _). discriminate.
Qed.

Lemma qualifies_iff cfg file :
  is_marker cfg file && created_on_or_after cfg file = true <->
  marker_on_or_after cfg file.
Proof.
  unfold marker_on_or_after.
  rewrite andb_true_iff, is_marker_true, created_on_or_after_true. tauto.
Qed.

Lemma classify_file_recent cfg sc n file :
  recentFoldersFound (fst (classify_file cfg (sc, n) file)) =
  if is_marker cfg file && created_on_or_after cfg file
  then Set_add (folderName_of file) (recentFoldersFound sc)
  else recentFoldersFound sc.
Proof.
  unfold classify_file.
  destruct (truthy (folderName_of file) && truthy (fileName_of file));
    destruct (is_marker cfg file); destruct (created_on_or_after cfg file);
    reflexivity.
Qed.

Lemma classify_file_all cfg sc n file :
  allFoldersFoundInTotal (fst (classify_file cfg (sc, n) file)) =
  if truthy (folderName_of file) && truthy (fileName_of file)
  then Set_add (folderName_of file) (allFoldersFoundInTotal sc)
  else allFoldersFoundInTotal sc.
Proof.
  unfold classify_file.
  destruct (truthy (folderName_of file) && truthy (fileName_of file));
    destruct (is_marker cfg file); destruct (created_on_or_after cfg file);
    reflexivity.
Qed.

Lemma classify_fold_recent cfg files : forall acc x,
  In x (recentFoldersFound (fst (fold_left (classify_file cfg) files acc))) <->
  In x (recentFoldersFound (fst acc)) \/
  exists file, In file files /\ marker_on_or_after cfg file /\
               x = second_to_last_segment (split "/" (name file)).
Proof.
  induction files as [|file files IH]; intros [sc n] x; cbn [fold_left].
  - split; [auto|]. intros [H|(f & [] & _)]. exact H.
  - rewrite IH, classify_file_recent.
    destruct (is_marker cfg file && created_on_or_after cfg file) eqn:Q.
    + apply qualifies_iff in Q. rewrite Set_add_iff, folderName_of_segments.
      simpl fst. split.
      * intros [[E|H]|(f & Hf & Hq & E)].
        -- right. exists file. simpl. auto.
        -- auto.
        -- right. exists f. simpl. auto.
      * intros [H|(f & [E|Hf] & Hq & E')].
        -- auto.
        -- subst f. auto.
        -- right. exists f. auto.
    + simpl fst. split.
      * intros [H|(f & Hf & Hq & E)]; [auto|].
        right. exists f. simpl. auto.
      * intros [H|(f & [E|Hf] & Hq & E')]; [auto| |].
        -- subst f. apply qualifies_iff in Hq. congruence.
        -- right. exists f. auto.
Qed.

Lemma classify_fold_nodup cfg files : forall acc,
  NoDup (recentFoldersFound (fst acc)) ->
  NoDup (recentFoldersFound (fst (fold_left (classify_file cfg) files acc))).
Proof.
  induction files as [|file files IH]; intros [sc n] H; cbn [fold_left]; [exact H|].
  apply (IH (classify_file cfg (sc, n) file)). rewrite classify_file_recent.
  destruct (is_marker cfg file && created_on_or_after cfg file);
    [apply Set_add_nodup|]; exact H.
Qed.

(** Only a truthy segment enters the set of all folders. *)
Lemma classify_fold_all_truthy cfg files : forall acc,
  Forall (fun x => truthy x = true) (allFoldersFoundInTotal (fst acc)) ->
  Forall (fun x => truthy x = true)
         (allFoldersFoundInTotal (fst (fold_left (classify_file cfg) files acc))).
Proof.
  induction files as [|file files IH]; intros [sc n] H; cbn [fold_left]; [exact H|].
  apply (IH (classify_file cfg (sc, n) file)). rewrite classify_file_all. simpl fst.
  destruct (truthy (folderName_of file)) eqn:T; simpl; [|exact H].
  destruct (truthy (fileName_of file)); [|exact H].
  apply Forall_forall. intros x Hx. apply Set_add_iff in Hx.
  destruct Hx as [->|Hx]; [exact T|].
  rewrite Forall_forall in H. auto.
Qed.

(* ------------------------------------------------------------------ *)
(** ** Running the monad *)

Section Running.
Context {W : Type}.

Lemma extend_extend (st : St W) w l w' l' :
  extend (extend st w l) w' l' = extend st w' (l ++ l').
Proof. unfold extend. simpl. rewrite app_assoc. reflexivity. Qed.

Lemma extend_nil (st : St W) : extend st (world st) [] = st.
Proof. destruct st. unfold extend. simpl. rewrite app_nil_r. reflexivity. Qed.

Lemma run_emit e (st : St W) :
  emit e st = (Val tt, extend st (world st) [e]).
Proof. reflexivity. Qed.

Lemma run_log l (st : St W) :
  log l st = (Val tt, extend st (world st) [EvLog l]).
Proof. reflexivity. Qed.

Lemma run_call_ok {A} e (f : W -> Reply A * W) (st : St W) a w :
  f (world st) = (Ok a, w) -> call e f st = (Val a, extend st w [e]).
Proof. intros H. unfold call. rewrite H. reflexivity. Qed.

Lemma run_call_fail {A} e (f : W -> Reply A * W) (st : St W) err w :
  f (world st) = (Fail err, w) -> call e f st = (Exn err, extend st w [e]).
Proof. intros H. unfold call. rewrite H. reflexivity. Qed.

Lemma run_bind_val {A B} (m : M W A) (k : A -> M W B) st a st' :
  m st = (Val a, st') -> bind m k st = k a st'.
Proof. intros H. unfold bind. rewrite H. reflexivity. Qed.

Lemma run_bind_exn {A B} (m : M W A) (k : A -> M W B) st e st' :
  m st = (Exn e, st') -> bind m k st = (Exn e, st').
Proof. intros H. unfold bind. rewrite H. reflexivity. Qed.

Lemma run_bind_out {A B} (m : M W A) (k : A -> M W B) st st' :
  m st = (OutOfFuel, st') -> bind m k st = (OutOfFuel, st').
Proof. intros H. unfold bind. rewrite H. reflexivity. Qed.
End Running.

(* ------------------------------------------------------------------ *)
(** ** Step 1: the scan *)

Section ScanFacts.
Context {W : Type} (be : Backend W) (cfg : Config).

Lemma scan_loop_serves tok w pages w' :
  Serves be cfg tok w pages w' ->
  forall fuel sc tr, length pages < fuel ->
  exists sc' l,
    scan_loop be cfg fuel tok sc {| world := w; trace := tr |}
    = (Val sc', {| world := w'; trace := (tr ++ l)%list |}) /\
    (forall x, In x (recentFoldersFound sc') <->
               In x (recentFoldersFound sc) \/
               exists file, In file (concat pages) /\ marker_on_or_after cfg file /\
                            x = second_to_last_segment (split "/" (name file))) /\
    (NoDup (recentFoldersFound sc) -> NoDup (recentFoldersFound sc')).
Proof.
  induction 1 as [tok w next w' Hget Hnext
                 |tok w files next w' Hne Hget Hnext
                 |tok w files next w1 pages w' Hne Hget Hnext Hrest IH];
    intros fuel sc tr Hfuel; (destruct fuel as [|fuel]; [simpl in Hfuel; lia|]).
  - cbn [scan_loop].
    erewrite run_bind_val by (apply run_call_ok; exact Hget).
    destruct (truthy tok); cbn.
    + eexists _, _. split; [reflexivity|]. split; [|auto].
      intros x. split; [auto|]. intros [H|(f & [] & _)]. exact H.
    + eexists _, _. split; [rewrite <- app_assoc; reflexivity|]. split; [|auto].
      intros x. split; [auto|]. intros [H|(f & [] & _)]. exact H.
  - cbn [scan_loop].
    erewrite run_bind_val by (apply run_call_ok; exact Hget).
    destruct files as [|f0 files0]; [congruence|].
    unfold classify_files.
    match goal with
    | |- context [fold_left (classify_file cfg) ?fs (?s0, 0)] =>
        pose proof (classify_fold_recent cfg fs (s0, 0)) as Hiff;
        pose proof (classify_fold_nodup cfg fs (s0, 0)) as Hnd;
        destruct (fold_left (classify_file cfg) fs (s0, 0)) as [sc1 n1]
    end.
    cbn [fst recentFoldersFound] in Hiff, Hnd.
    erewrite run_bind_val by apply run_log.
    rewrite Hnext. unfold ret, extend. cbn [world trace].
    eexists _, _. split; [rewrite <- app_assoc; reflexivity|].
    split; [|exact Hnd].
    intros x. rewrite Hiff. cbn [concat]. rewrite app_nil_r. reflexivity.
  - cbn [scan_loop].
    erewrite run_bind_val by (apply run_call_ok; exact Hget).
    destruct files as [|f0 files0]; [congruence|].
    unfold classify_files.
    match goal with
    | |- context [fold_left (classify_file cfg) ?fs (?s0, 0)] =>
        pose proof (classify_fold_recent cfg fs (s0, 0)) as Hiff;
        pose proof (classify_fold_nodup cfg fs (s0, 0)) as Hnd;
        destruct (fold_left (classify_file cfg) fs (s0, 0)) as [sc1 n1]
    end.
    cbn [fst recentFoldersFound] in Hiff, Hnd.
    erewrite run_bind_val by apply run_log.
    rewrite Hnext. unfold extend. cbn [world trace].
    destruct (IH fuel sc1 ((tr ++ [EvGetFiles (scan_options cfg tok)]) ++
                           [EvLog (LogRequest (requestCount sc1) (totalFilesCount sc1)
                                     (length (allFoldersFoundInTotal sc1)) n1)])%list)
      as (sc' & l & Hrun & Hiff' & Hnd'); [simpl in Hfuel; lia|].
    rewrite Hrun. eexists _, _. split; [rewrite <- !app_assoc; reflexivity|].
    split; [|auto].
    intros x. rewrite Hiff', Hiff. cbn [concat]. split.
    + intros [[H|(f & Hf & Hq)]|(f & Hf & Hq)]; [auto| |].
      * right. exists f. rewrite in_app_iff. auto.
      * right. exists f. rewrite in_app_iff. auto.
    + intros [H|(f & Hf & Hq)]; [auto|].
      apply in_app_iff in Hf. destruct Hf as [Hf|Hf].
      * left. right. exists f. auto.
      * right. exists f. auto.
Qed.
End ScanFacts.

(** C2.  Date-filtered classifier.  When the source client hands out the
    object records in [pages], the scan ends and its recent-folder set is
    duplicate-free and holds exactly the second-to-last path segments of
    the records whose last segment is the marker filename and whose
    creation instant is at or after the cut-off (inclusive).  A folder all
    of whose marker records are dated before the cut-off is not in the
    set, whatever the dates of its other records.  The segment is the
    value of [pathParts[pathParts.length - 2]], which is [undefined] for a
    key of one segment. *)
Theorem recent_folders_are_marker_folders
        {W} (be : Backend W) (cfg : Config) pages w w' fuel tr :
  Serves be cfg None w pages w' ->
  length pages < fuel ->
  exists finalFolders l,
    scan be cfg fuel {| world := w; trace := tr |}
    = (Val finalFolders, {| world := w'; trace := (tr ++ l)%list |}) /\
    NoDup finalFolders /\
    (forall x, In x finalFolders <->
               exists file, In file (concat pages) /\
                            marker_on_or_after cfg file /\
                            x = second_to_last_segment (split "/" (name file))) /\
    (forall x,
        (forall file t, In file (concat pages) ->
                        second_to_last_segment (split "/" (name file)) = x ->
                        last_segment (split "/" (name file))
                        = Some (FOLDER_DATE_CHECK_FILE cfg) ->
                        timeCreated (metadata file) = Some t ->
                        (t < MINIMUM_DATE cfg)%Z) ->
        ~ In x finalFolders).
Proof.
  intros Hs Hfuel. unfold scan.
  erewrite run_bind_val by apply run_log.
  erewrite run_bind_val by apply run_log.
  unfold extend. cbn [world trace].
  destruct (scan_loop_serves Hs initial_scan
              ((tr ++ [EvLog (LogGettingFileList (GCP_BUCKET_NAME cfg)
                                                  (GCP_INTERNAL_PATH cfg))]) ++
               [EvLog (LogSearching (MINIMUM_DATE cfg))])%list Hfuel)
    as (sc & l & Hrun & Hiff & Hnd).
  erewrite run_bind_val by exact Hrun.
  assert (Hiff' : forall x, In x (recentFoldersFound sc) <->
                  exists file, In file (concat pages) /\
                               marker_on_or_after cfg file /\
                               x = second_to_last_segment (split "/" (name file))).
  { intros x. rewrite Hiff. cbn. tauto. }
  assert (Hexcl : forall x,
        (forall file t, In file (concat pages) ->
                        second_to_last_segment (split "/" (name file)) = x ->
                        last_segment (split "/" (name file))
                        = Some (FOLDER_DATE_CHECK_FILE cfg) ->
                        timeCreated (metadata file) = Some t ->
                        (t < MINIMUM_DATE cfg)%Z) ->
        ~ In x (recentFoldersFound sc)).
  { intros x Hold Hin. apply Hiff' in Hin.
    destruct Hin as (f & Hf & (Hm & t & Ht & Hle) & ->).
    specialize (Hold f t Hf eq_refl Hm Ht). lia. }
  destruct (length (recentFoldersFound sc) =? 0)%nat.
  - erewrite run_bind_val by apply run_log.
    unfold ret, extend. cbn [world trace].
    eexists _, _. split; [rewrite <- !app_assoc; reflexivity|].
    split; [apply Hnd; constructor|]. split; assumption.
  - erewrite run_bind_val
      by (erewrite run_bind_val by apply run_log; apply run_log).
    unfold ret, extend. cbn [world trace].
    eexists _, _. split; [rewrite <- !app_assoc; reflexivity|].
    split; [apply Hnd; constructor|]. split; assumption.
Qed.

(** C3.  The code at an object without a folder.  A recent marker object
    whose key is the bare marker filename puts [undefined] into the
    recent-folder set, and one whose second-to-last segment is empty puts
    the empty string there; the set of all folders, which is guarded by
    [if (folderName && fileName)], receives neither. *)
Theorem folderless_marker_enters_recent_set :
  (let sc := fst (classify_files example_config
                    [fst (object "marker.json" april_2025 [])] initial_scan) in
   recentFoldersFound sc = [None] /\ allFoldersFoundInTotal sc = []) /\
  (let sc := fst (classify_files example_config
                    [fst (object "root//marker.json" april_2025 [])] initial_scan) in
   recentFoldersFound sc = [Some ""] /\ allFoldersFoundInTotal sc = []) /\
  fst (scan sim example_config 2
         (start (bucket [object "root//marker.json" april_2025 []] [] 1000)))
  = Val [Some ""].
Proof. repeat split; vm_compute; reflexivity. Qed.

(* ------------------------------------------------------------------ *)
(** ** gcp-r2-migration.ts: the retry loop and the task *)

Section TaskFacts.
Context {W : Type} (be : Backend W) (cfg : Config).

Lemma download_loop_failed rounds i file (st : St W) r w1 :
  gcs_download be file (world st) = (r, w1) ->
  failed_attempt r = true ->
  FullDiff.download_loop be (S rounds) i file st
  = FullDiff.download_loop be rounds (S i) file
      (extend st w1 (failed_round (name file) i r)).
Proof.
  intros Hd Hf. cbn [FullDiff.download_loop].
  unfold bind at 1. unfold try_catch, bind at 1, call. rewrite Hd.
  destruct r as [[b|]|e]; [discriminate| |]; cbn;
    unfold extend, failed_round; cbn; rewrite <- !app_assoc; reflexivity.
Qed.

Lemma download_loop_buffer rounds i file (st : St W) b w1 :
  gcs_download be file (world st) = (Ok (Some b), w1) ->
  FullDiff.download_loop be (S rounds) i file st
  = (Val (Some b), extend st w1 [EvDownload (name file)]).
Proof.
  intros Hd. cbn [FullDiff.download_loop].
  unfold bind at 1. unfold try_catch, bind at 1, call. rewrite Hd.
  reflexivity.
Qed.

(** The retry loop always ends with a value: it throws nothing. *)
Lemma download_loop_total rounds : forall i file (st : St W),
  exists got st', FullDiff.download_loop be rounds i file st = (Val got, st').
Proof.
  induction rounds as [|rounds IH]; intros i file st.
  - eexists _, _. reflexivity.
  - destruct (gcs_download be file (world st)) as [r w1] eqn:Hd.
    destruct (failed_attempt r) eqn:Hf.
    + rewrite (download_loop_failed _ _ _ _ Hd Hf). apply IH.
    + destruct r as [[b|]|e]; try discriminate.
      rewrite (download_loop_buffer _ _ _ _ Hd). eexists _, _. reflexivity.
Qed.



(** The task after the retry loop. *)
Lemma transfer_task_skipped total file cnt (st st1 : St W) :
  FullDiff.download_loop be 3 0 file st = (Val None, st1) ->
  FullDiff.transfer_task be cfg total file cnt st
  = (Val cnt, extend st1 (world st1) [EvLog (LogSkipping (name file))]).
Proof.
  intros H. unfold FullDiff.transfer_task.
  erewrite run_bind_val by exact H. reflexivity.
Qed.

Lemma transfer_task_uploaded total file cnt (st st1 : St W) b w2 :
  FullDiff.download_loop be 3 0 file st = (Val (Some b), st1) ->
  s3_putObject be (FullDiff.upload_params cfg file b) (world st1) = (Ok tt, w2) ->
  FullDiff.transfer_task be cfg total file cnt st
  = (Val (S cnt),
     extend st1 w2 [EvPutObject (FullDiff.upload_params cfg file b);
                    EvLog (LogTransferred (S cnt) total (name file))]).
Proof.
  intros H Hp. unfold FullDiff.transfer_task.
  erewrite run_bind_val by exact H. cbn beta iota.
  erewrite run_bind_val by (apply run_call_ok; exact Hp).
  rewrite run_bind_val with (a := tt)
    (st' := extend (extend st1 w2 [EvPutObject (FullDiff.upload_params cfg file b)])
                   w2 [EvLog (LogTransferred (S cnt) total (name file))])
    by reflexivity.
  unfold ret. rewrite extend_extend. reflexivity.
Qed.

Lemma transfer_task_upload_failed total file cnt (st st1 : St W) b e w2 :
  FullDiff.download_loop be 3 0 file st = (Val (Some b), st1) ->
  s3_putObject be (FullDiff.upload_params cfg file b) (world st1) = (Fail e, w2) ->
  FullDiff.transfer_task be cfg total file cnt st
  = (Exn e, extend st1 w2 [EvPutObject (FullDiff.upload_params cfg file b)]).
Proof.
  intros H Hp. unfold FullDiff.transfer_task.
  erewrite run_bind_val by exact H. cbn beta iota.
  erewrite run_bind_exn by (apply run_call_fail; exact Hp).
  reflexivity.
Qed.

(** The task never runs out of fuel: it holds no unbounded loop. *)
Lemma transfer_task_settles total file cnt (st : St W) :
  (exists c st', FullDiff.transfer_task be cfg total file cnt st = (Val c, st')) \/
  (exists e st', FullDiff.transfer_task be cfg total file cnt st = (Exn e, st')).
Proof.
  destruct (download_loop_total 3 0 file st) as ([b|] & st1 & Hl).
  - destruct (s3_putObject be (FullDiff.upload_params cfg file b) (world st1))
      as [[[]|e] w2] eqn:Hp.
    + left. eexists _, _. eapply transfer_task_uploaded; eassumption.
    + right. eexists _, _. eapply transfer_task_upload_failed; eassumption.
  - left. eexists _, _. apply transfer_task_skipped. exact Hl.
Qed.
End TaskFacts.

(* ------------------------------------------------------------------ *)
(** ** What a computation adds to the trace *)

Section Emits.
Context {W : Type}.

Lemma emits_ret {A} P (a : A) : emits P (@ret W A a).
Proof. intros st. exists []. cbn. rewrite app_nil_r. auto. Qed.

Lemma emits_throw {A} P e : emits P (@throw W A e).
Proof. intros st. exists []. cbn. rewrite app_nil_r. auto. Qed.

Lemma emits_out_of_fuel {A} P : emits P (@out_of_fuel W A).
Proof. intros st. exists []. cbn. rewrite app_nil_r. auto. Qed.

Lemma emits_emit (P : Event -> Prop) e : P e -> emits P (@emit W e).
Proof. intros H st. exists [e]. cbn. auto. Qed.

Lemma emits_log (P : Event -> Prop) l : P (EvLog l) -> emits P (@log W l).
Proof. apply emits_emit. Qed.

Lemma emits_call {A} (P : Event -> Prop) e (f : W -> Reply A * W) :
  P e -> emits P (call e f).
Proof.
  intros H st. exists [e]. unfold call.
  destruct (f (world st)) as [[a|err] w]; cbn; auto.
Qed.

Lemma emits_bind {A B} P (m : M W A) (k : A -> M W B) :
  emits P m -> (forall a, emits P (k a)) -> emits P (bind m k).
Proof.
  intros Hm Hk st. unfold bind. destruct (Hm st) as (l & E & F).
  destruct (m st) as [[a|e|] st1]; cbn in E.
  - destruct (Hk a st1) as (l' & E' & F'). exists (l ++ l')%list.
    rewrite E', E, app_assoc. split; [reflexivity|]. apply Forall_app. auto.
  - exists l. auto.
  - exists l. auto.
Qed.

Lemma emits_try_catch {A} P (m : M W A) (h : Err -> M W A) :
  emits P m -> (forall e, emits P (h e)) -> emits P (try_catch m h).
Proof.
  intros Hm Hh st. unfold try_catch. destruct (Hm st) as (l & E & F).
  destruct (m st) as [[a|e|] st1]; cbn in E.
  - exists l. auto.
  - destruct (Hh e st1) as (l' & E' & F'). exists (l ++ l')%list.
    rewrite E', E, app_assoc. split; [reflexivity|]. apply Forall_app. auto.
  - exists l. auto.
Qed.

Lemma emits_when P c (m : M W unit) : emits P m -> emits P (when c m).
Proof. intros H. destruct c; [exact H|apply emits_ret]. Qed.

Lemma emits_weaken {A} (P Q : Event -> Prop) (m : M W A) :
  (forall e, P e -> Q e) -> emits P m -> emits Q m.
Proof.
  intros H Hm st. destruct (Hm st) as (l & E & F). exists l.
  split; [exact E|]. eapply Forall_impl; eauto.
Qed.
End Emits.

Section PoolFacts.
Context {W : Type} (be : Backend W) (cfg : Config).

Lemma download_loop_emits (P : Event -> Prop) file :
  P (EvDownload (name file)) ->
  (forall e, match e with EvLog _ | EvSleep _ => P e | _ => True end) ->
  forall rounds i, emits P (FullDiff.download_loop be rounds i file).
Proof.
  intros Hd Hl. induction rounds as [|rounds IH]; intros i; cbn [FullDiff.download_loop].
  - apply emits_ret.
  - apply emits_bind.
    + apply emits_try_catch.
      * apply emits_bind; [apply emits_call; exact Hd|].
        intros [b|]; [apply emits_ret|apply emits_throw].
      * intros e. repeat (apply emits_bind; [|intros _]);
          try apply emits_ret; try apply emits_log; try apply emits_emit.
        -- exact (Hl (EvLog (LogRetrying (name file) (i + 1)))).
        -- exact (Hl (EvLog (LogDownloadFailed e))).
        -- exact (Hl (EvSleep 1000)).
    + intros [b|]; [apply emits_ret|apply IH].
Qed.

Lemma transfer_task_emits (P : Event -> Prop) total file cnt :
  P (EvDownload (name file)) ->
  (forall b, P (EvPutObject (FullDiff.upload_params cfg file b))) ->
  (forall e, match e with EvLog _ | EvSleep _ => P e | _ => True end) ->
  emits P (FullDiff.transfer_task be cfg total file cnt).
Proof.
  intros Hd Hp Hl. unfold FullDiff.transfer_task.
  apply emits_bind; [apply download_loop_emits; assumption|].
  intros [b|].
  - apply emits_bind; [apply emits_call; apply Hp|]. intros _.
    apply emits_bind; [apply emits_log|intros _; apply emits_ret].
    exact (Hl (EvLog (LogTransferred (S cnt) total (name file)))).
  - apply emits_bind; [apply emits_log|intros _; apply emits_ret].
    exact (Hl (EvLog (LogSkipping (name file)))).
Qed.

(** A task begins with a download of its file. *)
Lemma transfer_task_starts total file cnt (st : St W) :
  exists l, trace (snd (FullDiff.transfer_task be cfg total file cnt st))
            = (trace st ++ EvDownload (name file) :: l)%list.
Proof.
  unfold FullDiff.transfer_task.
  assert (Hloop : exists got st1 l1,
             FullDiff.download_loop be 3 0 file st = (Val got, st1) /\
             trace st1 = (trace st ++ EvDownload (name file) :: l1)%list).
  { destruct (gcs_download be file (world st)) as [r w1] eqn:Hd.
    destruct (failed_attempt r) eqn:Hf.
    - rewrite (download_loop_failed be _ _ _ _ Hd Hf).
      destruct (download_loop_total be 2 1 file
                  (extend st w1 (failed_round (name file) 0 r)))
        as (got & st1 & E).
      destruct (download_loop_emits (fun _ => True) file I
                  (fun e => match e with EvLog _ | EvSleep _ => I | _ => I end)
                  2 1 (extend st w1 (failed_round (name file) 0 r)))
        as (l & El & _).
      rewrite E in El |- *. cbn in El. eexists _, _, _. split; [reflexivity|].
      rewrite El, <- app_assoc. reflexivity.
    - destruct r as [[b|]|e]; try discriminate.
      rewrite (download_loop_buffer be _ _ _ _ Hd).
      eexists _, _, []. split; reflexivity. }
  destruct Hloop as (got & st1 & l1 & E & Et).
  erewrite run_bind_val by exact E. cbn beta iota.
  match goal with
  | |- exists l, trace (snd (?m st1)) = _ =>
      assert (Hm : emits (fun _ => True) m)
  end.
  { destruct got as [b|];
      repeat (apply emits_bind; [|intros _]);
      try apply emits_ret; try apply emits_log; try apply emits_call; exact I. }
  destruct (Hm st1) as (l2 & E2 & _). rewrite E2, Et, <- app_assoc.
  eexists. reflexivity.
Qed.

Lemma run_pool_cons_val total file rest cnt (st : St W) c st1 :
  FullDiff.transfer_task be cfg total file cnt st = (Val c, st1) ->
  FullDiff.run_pool be cfg total (file :: rest) cnt st
  = (rs <- FullDiff.run_pool be cfg total rest c ;; ret (Fulfilled :: rs)) st1.
Proof. intros H. cbn [FullDiff.run_pool]. rewrite H. reflexivity. Qed.

Lemma run_pool_cons_exn total file rest cnt (st : St W) e st1 :
  FullDiff.transfer_task be cfg total file cnt st = (Exn e, st1) ->
  FullDiff.run_pool be cfg total (file :: rest) cnt st
  = (rs <- FullDiff.run_pool be cfg total rest cnt ;; ret (Rejected e :: rs)) st1.
Proof. intros H. cbn [FullDiff.run_pool]. rewrite H. reflexivity. Qed.

(** The pool runs every task: it ends with one settled promise per file,
    and each file has been asked for. *)
Lemma run_pool_runs_all total files : forall cnt (st : St W),
  exists rs w l,
    FullDiff.run_pool be cfg total files cnt st = (Val rs, extend st w l) /\
    length rs = length files /\
    forall file, In file files -> In (EvDownload (name file)) l.
Proof.
  induction files as [|file rest IH]; intros cnt st.
  - exists [], (world st), []. rewrite extend_nil. cbn. repeat split. intros f [].
  - destruct (transfer_task_starts total file cnt st) as (l0 & E0).
    destruct (transfer_task_settles be cfg total file cnt st)
      as [(c & st1 & E)|(e & st1 & E)]; rewrite E in E0; cbn in E0.
    + erewrite run_pool_cons_val by exact E.
      destruct (IH c st1) as (rs & w & l & Er & Hlen & Hall).
      erewrite run_bind_val by exact Er.
      exists (Fulfilled :: rs), w, (EvDownload (name file) :: l0 ++ l)%list.
      split; [|split].
      * unfold ret, extend. cbn. rewrite E0, <- app_assoc. reflexivity.
      * cbn. congruence.
      * intros f [<-|Hf]; [left; reflexivity|].
        right. apply in_app_iff. right. auto.
    + erewrite run_pool_cons_exn by exact E.
      destruct (IH cnt st1) as (rs & w & l & Er & Hlen & Hall).
      erewrite run_bind_val by exact Er.
      exists (Rejected e :: rs), w, (EvDownload (name file) :: l0 ++ l)%list.
      split; [|split].
      * unfold ret, extend. cbn. rewrite E0, <- app_assoc. reflexivity.
      * cbn. congruence.
      * intros f [<-|Hf]; [left; reflexivity|].
        right. apply in_app_iff. right. auto.
Qed.
End PoolFacts.

Lemma count_app p l1 l2 : count p (l1 ++ l2) = count p l1 + count p l2.
Proof. unfold count. rewrite filter_app, length_app. reflexivity. Qed.

Lemma count_failed_round key i r :
  count (is_put_of key) (failed_round key i r) = 0 /\
  count (is_skip_of key) (failed_round key i r) = 0 /\
  count (is_download_of key) (failed_round key i r) = 1.
Proof.
  unfold count, failed_round. cbn. rewrite String.eqb_refl. auto.
Qed.


Lemma upload_body_is_buffer cfg file b :
  put_Body (FullDiff.upload_params cfg file b) = Some b /\
  put_Key (FullDiff.upload_params cfg file b) = name file.
Proof. destruct b; auto. Qed.


(* ------------------------------------------------------------------ *)
(** ** gcp-r2-migration.ts: the folder loop and the top level *)

Section FolderFacts.
Context {W : Type} (be : Backend W) (cfg : Config).

Lemma Promise_all_run rs (st : St W) :
  FullDiff.Promise_all rs st
  = match first_rejection rs with
    | Some e => (Exn e, st)
    | None => (Val tt, st)
    end.
Proof.
  induction rs as [|[|e] rs IH]; cbn; [reflexivity|exact IH|reflexivity].
Qed.

(** A rejected task of the pool makes the folder body throw at
    [await Promise.all], after the whole pool has run. *)
Lemma migrate_folder_rejected fuel total folder cnt (st : St W)
      files st1 rs st2 e :
  FullDiff.files_to_migrate be cfg fuel folder
    (extend st (world st) [EvLog (LogStartFolder folder)]) = (Val files, st1) ->
  files <> [] ->
  FullDiff.run_pool be cfg (length files) files 0 st1 = (Val rs, st2) ->
  first_rejection rs = Some e ->
  FullDiff.migrate_folder be cfg fuel total folder cnt st = (Exn e, st2).
Proof.
  intros Hf Hne Hp Hr. unfold FullDiff.migrate_folder.
  erewrite run_bind_val by apply run_log.
  erewrite run_bind_val by exact Hf. cbn beta.
  destruct files as [|f0 files0]; [congruence|].
  cbn [length Nat.eqb].
  erewrite run_bind_val by exact Hp.
  erewrite run_bind_exn; [reflexivity|].
  rewrite Promise_all_run, Hr. reflexivity.
Qed.

Lemma migrate_folders_app fuel total done rest : forall cnt (st : St W),
  FullDiff.migrate_folders be cfg fuel total (done ++ rest) cnt st
  = (c <- FullDiff.migrate_folders be cfg fuel total done cnt ;;
     FullDiff.migrate_folders be cfg fuel total rest c) st.
Proof.
  induction done as [|folder done IH]; intros cnt st; [reflexivity|].
  cbn [app FullDiff.migrate_folders]. unfold bind.
  destruct (FullDiff.migrate_folder be cfg fuel total folder cnt st)
    as [[c|e|] st1]; [|reflexivity..].
  rewrite IH. reflexivity.
Qed.

(** The folder that throws is the last one that the loop touches. *)
Lemma migrate_folders_stop fuel total done folder rest cnt (st : St W)
      c st1 e st2 :
  FullDiff.migrate_folders be cfg fuel total done cnt st = (Val c, st1) ->
  FullDiff.migrate_folder be cfg fuel total folder c st1 = (Exn e, st2) ->
  FullDiff.migrate_folders be cfg fuel total (done ++ folder :: rest)%list cnt st
  = (Exn e, st2).
Proof.
  intros Hd Hf. rewrite migrate_folders_app.
  erewrite run_bind_val by exact Hd.
  cbn [FullDiff.migrate_folders].
  erewrite run_bind_exn by exact Hf. reflexivity.
Qed.

(** The top-level [catch]. *)
Lemma top_level_catch fuel (st : St W) e st' :
  FullDiff.pipeline be cfg fuel st = (Exn e, st') ->
  FullDiff.findAndProcessRecentFolders be cfg fuel st
  = (Val tt, extend st' (world st') [EvLog (LogOverallError e)]).
Proof.
  intros H. unfold FullDiff.findAndProcessRecentFolders, try_catch.
  rewrite H. reflexivity.
Qed.

Lemma top_level_fulfilled fuel (st : St W) :
  (exists st', FullDiff.findAndProcessRecentFolders be cfg fuel st = (Val tt, st')) \/
  (exists st', FullDiff.findAndProcessRecentFolders be cfg fuel st = (OutOfFuel, st')).
Proof.
  unfold FullDiff.findAndProcessRecentFolders, try_catch.
  destruct (FullDiff.pipeline be cfg fuel st) as [[[]|e|] st'].
  - left. eexists. reflexivity.
  - left. eexists. reflexivity.
  - right. eexists. reflexivity.
Qed.

Lemma pipeline_stop fuel (st : St W) done folder rest st0 c st1 e st2 :
  scan be cfg fuel st = (Val (done ++ folder :: rest)%list, st0) ->
  FullDiff.migrate_folders be cfg fuel (length (done ++ folder :: rest)%list) done 0
    (extend st0 (world st0) [EvLog LogStartingMigration]) = (Val c, st1) ->
  FullDiff.migrate_folder be cfg fuel (length (done ++ folder :: rest)%list) folder c st1
  = (Exn e, st2) ->
  FullDiff.pipeline be cfg fuel st = (Exn e, st2).
Proof.
  intros Hs Hd Hf. unfold FullDiff.pipeline.
  erewrite run_bind_val by exact Hs.
  erewrite run_bind_val by apply run_log.
  erewrite run_bind_exn; [reflexivity|].
  eapply migrate_folders_stop; eassumption.
Qed.
End FolderFacts.

(** C7 (as amended).  An error thrown inside the [try] block, by a listing
    call in particular, is caught once by the top-level [catch] and
    printed; the function then returns normally.  Its promise is never
    rejected: a run that met a fatal error ends fulfilled exactly as a
    successful run does, and differs from it only by the printed error
    line in place of the final line. *)
Theorem fatal_error_is_logged_and_swallowed {W} (be : Backend W) (cfg : Config) :
  (forall fuel (st : St W),
      (exists st', FullDiff.findAndProcessRecentFolders be cfg fuel st = (Val tt, st')) \/
      (exists st', FullDiff.findAndProcessRecentFolders be cfg fuel st = (OutOfFuel, st'))) /\
  (forall fuel (st : St W) e st',
      FullDiff.pipeline be cfg fuel st = (Exn e, st') ->
      FullDiff.findAndProcessRecentFolders be cfg fuel st
      = (Val tt, extend st' (world st') [EvLog (LogOverallError e)])) /\
  (forall fuel (st : St W) e w1,
      gcs_getFiles be (scan_options cfg None) (world st) = (Fail e, w1) ->
      FullDiff.findAndProcessRecentFolders be cfg (S fuel) st
      = (Val tt,
         extend st w1
           [EvLog (LogGettingFileList (GCP_BUCKET_NAME cfg) (GCP_INTERNAL_PATH cfg));
            EvLog (LogSearching (MINIMUM_DATE cfg));
            EvGetFiles (scan_options cfg None);
            EvLog (LogOverallError e)])) /\
  (forall fuel (st : St W) folder rest st0 e w1,
      scan be cfg (S fuel) st = (Val (folder :: rest), st0) ->
      s3_listObjectsV2 be (FullDiff.list_params cfg folder) (world st0) = (Fail e, w1) ->
      FullDiff.findAndProcessRecentFolders be cfg (S fuel) st
      = (Val tt,
         extend st0 w1
           [EvLog LogStartingMigration;
            EvLog (LogStartFolder folder);
            EvListObjectsV2 (FullDiff.list_params cfg folder);
            EvLog (LogOverallError e)])).
Proof.
  split; [|split; [|split]].
  - intros. apply top_level_fulfilled.
  - intros. apply top_level_catch. assumption.
  - intros fuel st e w1 Hg.
    assert (Hp : FullDiff.pipeline be cfg (S fuel) st
                 = (Exn e,
                    extend st w1
                      [EvLog (LogGettingFileList (GCP_BUCKET_NAME cfg)
                                                 (GCP_INTERNAL_PATH cfg));
                       EvLog (LogSearching (MINIMUM_DATE cfg));
                       EvGetFiles (scan_options cfg None)])).
    { unfold FullDiff.pipeline, scan.
      erewrite run_bind_exn; [reflexivity|].
      erewrite run_bind_val by apply run_log.
      erewrite run_bind_val by apply run_log.
      erewrite run_bind_exn; [|cbn [scan_loop];
        erewrite run_bind_exn; [reflexivity|apply run_call_fail; exact Hg]].
      rewrite !extend_extend. reflexivity. }
    erewrite top_level_catch by exact Hp.
    unfold extend. cbn [world trace]. rewrite <- app_assoc. reflexivity.
  - intros fuel st folder rest st0 e w1 Hs Hl.
    assert (Hp : FullDiff.pipeline be cfg (S fuel) st
                 = (Exn e,
                    extend st0 w1
                      [EvLog LogStartingMigration;
                       EvLog (LogStartFolder folder);
                       EvListObjectsV2 (FullDiff.list_params cfg folder)])).
    { unfold FullDiff.pipeline.
      erewrite run_bind_val by exact Hs.
      erewrite run_bind_val by apply run_log.
      erewrite run_bind_exn; [reflexivity|].
      cbn [FullDiff.migrate_folders].
      erewrite run_bind_exn; [reflexivity|].
      unfold FullDiff.migrate_folder.
      erewrite run_bind_val by apply run_log.
      erewrite run_bind_exn; [|unfold FullDiff.files_to_migrate;
        erewrite run_bind_exn; [reflexivity|]; cbn [FullDiff.list_r2_files];
        erewrite run_bind_exn; [reflexivity|apply run_call_fail; exact Hl]].
      rewrite !extend_extend. reflexivity. }
    erewrite top_level_catch by exact Hp.
    unfold extend. cbn [world trace]. rewrite <- app_assoc. reflexivity.
Qed.

(* ------------------------------------------------------------------ *)
(** ** gcp-r2-migration.ts: the listing of the destination folder *)

Section DifferFacts.
Context {W : Type} (be : Backend W) (cfg : Config).

Lemma fst_bind_out {A B} (m : M W A) (k : A -> M W B) st :
  fst (m st) = OutOfFuel -> fst (bind m k st) = OutOfFuel.
Proof.
  unfold bind. destruct (m st) as [[a|e|] st']; cbn; congruence.
Qed.

(** The request of every round is the same, without a continuation
    token.  A destination that answers it with a page that has a
    successor, and is not changed by being listed, is asked the same
    question for ever. *)
Lemma list_r2_files_never_ends folder w out :
  s3_listObjectsV2 be (FullDiff.list_params cfg folder) w = (Ok out, w) ->
  truthy (NextContinuationToken out) = true ->
  forall fuel r2Files tr,
    fst (FullDiff.list_r2_files be cfg fuel folder r2Files
           {| world := w; trace := tr |}) = OutOfFuel.
Proof.
  intros Hl Ht. induction fuel as [|fuel IH]; intros r2Files tr; [reflexivity|].
  cbn [FullDiff.list_r2_files].
  erewrite run_bind_val by (apply run_call_ok; exact Hl).
  rewrite Ht. apply IH.
Qed.

(** A listing that fits into one page. *)
Lemma list_r2_files_one_page fuel folder r2Files (st : St W) out w1 :
  s3_listObjectsV2 be (FullDiff.list_params cfg folder) (world st) = (Ok out, w1) ->
  truthy (NextContinuationToken out) = false ->
  FullDiff.list_r2_files be cfg (S fuel) folder r2Files st
  = (Val (match Contents out with
          | Some items => FullDiff.add_keys items r2Files
          | None => r2Files
          end),
     extend st w1 [EvListObjectsV2 (FullDiff.list_params cfg folder)]).
Proof.
  intros Hl Ht. cbn [FullDiff.list_r2_files].
  erewrite run_bind_val by (apply run_call_ok; exact Hl).
  rewrite Ht. reflexivity.
Qed.

Lemma add_keys_iff items : forall r2Files x,
  In x (FullDiff.add_keys items r2Files) <->
  In x r2Files \/ (truthy x = true /\ In {| Key := x |} items).
Proof.
  unfold FullDiff.add_keys.
  induction items as [|[k] items IH]; intros r2Files x; cbn [fold_left Key].
  - split; [auto|]. intros [H|[_ []]]. exact H.
  - rewrite IH. destruct (truthy k) eqn:T.
    + rewrite Set_add_iff. split.
      * intros [[->|H]|[Hx H]]; [right; split; [exact T|left; reflexivity]|auto|].
        right. split; [exact Hx|right; exact H].
      * intros [H|[Hx [E|H]]]; [auto| |auto].
        inversion E. auto.
    + split.
      * intros [H|[Hx H]]; [auto|]. right. split; [exact Hx|right; exact H].
      * intros [H|[Hx [E|H]]]; [auto| |auto].
        inversion E. congruence.
Qed.

Lemma not_in_r2_iff r2Files gcpFiles file :
  In file (FullDiff.not_in_r2 r2Files gcpFiles) <->
  In file gcpFiles /\ ~ In (Some (name file)) r2Files.
Proof.
  unfold FullDiff.not_in_r2. rewrite filter_In, negb_true_iff.
  rewrite <- Set_has_iff. destruct (Set_has (Some (name file)) r2Files);
    intuition congruence.
Qed.

(** With a one-page listing the files to migrate are the source files
    of the folder whose key is not among the listed keys, in the order
    of the source listing. *)
Lemma files_to_migrate_one_page fuel folder (st : St W) out w1 gcpFiles next w2 :
  s3_listObjectsV2 be (FullDiff.list_params cfg folder) (world st) = (Ok out, w1) ->
  truthy (NextContinuationToken out) = false ->
  gcs_getFiles be (folder_files_options cfg folder) w1 = (Ok (gcpFiles, next), w2) ->
  FullDiff.files_to_migrate be cfg (S fuel) folder st
  = (Val (FullDiff.not_in_r2 (listed_keys out) gcpFiles),
     extend st w2
       [EvListObjectsV2 (FullDiff.list_params cfg folder);
        EvLog (LogFoundExisting (length (listed_keys out)));
        EvGetFiles (folder_files_options cfg folder);
        EvLog (LogFoundInGcp (length gcpFiles)
                 (length (FullDiff.not_in_r2 (listed_keys out) gcpFiles)))]) /\
  (forall x, In x (listed_keys out) <->
             truthy x = true /\
             exists items, Contents out = Some items /\ In {| Key := x |} items) /\
  (forall file, In file (FullDiff.not_in_r2 (listed_keys out) gcpFiles) <->
                In file gcpFiles /\ ~ In (Some (name file)) (listed_keys out)).
Proof.
  intros Hl Ht Hg. unfold FullDiff.files_to_migrate.
  erewrite run_bind_val by (apply list_r2_files_one_page; eassumption).
  erewrite run_bind_val by apply run_log.
  erewrite run_bind_val by (apply run_call_ok; cbn [extend world]; exact Hg).
  cbn beta iota.
  erewrite run_bind_val by apply run_log.
  unfold ret. rewrite !extend_extend.
  split; [reflexivity|]. split.
  - intros x. unfold listed_keys. destruct (Contents out) as [items|].
    + rewrite add_keys_iff. split.
      * intros [[]|[Hx Hi]]. split; [exact Hx|]. exists items. auto.
      * intros (Hx & items' & E & Hi). inversion E. subst. auto.
    + split; [intros []|]. intros (_ & items & E & _). discriminate.
  - intros file. apply not_in_r2_iff.
Qed.

(** A folder all of whose source keys are in a one-page listing of the
    destination is counted as migrated without a download or an
    upload. *)
Lemma synced_folder_is_counted fuel total folder cnt (st : St W)
      out w1 gcpFiles next w2 :
  s3_listObjectsV2 be (FullDiff.list_params cfg folder) (world st) = (Ok out, w1) ->
  truthy (NextContinuationToken out) = false ->
  gcs_getFiles be (folder_files_options cfg folder) w1 = (Ok (gcpFiles, next), w2) ->
  (forall file, In file gcpFiles -> In (Some (name file)) (listed_keys out)) ->
  FullDiff.migrate_folder be cfg (S fuel) total folder cnt st
  = (Val (S cnt),
     extend st w2
       [EvLog (LogStartFolder folder);
        EvListObjectsV2 (FullDiff.list_params cfg folder);
        EvLog (LogFoundExisting (length (listed_keys out)));
        EvGetFiles (folder_files_options cfg folder);
        EvLog (LogFoundInGcp (length gcpFiles) 0);
        EvLog LogFullySynced;
        EvLog (LogFoldersMigrated (S cnt) total (remaining total (S cnt)))]).
Proof.
  intros Hl Ht Hg Hall.
  assert (Hnone : FullDiff.not_in_r2 (listed_keys out) gcpFiles = []).
  { destruct (FullDiff.not_in_r2 (listed_keys out) gcpFiles) as [|f fs] eqn:E;
      [reflexivity|].
    assert (Hin : In f (FullDiff.not_in_r2 (listed_keys out) gcpFiles))
      by (rewrite E; left; reflexivity).
    apply not_in_r2_iff in Hin. destruct Hin as [Hf Hn].
    exfalso. apply Hn, Hall, Hf. }
  unfold FullDiff.migrate_folder.
  erewrite run_bind_val by apply run_log.
  destruct (@files_to_migrate_one_page fuel folder
              (extend st (world st) [EvLog (LogStartFolder folder)])
              out w1 gcpFiles next w2 Hl Ht Hg) as (Hrun & _).
  erewrite run_bind_val by exact Hrun.
  rewrite Hnone. cbn [length Nat.eqb].
  erewrite run_bind_val by apply run_log.
  erewrite run_bind_val by apply run_log.
  unfold ret. rewrite !extend_extend. reflexivity.
Qed.
End DifferFacts.

(** The first page of the listing of [root/f1/] when the destination
    holds the 1001 keys of [large_folder]. *)
Lemma large_folder_first_page :
  let w := bucket large_folder large_folder_keys 1000 in
  exists out,
    sim_listObjectsV2 (FullDiff.list_params example_config (Some "f1")) w
    = (Ok out, w) /\
    list_ContinuationToken (FullDiff.list_params example_config (Some "f1")) = None /\
    NextContinuationToken out = Some "root/f1/998".
Proof.
  intros w. eexists. split; [vm_compute; reflexivity|].
  split; vm_compute; reflexivity.
Qed.

(** C1.  The code at a destination folder of more than one page.  The
    destination holds the 1001 keys of [root/f1/]; its answer to the
    listing request ends with a continuation token.  The loop sends the
    same request again, and the files to migrate are never delivered,
    whatever the fuel. *)
Theorem truncated_listing_never_yields_tasks :
  let w := bucket large_folder large_folder_keys 1000 in
  (exists out,
      sim_listObjectsV2 (FullDiff.list_params example_config (Some "f1")) w
      = (Ok out, w) /\
      list_ContinuationToken (FullDiff.list_params example_config (Some "f1")) = None /\
      NextContinuationToken out = Some "root/f1/998") /\
  forall fuel,
    fst (FullDiff.files_to_migrate sim example_config fuel (Some "f1") (start w))
    = OutOfFuel.
Proof.
  intros w. pose proof large_folder_first_page as H. cbv zeta in H.
  split; [exact H|].
  destruct H as (out & Hl & _ & Hn).
  intros fuel. unfold FullDiff.files_to_migrate. apply fst_bind_out.
  apply (list_r2_files_never_ends sim example_config (Some "f1") Hl).
  rewrite Hn. reflexivity.
Qed.

Section FuelFacts.
Context {W : Type} (be : Backend W) (cfg : Config).

(** More fuel does not change a scan that has ended. *)
Lemma scan_loop_more_fuel fuel : forall tok sc (st : St W) sc' st',
  scan_loop be cfg fuel tok sc st = (Val sc', st') ->
  forall fuel', fuel <= fuel' ->
  scan_loop be cfg fuel' tok sc st = (Val sc', st').
Proof.
  induction fuel as [|fuel IH]; intros tok sc st sc' st' H fuel' Hle;
    [discriminate|].
  destruct fuel' as [|fuel']; [lia|].
  cbn [scan_loop] in H |- *. unfold bind at 1 in H. unfold bind at 1.
  destruct (call _ _ st) as [[[files next]|e|] st1]; try discriminate.
  destruct files as [|f0 files0]; [exact H|].
  destruct (classify_files cfg (f0 :: files0) _) as [sc1 n1].
  unfold bind at 1 in H. unfold bind at 1.
  destruct (log _ st1) as [[[]|e|] st2]; try discriminate.
  destruct (truthy next); [|exact H].
  apply IH with (fuel' := fuel') in H; [exact H|lia].
Qed.

Lemma scan_more_fuel fuel fuel' (st : St W) folders st' :
  scan be cfg fuel st = (Val folders, st') ->
  fuel <= fuel' ->
  scan be cfg fuel' st = (Val folders, st').
Proof.
  unfold scan. intros H Hle.
  erewrite run_bind_val in H |- * by apply run_log.
  erewrite run_bind_val in H |- * by apply run_log.
  unfold bind at 1 in H. unfold bind at 1.
  destruct (scan_loop be cfg fuel None initial_scan _) as [[sc|e|] st1] eqn:E;
    try discriminate.
  rewrite (scan_loop_more_fuel _ _ _ E Hle). exact H.
Qed.
End FuelFacts.

(** C8.  The code at a second run over a folder of more than one page.
    The first run, on an empty destination, ends normally and leaves all
    1001 keys of [root/f1/] at the destination.  The second run, over the
    unchanged source, ends for no fuel: with too little fuel the scan does
    not end, and with enough fuel the listing of the destination folder
    repeats its first request for ever, so the folder gets no list of
    files to migrate and is never counted as migrated. *)
Theorem rerun_over_large_folder_never_ends :
  let first := FullDiff.findAndProcessRecentFolders sim example_config 2
                 (start (bucket large_folder [] 1000)) in
  fst first = Val tt /\
  world (snd first) = bucket large_folder large_folder_keys 1000 /\
  put_keys (trace (snd first)) = large_folder_keys /\
  forall fuel,
    fst (FullDiff.findAndProcessRecentFolders sim example_config fuel
           (start (world (snd first)))) = OutOfFuel.
Proof.
  intros first.
  assert (Hw : world (snd first) = bucket large_folder large_folder_keys 1000)
    by (vm_compute; reflexivity).
  split; [vm_compute; reflexivity|]. split; [exact Hw|].
  split; [vm_compute; reflexivity|].
  rewrite Hw. clear Hw first.
  intros fuel. unfold FullDiff.findAndProcessRecentFolders, try_catch.
  assert (Hp : fst (FullDiff.pipeline sim example_config fuel
                      (start (bucket large_folder large_folder_keys 1000)))
               = OutOfFuel).
  { destruct fuel as [|[|fuel]]; [vm_compute; reflexivity..|].
    unfold FullDiff.pipeline.
    assert (Hs : exists st0,
               scan sim example_config 2
                 (start (bucket large_folder large_folder_keys 1000))
               = (Val [Some "f1"], st0) /\
               world st0 = bucket large_folder large_folder_keys 1000).
    { eexists. split; vm_compute; reflexivity. }
    destruct Hs as (st0 & Hs & Hw0).
    apply scan_more_fuel with (fuel' := S (S fuel)) in Hs; [|lia].
    erewrite run_bind_val by exact Hs.
    erewrite run_bind_val by apply run_log.
    apply fst_bind_out. cbn [FullDiff.migrate_folders]. apply fst_bind_out.
    unfold FullDiff.migrate_folder.
    erewrite run_bind_val by apply run_log.
    apply fst_bind_out. unfold FullDiff.files_to_migrate. apply fst_bind_out.
    unfold extend. cbn [world trace]. rewrite Hw0.
    destruct large_folder_first_page as (out & Hl & _ & Hn).
    apply (list_r2_files_never_ends sim example_config (Some "f1") Hl).
    rewrite Hn. reflexivity. }
  destruct (FullDiff.pipeline sim example_config fuel _) as [[[]|e|] st'];
    cbn in Hp; try discriminate. reflexivity.
Qed.

(* ------------------------------------------------------------------ *)
(** ** The events of a folder *)

Section FolderEvents.
Context {W : Type} (be : Backend W) (cfg : Config).
Variable P : Event -> Prop.
Hypothesis P_other :
  forall e, match e with
            | EvListObjectsV2 _ | EvGetFiles _ => True
            | _ => P e
            end.

Lemma P_log l : P (EvLog l).
Proof. exact (P_other (EvLog l)). Qed.

Lemma P_download k : P (EvDownload k).
Proof. exact (P_other (EvDownload k)). Qed.

Lemma P_put p : P (EvPutObject p).
Proof. exact (P_other (EvPutObject p)). Qed.

Lemma P_log_sleep e : match e with EvLog _ | EvSleep _ => P e | _ => True end.
Proof.
  destruct e as [o|k|p|p|ms|l]; try exact I.
  - exact (P_other (EvSleep ms)).
  - exact (P_other (EvLog l)).
Qed.

Lemma list_r2_files_emits folder :
  P (EvListObjectsV2 (FullDiff.list_params cfg folder)) ->
  forall fuel r2Files, emits P (FullDiff.list_r2_files be cfg fuel folder r2Files).
Proof.
  intros Hl. induction fuel as [|fuel IH]; intros r2Files;
    cbn [FullDiff.list_r2_files]; [apply emits_out_of_fuel|].
  apply emits_bind; [apply emits_call; exact Hl|].
  intros out. destruct (truthy (NextContinuationToken out));
    [apply IH|apply emits_ret].
Qed.

Lemma run_pool_emits total files : forall cnt,
  emits P (FullDiff.run_pool be cfg total files cnt).
Proof.
  induction files as [|file rest IH]; intros cnt; [apply emits_ret|].
  intros st. cbn [FullDiff.run_pool].
  destruct (transfer_task_emits be cfg P total file cnt
              (P_download _) (fun b => P_put _) P_log_sleep st) as (l & E & F).
  destruct (FullDiff.transfer_task be cfg total file cnt st) as [[c|e|] st1];
    cbn [snd] in E.
  - assert (Hk : emits P (rs <- FullDiff.run_pool be cfg total rest c ;;
                          ret (Fulfilled :: rs)))
      by (apply emits_bind; [apply IH|intros; apply emits_ret]).
    destruct (Hk st1) as (l' & E' & F').
    exists (l ++ l')%list. rewrite E', E, app_assoc.
    split; [reflexivity|apply Forall_app; auto].
  - assert (Hk : emits P (rs <- FullDiff.run_pool be cfg total rest cnt ;;
                          ret (Rejected e :: rs)))
      by (apply emits_bind; [apply IH|intros; apply emits_ret]).
    destruct (Hk st1) as (l' & E' & F').
    exists (l ++ l')%list. rewrite E', E, app_assoc.
    split; [reflexivity|apply Forall_app; auto].
  - exists l. auto.
Qed.

Lemma Promise_all_emits rs : emits P (@FullDiff.Promise_all W rs).
Proof.
  induction rs as [|[|e] rs IH]; cbn;
    [apply emits_ret|exact IH|apply emits_throw].
Qed.

Lemma full_diff_folder_emits fuel total folder cnt :
  P (EvListObjectsV2 (FullDiff.list_params cfg folder)) ->
  P (EvGetFiles (folder_files_options cfg folder)) ->
  emits P (FullDiff.migrate_folder be cfg fuel total folder cnt).
Proof.
  intros Hl Hg. unfold FullDiff.migrate_folder, FullDiff.files_to_migrate.
  apply emits_bind; [apply emits_log, P_log|intros _].
  apply emits_bind.
  - apply emits_bind; [apply list_r2_files_emits; exact Hl|intros r2Files].
    apply emits_bind; [apply emits_log, P_log|intros _].
    apply emits_bind; [apply emits_call; exact Hg|intros [gcpFiles next]].
    apply emits_bind; [apply emits_log, P_log|intros _]. apply emits_ret.
  - intros files. destruct (length files =? 0)%nat.
    + apply emits_bind; [apply emits_log, P_log|intros _].
      apply emits_bind; [apply emits_log, P_log|intros _]. apply emits_ret.
    + apply emits_bind; [apply run_pool_emits|intros rs].
      apply emits_bind; [apply Promise_all_emits|intros _].
      apply emits_bind; [apply emits_log, P_log|intros _].
      apply emits_bind; [apply emits_log, P_log|intros _]. apply emits_ret.
Qed.

Lemma transfer_files_emits total files : forall cnt,
  emits P (PresenceCheck.transfer_files be cfg total files cnt).
Proof.
  induction files as [|file rest IH]; intros cnt;
    cbn [PresenceCheck.transfer_files]; [apply emits_ret|].
  apply emits_bind; [apply emits_call, P_download|intros buf].
  apply emits_bind; [apply emits_call, P_put|intros _].
  apply emits_bind; [apply emits_log, P_log|intros _]. apply IH.
Qed.

(** What follows the listing call in the folder body of the second
    file. *)
Lemma presence_check_rest_emits total folder cnt out :
  P (EvGetFiles (folder_files_options cfg folder)) ->
  emits P
    (if PresenceCheck.already_exists out then
       log (LogAlreadyExists folder) ;;
       log (LogFoldersMigrated (S cnt) total (remaining total (S cnt))) ;;
       ret (S cnt)
     else
       log (LogNotFoundInS3 folder) ;;
       '(gcpFiles, _) <- call (EvGetFiles (folder_files_options cfg folder))
                              (gcs_getFiles be (folder_files_options cfg folder)) ;;
       log (LogFoundToTransfer (length gcpFiles)) ;;
       if (length gcpFiles =? 0)%nat then
         log LogFolderEmpty ;;
         log (LogFoldersMigrated (S cnt) total (remaining total (S cnt))) ;;
         ret (S cnt)
       else
         PresenceCheck.transfer_files be cfg (length gcpFiles) gcpFiles 0 ;;
         log (LogFolderComplete folder) ;;
         log (LogFoldersMigrated (S cnt) total (remaining total (S cnt))) ;;
         ret (S cnt)).
Proof.
  intros Hg. destruct (PresenceCheck.already_exists out).
  - apply emits_bind; [apply emits_log, P_log|intros _].
    apply emits_bind; [apply emits_log, P_log|intros _]. apply emits_ret.
  - apply emits_bind; [apply emits_log, P_log|intros _].
    apply emits_bind; [apply emits_call; exact Hg|intros [gcpFiles next]].
    apply emits_bind; [apply emits_log, P_log|intros _].
    destruct (length gcpFiles =? 0)%nat.
    + apply emits_bind; [apply emits_log, P_log|intros _].
      apply emits_bind; [apply emits_log, P_log|intros _]. apply emits_ret.
    + apply emits_bind; [apply transfer_files_emits|intros _].
      apply emits_bind; [apply emits_log, P_log|intros _].
      apply emits_bind; [apply emits_log, P_log|intros _]. apply emits_ret.
Qed.

Lemma presence_check_folder_emits total folder cnt :
  P (EvListObjectsV2 (PresenceCheck.list_params cfg folder)) ->
  P (EvGetFiles (folder_files_options cfg folder)) ->
  emits P (PresenceCheck.migrate_folder be cfg total folder cnt).
Proof.
  intros Hl Hg. unfold PresenceCheck.migrate_folder.
  apply emits_bind; [apply emits_log, P_log|intros _].
  apply emits_bind; [apply emits_call; exact Hl|intros out].
  apply presence_check_rest_emits. exact Hg.
Qed.
End FolderEvents.

(* ------------------------------------------------------------------ *)
(** ** The second file: presence check *)

Section PresenceFacts.
Context {W : Type} (be : Backend W) (cfg : Config).

Lemma put_keys_app l1 l2 : put_keys (l1 ++ l2) = (put_keys l1 ++ put_keys l2)%list.
Proof.
  induction l1 as [|e l1 IH]; [reflexivity|].
  destruct e; cbn; rewrite IH; reflexivity.
Qed.

Lemma transfer_files_all files w w' :
  Transfers be cfg files w w' ->
  forall total cnt tr,
  exists l,
    PresenceCheck.transfer_files be cfg total files cnt {| world := w; trace := tr |}
    = (Val tt, {| world := w'; trace := (tr ++ l)%list |}) /\
    put_keys l = keys_of files.
Proof.
  induction 1 as [w|file rest w buf w1 w2 w' Hd Hp Hrest IH]; intros total cnt tr.
  - exists []. rewrite app_nil_r. split; reflexivity.
  - cbn [PresenceCheck.transfer_files].
    erewrite run_bind_val by (apply run_call_ok; exact Hd). cbn beta.
    erewrite run_bind_val by (apply run_call_ok; exact Hp).
    erewrite run_bind_val by apply run_log.
    unfold extend. cbn [world trace].
    destruct (IH total (S cnt)
                (((tr ++ [EvDownload (name file)]) ++
                  [EvPutObject (PresenceCheck.upload_params cfg file buf)]) ++
                 [EvLog (LogTransferred (S cnt) total (name file))])%list)
      as (l & E & Hk).
    rewrite E. eexists. split; [rewrite <- !app_assoc; reflexivity|].
    cbn. rewrite Hk. reflexivity.
Qed.
End PresenceFacts.

(** C9.  Presence check of the second file.  The folder body asks the
    destination for at most one key under the prefix of the folder, before
    anything else.  When the answer holds a key, the folder is counted as
    migrated at once: the source is not listed and nothing is downloaded
    or uploaded.  When it holds none, the source is listed under the same
    prefix and every file of that listing is transferred, in order: if
    each download and upload succeeds, the uploaded keys are exactly the
    listed ones and the folder is counted as migrated. *)
Theorem presence_check_skips_or_takes_all {W} (be : Backend W) (cfg : Config) :
  (forall total folder cnt (st : St W),
      list_MaxKeys (PresenceCheck.list_params cfg folder) = Some 1 /\
      list_Prefix (PresenceCheck.list_params cfg folder)
      = GCP_INTERNAL_PATH cfg ++ interpolate folder ++ "/" /\
      exists rest,
        trace (snd (PresenceCheck.migrate_folder be cfg total folder cnt st))
        = (trace st ++ EvLog (LogStartFolder folder)
             :: EvListObjectsV2 (PresenceCheck.list_params cfg folder) :: rest)%list) /\
  (forall total folder cnt (st : St W) out w1 item items,
      s3_listObjectsV2 be (PresenceCheck.list_params cfg folder) (world st)
      = (Ok out, w1) ->
      Contents out = Some (item :: items) ->
      PresenceCheck.migrate_folder be cfg total folder cnt st
      = (Val (S cnt),
         extend st w1
           [EvLog (LogStartFolder folder);
            EvListObjectsV2 (PresenceCheck.list_params cfg folder);
            EvLog (LogAlreadyExists folder);
            EvLog (LogFoldersMigrated (S cnt) total (remaining total (S cnt)))])) /\
  (forall total folder cnt (st : St W) out w1 gcpFiles next w2 w3,
      s3_listObjectsV2 be (PresenceCheck.list_params cfg folder) (world st)
      = (Ok out, w1) ->
      Contents out = None \/ Contents out = Some [] ->
      gcs_getFiles be (folder_files_options cfg folder) w1
      = (Ok (gcpFiles, next), w2) ->
      Transfers be cfg gcpFiles w2 w3 ->
      prefix (folder_files_options cfg folder)
      = GCP_INTERNAL_PATH cfg ++ interpolate folder ++ "/" /\
      exists l,
        PresenceCheck.migrate_folder be cfg total folder cnt st
        = (Val (S cnt), extend st w3 l) /\
        put_keys l = keys_of gcpFiles).
Proof.
  split; [|split].
  - intros total folder cnt st. split; [reflexivity|]. split; [reflexivity|].
    unfold PresenceCheck.migrate_folder.
    erewrite run_bind_val by apply run_log.
    destruct (s3_listObjectsV2 be (PresenceCheck.list_params cfg folder) (world st))
      as [[out|e] w1] eqn:Hl.
    + erewrite run_bind_val by (apply run_call_ok; exact Hl).
      rewrite extend_extend. cbn beta zeta.
      match goal with
      | |- exists rest, trace (snd (?m ?s)) = _ =>
          assert (Hm : emits (fun _ => True) m)
      end.
      { apply presence_check_rest_emits; [|exact I]. intros []; exact I. }
      match goal with
      | |- exists rest, trace (snd (_ ?s)) = _ => destruct (Hm s) as (l & E & _)
      end.
      exists l. rewrite E. cbn [extend trace]. rewrite <- !app_assoc. reflexivity.
    + erewrite run_bind_exn by (apply run_call_fail; exact Hl).
      exists []. cbn [snd extend trace]. rewrite <- !app_assoc. reflexivity.
  - intros total folder cnt st out w1 item items Hl Hc.
    unfold PresenceCheck.migrate_folder.
    erewrite run_bind_val by apply run_log.
    erewrite run_bind_val by (apply run_call_ok; exact Hl).
    unfold PresenceCheck.already_exists. rewrite Hc. cbn [length Nat.ltb Nat.leb].
    erewrite run_bind_val by apply run_log.
    erewrite run_bind_val by apply run_log.
    unfold ret. rewrite !extend_extend. reflexivity.
  - intros total folder cnt st out w1 gcpFiles next w2 w3 Hl Hc Hg Ht.
    split; [reflexivity|].
    unfold PresenceCheck.migrate_folder.
    erewrite run_bind_val by apply run_log.
    erewrite run_bind_val by (apply run_call_ok; exact Hl).
    assert (Hex : PresenceCheck.already_exists out = false)
      by (unfold PresenceCheck.already_exists; destruct Hc as [-> | ->]; reflexivity).
    rewrite Hex.
    erewrite run_bind_val by apply run_log.
    erewrite run_bind_val by (apply run_call_ok; cbn [extend world]; exact Hg).
    cbn beta iota.
    erewrite run_bind_val by apply run_log.
    rewrite !extend_extend.
    destruct gcpFiles as [|f0 files0].
    + inversion Ht; subst. cbn [length Nat.eqb].
      erewrite run_bind_val by apply run_log.
      erewrite run_bind_val by apply run_log.
      unfold ret. rewrite !extend_extend.
      eexists. split; [reflexivity|]. reflexivity.
    + cbn [length Nat.eqb].
      unfold extend. cbn [world trace].
      match goal with
      | |- context [{| world := w2; trace := ?t |}] =>
          destruct (@transfer_files_all _ be cfg _ _ _ Ht
                      (S (length files0)) 0 t) as (l & E & Hk)
      end.
      erewrite run_bind_val by exact E.
      erewrite run_bind_val by apply run_log.
      erewrite run_bind_val by apply run_log.
      unfold ret, extend. cbn [world trace].
      eexists. split; [rewrite <- !app_assoc; reflexivity|].
      cbn [app put_keys]. rewrite put_keys_app, Hk. cbn. rewrite app_nil_r.
      reflexivity.
Qed.

(* ------------------------------------------------------------------ *)
(** ** Folder names and folder prefixes *)

Lemma string_length_app (a b : string) :
  String.length (a ++ b) = String.length a + String.length b.
Proof. induction a as [|c a IH]; cbn; [reflexivity|]. rewrite IH. reflexivity. Qed.

Lemma string_app_assoc (a b c : string) : (a ++ b) ++ c = a ++ b ++ c.
Proof. induction a as [|x a IH]; cbn; [reflexivity|]. rewrite IH. reflexivity. Qed.

Lemma addresses_other pfx e :
  match e with
  | EvListObjectsV2 _ | EvGetFiles _ => True
  | _ => addresses pfx e
  end.
Proof. destruct e; exact I. Qed.

(** C10.  Folder identity is the bare second-to-last segment.  Two keys
    [p1/seg/leaf1] and [p2/seg/leaf2] get the same folder name [seg]
    whatever [p1] and [p2] are, and in general the folder name is a
    function of the second-to-last segment alone; a recent marker
    [p/seg/marker] puts the bare [seg] into the recent-folder set; every
    listing call of the folder body, in both files, names the prefix
    [GCP_INTERNAL_PATH + folderName + '/']; and for a marker below
    [GCP_INTERNAL_PATH + mid + '/' + seg + '/'] that prefix is not the
    parent path of the marker. *)
Theorem folder_identity_is_the_bare_segment {W} (be : Backend W) (cfg : Config) :
  (forall p1 p2 seg leaf1 leaf2 md1 md2,
      no_sep "/" seg = true -> no_sep "/" leaf1 = true -> no_sep "/" leaf2 = true ->
      folderName_of {| name := p1 ++ "/" ++ seg ++ "/" ++ leaf1; metadata := md1 |}
      = Some seg /\
      folderName_of {| name := p2 ++ "/" ++ seg ++ "/" ++ leaf2; metadata := md2 |}
      = Some seg) /\
  (forall f1 f2,
      second_to_last_segment (split "/" (name f1))
      = second_to_last_segment (split "/" (name f2)) ->
      folderName_of f1 = folderName_of f2) /\
  (forall p seg ct t sc n,
      no_sep "/" seg = true -> no_sep "/" (FOLDER_DATE_CHECK_FILE cfg) = true ->
      (MINIMUM_DATE cfg <= t)%Z ->
      recentFoldersFound
        (fst (classify_file cfg (sc, n)
                {| name := p ++ "/" ++ seg ++ "/" ++ FOLDER_DATE_CHECK_FILE cfg;
                   metadata := {| timeCreated := Some t; contentType := ct |} |}))
      = Set_add (Some seg) (recentFoldersFound sc)) /\
  (forall fuel total folder cnt,
      emits (addresses (GCP_INTERNAL_PATH cfg ++ interpolate folder ++ "/"))
            (FullDiff.migrate_folder be cfg fuel total folder cnt) /\
      emits (addresses (GCP_INTERNAL_PATH cfg ++ interpolate folder ++ "/"))
            (PresenceCheck.migrate_folder be cfg total folder cnt)) /\
  (forall mid seg leaf md,
      no_sep "/" seg = true -> no_sep "/" leaf = true ->
      let file := {| name := GCP_INTERNAL_PATH cfg ++ mid ++ "/" ++ seg ++ "/" ++ leaf;
                     metadata := md |} in
      name file = (GCP_INTERNAL_PATH cfg ++ mid ++ "/" ++ seg ++ "/") ++ leaf /\
      folder_prefix cfg (folderName_of file)
      = GCP_INTERNAL_PATH cfg ++ seg ++ "/" /\
      folder_prefix cfg (folderName_of file)
      <> GCP_INTERNAL_PATH cfg ++ mid ++ "/" ++ seg ++ "/").
Proof.
  split; [|split; [|split; [|split]]].
  - intros p1 p2 seg leaf1 leaf2 md1 md2 Hs H1 H2.
    split; apply folderName_of_nested; assumption.
  - intros f1 f2 H. rewrite !folderName_of_segments. exact H.
  - intros p seg ct t sc n Hs Hm Ht.
    rewrite classify_file_recent.
    erewrite folderName_of_nested by assumption.
    assert (Hq : is_marker cfg
                   {| name := p ++ "/" ++ seg ++ "/" ++ FOLDER_DATE_CHECK_FILE cfg;
                      metadata := {| timeCreated := Some t; contentType := ct |} |}
                 = true).
    { unfold is_marker.
      replace (p ++ "/" ++ seg ++ "/" ++ FOLDER_DATE_CHECK_FILE cfg)
        with ((p ++ "/" ++ seg) ++ "/" ++ FOLDER_DATE_CHECK_FILE cfg)
        by (rewrite !string_app_assoc; reflexivity).
      erewrite fileName_of_nested by assumption. apply String.eqb_refl. }
    rewrite Hq. unfold created_on_or_after. cbn [metadata timeCreated].
    apply Z.leb_le in Ht. rewrite Ht. reflexivity.
  - intros fuel total folder cnt. split.
    + apply full_diff_folder_emits; [apply addresses_other|reflexivity..].
    + apply presence_check_folder_emits; [apply addresses_other|reflexivity..].
  - intros mid seg leaf md Hs Hl file.
    assert (Hn : name file
                 = (GCP_INTERNAL_PATH cfg ++ mid ++ "/" ++ seg ++ "/") ++ leaf).
    { unfold file. cbn [name]. rewrite !string_app_assoc. reflexivity. }
    assert (Hf : folderName_of file = Some seg).
    { unfold file.
      replace (GCP_INTERNAL_PATH cfg ++ mid ++ "/" ++ seg ++ "/" ++ leaf)
        with ((GCP_INTERNAL_PATH cfg ++ mid) ++ "/" ++ seg ++ "/" ++ leaf)
        by (rewrite !string_app_assoc; reflexivity).
      apply folderName_of_nested; assumption. }
    split; [exact Hn|]. rewrite Hf. split; [reflexivity|].
    unfold folder_prefix. cbn [interpolate]. intros E.
    apply (f_equal String.length) in E.
    rewrite !string_length_app in E. cbn in E. lia.
Qed.

(* ------------------------------------------------------------------ *)
(** ** Runs on concrete buckets *)


(** C6, as stated, fails.  Both [f1] and [f2] are recent and the
    destination refuses [root/f1/a.txt].  The upload is tried once, the
    only line about it is the one of the top-level [catch], and the run
    ends there: the folder [f2] is never started and nothing of it is
    uploaded. *)
Lemma upload_failure_stops_later_folders :
  let run := FullDiff.findAndProcessRecentFolders sim example_config 5
               (start refusing_destination) in
  fst (scan sim example_config 5 (start refusing_destination))
  = Val [Some "f1"; Some "f2"] /\
  fst run = Val tt /\
  count (is_put_of "root/f1/a.txt") (trace (snd run)) = 1 /\
  last (trace (snd run)) (EvSleep 0) = EvLog (LogOverallError "PutObject refused") /\
  put_keys (trace (snd run)) = ["root/f1/marker.json"; "root/f1/a.txt"] /\
  ~ (0 < count (folder_started (Some "f2")) (trace (snd run))).
Proof.
  cbv zeta. repeat (split; [vm_compute; reflexivity|]).
  vm_compute. intros H. inversion H.
Qed.

(** C7, as stated, fails.  The source listing throws.  The function ends
    with the same result as on a bucket whose listing works: its promise
    is fulfilled, not rejected.  The failed run is told apart by its
    output only. *)
Lemma listing_failure_ends_fulfilled :
  let failed := FullDiff.findAndProcessRecentFolders sim example_config 5
                  (start failing_source) in
  let passed := FullDiff.findAndProcessRecentFolders sim example_config 5
                  (start two_folders) in
  gcs_getFiles sim (scan_options example_config None) failing_source
  = (Fail "ListError", failing_source) /\
  fst failed = fst passed /\
  ~ (exists e, fst failed = Exn e) /\
  count is_overall_error (trace (snd failed)) = 1 /\
  count is_overall_error (trace (snd passed)) = 0.
Proof.
  cbv zeta. split; [reflexivity|]. split; [vm_compute; reflexivity|].
  split; [|split; vm_compute; reflexivity].
  intros (e & H). vm_compute in H. discriminate.
Qed.

(** The data of C2 served in two pages of the simulated source. *)
Lemma recent_folders_witness :
  let pages := [[fst f1_marker; fst f1_a; fst f2_marker]; [fst f2_b]] in
  Serves sim small_pages None two_folders pages two_folders /\
  exists finalFolders l,
    scan sim small_pages 3 (start two_folders)
    = (Val finalFolders, {| world := two_folders; trace := ([] ++ l)%list |}) /\
    In (Some "f1") finalFolders /\
    ~ In (Some "f2") finalFolders.
Proof.
  intros pages.
  assert (Hs : Serves sim small_pages None two_folders pages two_folders).
  { eapply Serves_more;
      [discriminate|vm_compute; reflexivity|reflexivity|].
    eapply Serves_last; [discriminate|vm_compute; reflexivity|reflexivity]. }
  split; [exact Hs|].
  destruct (@recent_folders_are_marker_folders _ sim small_pages pages
              two_folders two_folders 3 [] Hs (le_n 3))
    as (finalFolders & l & Hrun & _ & Hiff & Hout).
  exists finalFolders, l. split; [exact Hrun|]. split.
  - apply Hiff. exists (fst f1_marker). split; [left; reflexivity|].
    split; [|reflexivity].
    split; [reflexivity|]. exists april_2025. split; [reflexivity|].
    vm_compute. discriminate.
  - apply Hout. intros file t Hin Hseg Hlast Htime.
    destruct Hin as [<-|[<-|[<-|[<-|[]]]]]; try discriminate Hseg;
      try discriminate Hlast.
    inversion Htime. reflexivity.
Defined.



(** The data of C7: a source listing and a destination listing that
    throw. *)
Lemma fatal_error_witness :
  (exists st',
      FullDiff.findAndProcessRecentFolders sim example_config 5 (start failing_source)
      = (Val tt, st')) /\
  FullDiff.findAndProcessRecentFolders sim example_config 5 (start failing_source)
  = (Val tt,
     extend (start failing_source) failing_source
       [EvLog (LogGettingFileList "source" "root/");
        EvLog (LogSearching 1741564800000);
        EvGetFiles (scan_options example_config None);
        EvLog (LogOverallError "ListError")]) /\
  exists st0,
    FullDiff.findAndProcessRecentFolders sim example_config 5 (start failing_destination)
    = (Val tt,
       extend st0 failing_destination
         [EvLog LogStartingMigration;
          EvLog (LogStartFolder (Some "f1"));
          EvListObjectsV2 (FullDiff.list_params example_config (Some "f1"));
          EvLog (LogOverallError "ListError")]).
Proof.
  destruct (fatal_error_is_logged_and_swallowed sim example_config)
    as (Hnever & Hcatch & Hsource & Hdest).
  split; [|split].
  - eexists.
    eapply (Hcatch 5 (start failing_source) "ListError"). vm_compute. reflexivity.
  - apply (Hsource 4 (start failing_source) "ListError" failing_source).
    reflexivity.
  - eexists.
    eapply (Hdest 4 (start failing_destination) (Some "f1") [] _ "ListError"
              failing_destination).
    + vm_compute. reflexivity.
    + reflexivity.
Defined.

(** The data of C9: a destination that holds a key of the folder, and an
    empty one. *)
Lemma presence_check_witness :
  let present := bucket [f1_marker; f1_a] ["root/f1/marker.json"] 1000 in
  let absent := bucket [f1_marker; f1_a] [] 1000 in
  PresenceCheck.migrate_folder sim example_config 1 (Some "f1") 0 (start present)
  = (Val 1,
     extend (start present) present
       [EvLog (LogStartFolder (Some "f1"));
        EvListObjectsV2 (PresenceCheck.list_params example_config (Some "f1"));
        EvLog (LogAlreadyExists (Some "f1"));
        EvLog (LogFoldersMigrated 1 1 (remaining 1 1))]) /\
  exists w3 l,
    PresenceCheck.migrate_folder sim example_config 1 (Some "f1") 0 (start absent)
    = (Val 1, extend (start absent) w3 l) /\
    put_keys l = ["root/f1/marker.json"; "root/f1/a.txt"].
Proof.
  intros present absent.
  destruct (presence_check_skips_or_takes_all sim example_config)
    as (_ & Hskip & Htake).
  split.
  - eapply (Hskip 1 (Some "f1") 0 (start present) _ present
              {| Key := Some "root/f1/marker.json" |} []); reflexivity.
  - eexists.
    eapply (Htake 1 (Some "f1") 0 (start absent)
              {| Contents := None; NextContinuationToken := None |} absent
              [fst f1_marker; fst f1_a] None absent).
    + reflexivity.
    + left. reflexivity.
    + reflexivity.
    + eapply Transfers_cons; [reflexivity|reflexivity|].
      eapply Transfers_cons; [reflexivity|reflexivity|]. apply Transfers_nil.
Defined.

(** The data of C10: a marker two levels below the root. *)
Lemma folder_identity_witness :
  let md := {| timeCreated := Some april_2025; contentType := None |} in
  (folderName_of {| name := "root" ++ "/" ++ "f1" ++ "/" ++ "marker.json";
                    metadata := md |} = Some "f1" /\
   folderName_of {| name := "root/deep" ++ "/" ++ "f1" ++ "/" ++ "a.txt";
                    metadata := md |} = Some "f1") /\
  recentFoldersFound
    (fst (classify_file example_config (initial_scan, 0)
            {| name := "root/deep" ++ "/" ++ "f1" ++ "/" ++ "marker.json";
               metadata := md |}))
  = Set_add (Some "f1") [] /\
  folder_prefix example_config
    (folderName_of {| name := "root/" ++ "deep" ++ "/" ++ "f1" ++ "/" ++ "marker.json";
                      metadata := md |})
  <> "root/" ++ "deep" ++ "/" ++ "f1" ++ "/".
Proof.
  intros md.
  destruct (folder_identity_is_the_bare_segment sim example_config)
    as (Hsame & _ & Hrecent & _ & Hprefix).
  split; [|split].
  - apply (Hsame "root" "root/deep" "f1" "marker.json" "a.txt" md md); reflexivity.
  - apply (Hrecent "root/deep" "f1" None april_2025 initial_scan 0);
      [reflexivity|reflexivity|vm_compute; discriminate].
  - apply (Hprefix "deep" "f1" "marker.json" md); reflexivity.
Defined.

(* ================================================================== *)
(** * Further properties of the two files *)

(** ** Path segments *)

Lemma join_cons_char sep c h t :
  join sep (String c h :: t) = String c (join sep (h :: t)).
Proof. destruct t; reflexivity. Qed.

Lemma split_parts_no_sep sep s : Forall (fun x => no_sep sep x = true) (split sep s).
Proof.
  induction s as [|c rest IH]; cbn.
  - constructor; [reflexivity|constructor].
  - destruct (Ascii.eqb c sep) eqn:E.
    + constructor; [reflexivity|exact IH].
    + destruct (split sep rest) as [|h t]; [repeat constructor; cbn; rewrite E; reflexivity|].
      inversion IH; subst. constructor; [|assumption].
      cbn. rewrite E. cbn. assumption.
Qed.

Lemma join_split sep s : join (String sep "") (split sep s) = s.
Proof.
  induction s as [|c rest IH]; [reflexivity|]. cbn [split].
  destruct (Ascii.eqb_spec c sep) as [->|Hc].
  - destruct (split sep rest) as [|h t] eqn:E;
      [exfalso; exact (split_not_nil _ _ E)|].
    cbn [join]. cbn. rewrite <- IH. reflexivity.
  - destruct (split sep rest) as [|h t] eqn:E;
      [exfalso; exact (split_not_nil _ _ E)|].
    rewrite join_cons_char, IH. reflexivity.
Qed.

Lemma split_join sep parts :
  parts <> [] -> Forall (fun x => no_sep sep x = true) parts ->
  split sep (join (String sep "") parts) = parts.
Proof.
  induction parts as [|x [|y rest] IH]; intros Hne Hall; [congruence| |].
  - inversion Hall; subst. cbn [join]. apply split_no_sep. assumption.
  - inversion Hall; subst.
    change (join (String sep "") (x :: y :: rest))
      with (x ++ String sep "" ++ join (String sep "") (y :: rest)).
    change (String sep "" ++ join (String sep "") (y :: rest))
      with (String sep (join (String sep "") (y :: rest))).
    rewrite split_app, IH by (assumption || discriminate).
    rewrite split_no_sep by assumption. reflexivity.
Qed.

(** X1.  [file.name.split('/')] loses nothing: the parts of a key are at
    least one, none of them holds a ['/'], and joined by ['/'] they give
    the key back; conversely a non-empty list of parts without ['/'] is
    what the split of their join gives. *)
Theorem pathParts_round_trip :
  (forall file,
      pathParts file <> [] /\
      Forall (fun x => no_sep "/" x = true) (pathParts file) /\
      join "/" (pathParts file) = name file /\
      exists leaf, fileName_of file = Some leaf) /\
  (forall parts md,
      parts <> [] -> Forall (fun x => no_sep "/" x = true) parts ->
      pathParts {| name := join "/" parts; metadata := md |} = parts).
Proof.
  split.
  - intros file. unfold pathParts.
    split; [apply split_not_nil|]. split; [apply split_parts_no_sep|].
    split; [apply join_split|].
    rewrite fileName_of_segments.
    pose proof (split_not_nil "/" (name file)) as Hne.
    induction (split "/" (name file)) as [|x [|y l] IH]; [congruence| |].
    + exists x. reflexivity.
    + destruct IH as (leaf & E); [discriminate|]. exists leaf. exact E.
  - intros parts md Hne Hall. apply split_join; assumption.
Qed.

Lemma pathParts_round_trip_witness :
  pathParts {| name := join "/" ["root"; "f1"; ""; "marker.json"];
               metadata := {| timeCreated := None; contentType := None |} |}
  = ["root"; "f1"; ""; "marker.json"].
Proof.
  apply (proj2 pathParts_round_trip); [discriminate|].
  repeat constructor.
Defined.

(* ------------------------------------------------------------------ *)
(** ** The figures of the scan *)

Lemma classify_file_accounts cfg sc n file :
  totalFilesCount (fst (classify_file cfg (sc, n) file)) = totalFilesCount sc /\
  requestCount (fst (classify_file cfg (sc, n) file)) = requestCount sc /\
  snd (classify_file cfg (sc, n) file)
  = n + (if is_marker cfg file && created_on_or_after cfg file then 1 else 0).
Proof.
  unfold classify_file.
  destruct (truthy (folderName_of file) && truthy (fileName_of file));
    destruct (is_marker cfg file); destruct (created_on_or_after cfg file);
    cbn; repeat split; lia.
Qed.

Lemma in_a_folder_iff x file :
  (folderName_of file = x /\
   truthy (folderName_of file) && truthy (fileName_of file) = true) <->
  in_a_folder x file.
Proof.
  unfold in_a_folder.
  rewrite folderName_of_segments, fileName_of_segments, andb_true_iff.
  split.
  - intros (E & T1 & T2). subst x. auto.
  - intros (E & T1 & T2). subst x. auto.
Qed.

Lemma classify_fold_accounts cfg files : forall acc,
  totalFilesCount (fst (fold_left (classify_file cfg) files acc))
  = totalFilesCount (fst acc) /\
  requestCount (fst (fold_left (classify_file cfg) files acc))
  = requestCount (fst acc) /\
  snd (fold_left (classify_file cfg) files acc)
  = snd acc + length (filter (fun file => is_marker cfg file &&
                                          created_on_or_after cfg file) files) /\
  (forall x,
      In x (allFoldersFoundInTotal (fst (fold_left (classify_file cfg) files acc))) <->
      In x (allFoldersFoundInTotal (fst acc)) \/
      exists file, In file files /\ in_a_folder x file) /\
  (NoDup (allFoldersFoundInTotal (fst acc)) ->
   NoDup (allFoldersFoundInTotal (fst (fold_left (classify_file cfg) files acc)))).
Proof.
  induction files as [|file files IH]; intros [sc n]; cbn [fold_left].
  - cbn. repeat split; try lia; auto.
    intros [H|(f & [] & _)]. exact H.
  - destruct (IH (classify_file cfg (sc, n) file)) as (Ht & Hr & Hn & Hall & Hnd).
    destruct (classify_file_accounts cfg sc n file) as (Ht1 & Hr1 & Hn1).
    pose proof (classify_file_all cfg sc n file) as Ha1.
    cbn [fst snd].
    split; [congruence|]. split; [congruence|]. split; [|split].
    + rewrite Hn, Hn1. cbn [filter].
      destruct (is_marker cfg file && created_on_or_after cfg file); cbn; lia.
    + intros x. rewrite Hall, Ha1.
      destruct (truthy (folderName_of file) && truthy (fileName_of file)) eqn:T.
      * rewrite Set_add_iff. split.
        -- intros [[E|H]|(f & Hf & Hin)]; [|auto|].
           ++ right. exists file. split; [left; reflexivity|].
              apply in_a_folder_iff. auto.
           ++ right. exists f. split; [right; exact Hf|exact Hin].
        -- intros [H|(f & [E|Hf] & Hin)]; [auto| |].
           ++ subst f. apply in_a_folder_iff in Hin. destruct Hin as [E _]. auto.
           ++ right. exists f. auto.
      * split.
        -- intros [H|(f & Hf & Hin)]; [auto|].
           right. exists f. split; [right; exact Hf|exact Hin].
        -- intros [H|(f & [E|Hf] & Hin)]; [auto| |].
           ++ subst f. apply in_a_folder_iff in Hin. destruct Hin as [_ T'].
              congruence.
           ++ right. exists f. auto.
    + intros H. apply Hnd. rewrite Ha1.
      destruct (truthy (folderName_of file) && truthy (fileName_of file));
        [apply Set_add_nodup|]; exact H.
Qed.

Section ScanAccounts.
Context {W : Type} (be : Backend W) (cfg : Config).

Lemma scan_loop_accounts tok w pages w' :
  Serves be cfg tok w pages w' ->
  forall fuel sc tr, length pages < fuel ->
  exists sc' l,
    scan_loop be cfg fuel tok sc {| world := w; trace := tr |}
    = (Val sc', {| world := w'; trace := (tr ++ l)%list |}) /\
    totalFilesCount sc' = totalFilesCount sc + length (concat pages) /\
    requestCount sc' = requestCount sc + count is_get_files l /\
    Nat.max 1 (length pages) <= count is_get_files l <= S (length pages) /\
    (forall x, In x (allFoldersFoundInTotal sc') <->
               In x (allFoldersFoundInTotal sc) \/
               exists file, In file (concat pages) /\ in_a_folder x file) /\
    (NoDup (allFoldersFoundInTotal sc) -> NoDup (allFoldersFoundInTotal sc')) /\
    (forall x, In x (recentFoldersFound sc') <->
               In x (recentFoldersFound sc) \/
               exists file, In file (concat pages) /\ marker_on_or_after cfg file /\
                            x = second_to_last_segment (split "/" (name file))).
Proof.
  induction 1 as [tok w next w' Hget Hnext
                 |tok w files next w' Hne Hget Hnext
                 |tok w files next w1 pages w' Hne Hget Hnext Hrest IH];
    intros fuel sc tr Hfuel; (destruct fuel as [|fuel]; [simpl in Hfuel; lia|]).
  - cbn [scan_loop].
    erewrite run_bind_val by (apply run_call_ok; exact Hget).
    destruct (truthy tok); cbn.
    + eexists _, _. split; [reflexivity|].
      split; [cbn; lia|]. split; [cbn; lia|]. split; [cbn; lia|].
      split; [|split; [auto|]];
        (intros x; split; [auto|intros [H|(f & [] & _)]; exact H]).
    + eexists _, _. split; [rewrite <- app_assoc; reflexivity|].
      split; [cbn; lia|]. split; [cbn; lia|]. split; [cbn; lia|].
      split; [|split; [auto|]];
        (intros x; split; [auto|intros [H|(f & [] & _)]; exact H]).
  - cbn [scan_loop].
    erewrite run_bind_val by (apply run_call_ok; exact Hget).
    destruct files as [|f0 files0]; [congruence|].
    unfold classify_files.
    match goal with
    | |- context [fold_left (classify_file cfg) ?fs (?s0, 0)] =>
        destruct (classify_fold_accounts cfg fs (s0, 0)) as (Ht & Hr & _ & Hall & Hnd);
        pose proof (classify_fold_recent cfg fs (s0, 0)) as Hrec;
        destruct (fold_left (classify_file cfg) fs (s0, 0)) as [sc1 n1]
    end.
    cbn [fst snd recentFoldersFound totalFilesCount requestCount
         allFoldersFoundInTotal] in Ht, Hr, Hall, Hnd, Hrec.
    erewrite run_bind_val by apply run_log.
    rewrite Hnext. unfold ret, extend. cbn [world trace].
    eexists _, _. split; [rewrite <- app_assoc; reflexivity|].
    cbn [concat]. rewrite app_nil_r.
    split; [exact Ht|]. split; [cbn; lia|]. split; [cbn; lia|].
    split; [exact Hall|]. split; [exact Hnd|exact Hrec].
  - cbn [scan_loop].
    erewrite run_bind_val by (apply run_call_ok; exact Hget).
    destruct files as [|f0 files0]; [congruence|].
    unfold classify_files.
    match goal with
    | |- context [fold_left (classify_file cfg) ?fs (?s0, 0)] =>
        destruct (classify_fold_accounts cfg fs (s0, 0)) as (Ht & Hr & _ & Hall & Hnd);
        pose proof (classify_fold_recent cfg fs (s0, 0)) as Hrec;
        destruct (fold_left (classify_file cfg) fs (s0, 0)) as [sc1 n1]
    end.
    cbn [fst snd recentFoldersFound totalFilesCount requestCount
         allFoldersFoundInTotal] in Ht, Hr, Hall, Hnd, Hrec.
    erewrite run_bind_val by apply run_log.
    rewrite Hnext. unfold extend. cbn [world trace].
    destruct (IH fuel sc1 ((tr ++ [EvGetFiles (scan_options cfg tok)]) ++
                           [EvLog (LogRequest (requestCount sc1) (totalFilesCount sc1)
                                     (length (allFoldersFoundInTotal sc1)) n1)])%list)
      as (sc' & l & Hrun & Ht' & Hr' & Hc' & Hall' & Hnd' & Hrec');
      [simpl in Hfuel; lia|].
    rewrite Hrun. eexists _, _. split; [rewrite <- !app_assoc; reflexivity|].
    cbn [concat length]. rewrite length_app.
    split; [rewrite Ht', Ht; cbn [length]; lia|].
    assert (Hcount : count is_get_files
                       ([EvGetFiles (scan_options cfg tok)] ++
                        [EvLog (LogRequest (requestCount sc1) (totalFilesCount sc1)
                                  (length (allFoldersFoundInTotal sc1)) n1)] ++ l)
                     = S (count is_get_files l)) by reflexivity.
    rewrite Hcount.
    split; [rewrite Hr', Hr; cbn; lia|].
    split; [lia|].
    split; [|split; [auto|]].
    + intros x. rewrite Hall', Hall. split.
      * intros [[H|(f & Hf & Hq)]|(f & Hf & Hq)]; [auto| |].
        -- right. exists f. rewrite in_app_iff. auto.
        -- right. exists f. rewrite in_app_iff. auto.
      * intros [H|(f & Hf & Hq)]; [auto|].
        apply in_app_iff in Hf. destruct Hf as [Hf|Hf].
        -- left. right. exists f. auto.
        -- right. exists f. auto.
    + intros x. rewrite Hrec', Hrec. cbn [fst recentFoldersFound]. split.
      * intros [[H|(f & Hf & Hq)]|(f & Hf & Hq)]; [auto| |].
        -- right. exists f. rewrite in_app_iff. auto.
        -- right. exists f. rewrite in_app_iff. auto.
      * intros [H|(f & Hf & Hq)]; [auto|].
        apply in_app_iff in Hf. destruct Hf as [Hf|Hf].
        -- left. right. exists f. auto.
        -- right. exists f. auto.
Qed.
End ScanAccounts.

Lemma two_folders_served :
  Serves sim small_pages None two_folders
         [[fst f1_marker; fst f1_a; fst f2_marker]; [fst f2_b]] two_folders.
Proof.
  eapply Serves_more; [discriminate|vm_compute; reflexivity|reflexivity|].
  eapply Serves_last; [discriminate|vm_compute; reflexivity|reflexivity].
Qed.

(** X2.  The figures of the scan.  When the source hands out the records
    in [pages], [totalFilesCount] ends as the number of records and
    [requestCount] as the number of listing calls made, which is the
    number of pages, or one more when the listing ends with an empty
    page, and at least one.  The figure [recentFoundInBatch] of a page
    counts the marker records at or after the cut-off, not the folders. *)
Theorem scan_figures {W} (be : Backend W) (cfg : Config) pages w w' fuel tr :
  Serves be cfg None w pages w' ->
  length pages < fuel ->
  exists sc l,
    scan_loop be cfg fuel None initial_scan {| world := w; trace := tr |}
    = (Val sc, {| world := w'; trace := (tr ++ l)%list |}) /\
    totalFilesCount sc = length (concat pages) /\
    requestCount sc = count is_get_files l /\
    Nat.max 1 (length pages) <= requestCount sc <= S (length pages) /\
    forall files sc0,
      snd (classify_files cfg files sc0)
      = length (filter (fun file => is_marker cfg file &&
                                    created_on_or_after cfg file) files).
Proof.
  intros Hs Hfuel.
  destruct (scan_loop_accounts Hs initial_scan tr Hfuel)
    as (sc & l & Hrun & Ht & Hr & Hc & _).
  exists sc, l. split; [exact Hrun|]. split; [exact Ht|].
  cbn in Hr. split; [exact Hr|]. split; [rewrite Hr; exact Hc|].
  intros files sc0. unfold classify_files.
  destruct (classify_fold_accounts cfg files (sc0, 0)) as (_ & _ & Hn & _).
  exact Hn.
Qed.

Lemma scan_figures_witness :
  exists sc l,
    scan_loop sim small_pages 3 None initial_scan {| world := two_folders; trace := [] |}
    = (Val sc, {| world := two_folders; trace := ([] ++ l)%list |}) /\
    totalFilesCount sc = 4 /\ 2 <= requestCount sc <= 3.
Proof.
  destruct (@scan_figures _ sim small_pages _ two_folders two_folders 3 []
              two_folders_served (le_n 3))
    as (sc & l & Hrun & Ht & Hr & Hc & _).
  exists sc, l. split; [exact Hrun|]. split; [exact Ht|].
  cbn in Hc. lia.
Defined.

(** X3.  The set of all folders.  After the scan it is duplicate-free and
    holds exactly the second-to-last segments of the records whose
    second-to-last and last segment are both non-empty; a record whose
    key ends in ['/'] or has a single segment adds nothing.  When the
    marker filename is not empty, every non-empty name of the
    recent-folder set is in it. *)
Theorem all_folders_of_the_scan {W} (be : Backend W) (cfg : Config)
        pages w w' fuel tr :
  Serves be cfg None w pages w' ->
  length pages < fuel ->
  exists sc l,
    scan_loop be cfg fuel None initial_scan {| world := w; trace := tr |}
    = (Val sc, {| world := w'; trace := (tr ++ l)%list |}) /\
    NoDup (allFoldersFoundInTotal sc) /\
    (forall x, In x (allFoldersFoundInTotal sc) <->
               exists file, In file (concat pages) /\ in_a_folder x file) /\
    (FOLDER_DATE_CHECK_FILE cfg <> "" ->
     forall x, truthy x = true ->
               In x (recentFoldersFound sc) -> In x (allFoldersFoundInTotal sc)).
Proof.
  intros Hs Hfuel.
  destruct (scan_loop_accounts Hs initial_scan tr Hfuel)
    as (sc & l & Hrun & _ & _ & _ & Hall & Hnd & Hrec).
  exists sc, l. split; [exact Hrun|]. split; [apply Hnd; constructor|].
  assert (Hall' : forall x, In x (allFoldersFoundInTotal sc) <->
                  exists file, In file (concat pages) /\ in_a_folder x file).
  { intros x. rewrite Hall. cbn. tauto. }
  split; [exact Hall'|].
  intros Hm x Hx Hin. apply Hall'. apply Hrec in Hin.
  destruct Hin as [[]|(file & Hf & (Hlast & _) & E)].
  exists file. split; [exact Hf|]. unfold in_a_folder.
  split; [auto|]. split; [exact Hx|].
  rewrite Hlast. cbn. apply negb_true_iff. apply String.eqb_neq. exact Hm.
Qed.

Lemma all_folders_witness :
  exists sc l,
    scan_loop sim small_pages 3 None initial_scan {| world := two_folders; trace := [] |}
    = (Val sc, {| world := two_folders; trace := ([] ++ l)%list |}) /\
    In (Some "f2") (allFoldersFoundInTotal sc) /\
    ~ In (Some "root") (allFoldersFoundInTotal sc).
Proof.
  destruct (@all_folders_of_the_scan _ sim small_pages _ two_folders two_folders 3 []
              two_folders_served (le_n 3))
    as (sc & l & Hrun & _ & Hall & _).
  exists sc, l. split; [exact Hrun|]. split.
  - apply Hall. exists (fst f2_b). split; [cbn; auto|]. repeat split.
  - intros Hin. apply Hall in Hin. destruct Hin as (file & Hf & Hseg & _).
    cbn in Hf. destruct Hf as [<-|[<-|[<-|[<-|[]]]]]; discriminate Hseg.
Defined.

(* ------------------------------------------------------------------ *)
(** ** Empty pages *)

(** X4.  An empty source.  When the first listing call gives no file, with
    or without a next page token, both files print the no-files line and
    the no-new-folders line, go through the migration step without a
    single call to the destination and end normally. *)
Theorem empty_listing_migrates_nothing
        {W} (be : Backend W) (cfg : Config) fuel (st : St W) next w1 :
  gcs_getFiles be (scan_options cfg None) (world st) = (Ok ([], next), w1) ->
  let lines :=
    [EvLog (LogGettingFileList (GCP_BUCKET_NAME cfg) (GCP_INTERNAL_PATH cfg));
     EvLog (LogSearching (MINIMUM_DATE cfg));
     EvGetFiles (scan_options cfg None);
     EvLog LogNoFilesAtPath;
     EvLog LogNoNewFolders;
     EvLog LogStartingMigration;
     EvLog LogFinished] in
  FullDiff.findAndProcessRecentFolders be cfg (S fuel) st
  = (Val tt, extend st w1 lines) /\
  PresenceCheck.findAndProcessRecentFolders be cfg (S fuel) st
  = (Val tt, extend st w1 lines).
Proof.
  intros Hg lines.
  assert (Hscan : scan be cfg (S fuel) st
                  = (Val [],
                     extend st w1
                       [EvLog (LogGettingFileList (GCP_BUCKET_NAME cfg)
                                                  (GCP_INTERNAL_PATH cfg));
                        EvLog (LogSearching (MINIMUM_DATE cfg));
                        EvGetFiles (scan_options cfg None);
                        EvLog LogNoFilesAtPath;
                        EvLog LogNoNewFolders])).
  { unfold scan.
    erewrite run_bind_val by apply run_log.
    erewrite run_bind_val by apply run_log.
    erewrite run_bind_val.
    2:{ cbn [scan_loop].
        erewrite run_bind_val by (apply run_call_ok; exact Hg).
        cbn. reflexivity. }
    cbn. unfold extend. cbn. rewrite <- !app_assoc. reflexivity. }
  split.
  - unfold FullDiff.findAndProcessRecentFolders, try_catch, FullDiff.pipeline.
    erewrite run_bind_val by exact Hscan.
    cbn. unfold extend. cbn. rewrite <- !app_assoc. reflexivity.
  - unfold PresenceCheck.findAndProcessRecentFolders, try_catch,
      PresenceCheck.pipeline.
    erewrite run_bind_val by exact Hscan.
    cbn. unfold extend. cbn. rewrite <- !app_assoc. reflexivity.
Qed.

Lemma empty_listing_witness :
  let w := bucket [] ["root/f1/old.txt"] 1000 in
  FullDiff.findAndProcessRecentFolders sim example_config 1 (start w)
  = (Val tt,
     extend (start w) w
       [EvLog (LogGettingFileList "source" "root/");
        EvLog (LogSearching 1741564800000);
        EvGetFiles (scan_options example_config None);
        EvLog LogNoFilesAtPath;
        EvLog LogNoNewFolders;
        EvLog LogStartingMigration;
        EvLog LogFinished]).
Proof.
  intros w.
  apply (@empty_listing_migrates_nothing _ sim example_config 0 (start w) None w).
  reflexivity.
Defined.

(** X5.  An empty page ends the scan.  When a page after the first one
    comes without a file, the loop is left at once and without a line,
    whatever next page token the page carries: what the source holds
    behind an empty page is not scanned. *)
Theorem empty_page_ends_the_scan
        {W} (be : Backend W) (cfg : Config) fuel sc (st : St W)
        files tok w1 next w2 :
  gcs_getFiles be (scan_options cfg None) (world st) = (Ok (files, tok), w1) ->
  files <> [] ->
  truthy tok = true ->
  gcs_getFiles be (scan_options cfg tok) w1 = (Ok ([], next), w2) ->
  exists sc' line,
    scan_loop be cfg (S (S fuel)) None sc st
    = (Val sc',
       extend st w2 [EvGetFiles (scan_options cfg None);
                     EvLog line;
                     EvGetFiles (scan_options cfg tok)]) /\
    pageToken (scan_options cfg tok) = tok /\
    requestCount sc' = requestCount sc + 2 /\
    totalFilesCount sc' = totalFilesCount sc + length files.
Proof.
  intros Hg Hne Ht Hg2.
  cbn [scan_loop].
  erewrite run_bind_val by (apply run_call_ok; exact Hg).
  destruct files as [|f0 files0]; [congruence|].
  unfold classify_files.
  match goal with
  | |- context [fold_left (classify_file cfg) ?fs (?s0, 0)] =>
      destruct (classify_fold_accounts cfg fs (s0, 0)) as (Hc & Hr & _);
      destruct (fold_left (classify_file cfg) fs (s0, 0)) as [sc1 n1]
  end.
  cbn [fst totalFilesCount requestCount] in Hc, Hr.
  erewrite run_bind_val by apply run_log.
  rewrite Ht.
  erewrite run_bind_val by (apply run_call_ok; cbn [extend world]; exact Hg2).
  cbn [negb when].
  erewrite run_bind_val by reflexivity.
  unfold ret. rewrite !extend_extend.
  eexists _, _. split; [reflexivity|].
  split; [unfold scan_options; rewrite Ht; reflexivity|].
  cbn. cbn [length] in Hc. split; lia.
Qed.

Lemma empty_page_witness :
  exists sc' line,
    scan_loop empty_second_page example_config 2 None initial_scan (start 0)
    = (Val sc',
       extend (start 0) 2
         [EvGetFiles (scan_options example_config None);
          EvLog line;
          EvGetFiles (scan_options example_config (Some "page-2"))]) /\
    pageToken (scan_options example_config (Some "page-2")) = Some "page-2" /\
    requestCount sc' = 0 + 2 /\
    totalFilesCount sc' = 0 + 1.
Proof.
  apply (@empty_page_ends_the_scan _ empty_second_page example_config 0
           initial_scan (start 0) [fst f1_marker] (Some "page-2") 1
           (Some "page-3") 2);
    [reflexivity|discriminate|reflexivity|reflexivity].
Defined.

(* ------------------------------------------------------------------ *)
(** ** What one task does *)

Section TaskShape.
Context {W : Type} (be : Backend W) (cfg : Config).

Lemma count_sleep_failed_round key i r : count is_sleep (failed_round key i r) = 1.
Proof. reflexivity. Qed.

Lemma download_loop_shape file : forall rounds i (st : St W),
  exists got w l,
    FullDiff.download_loop be rounds i file st = (Val got, extend st w l) /\
    count (is_download_of (name file)) l <= rounds /\
    count (is_put_of (name file)) l = 0 /\
    count (is_skip_of (name file)) l = 0 /\
    count is_sleep l + match got with Some _ => 1 | None => 0 end
    = count (is_download_of (name file)) l /\
    (got = None -> count (is_download_of (name file)) l = rounds) /\
    (1 <= rounds -> 1 <= count (is_download_of (name file)) l).
Proof.
  induction rounds as [|rounds IH]; intros i st.
  - exists None, (world st), []. rewrite extend_nil. cbn.
    repeat split; try lia.
  - destruct (gcs_download be file (world st)) as [r w1] eqn:Hd.
    destruct (failed_attempt r) eqn:Hf.
    + rewrite (download_loop_failed be _ _ _ _ Hd Hf).
      destruct (IH (S i) (extend st w1 (failed_round (name file) i r)))
        as (got & w & l & Hrun & Hle & Hp & Hs & Hsl & Hnone & _).
      destruct (count_failed_round (name file) i r) as (P1 & S1 & D1).
      exists got, w, (failed_round (name file) i r ++ l)%list.
      rewrite Hrun, extend_extend. split; [reflexivity|].
      rewrite !count_app, P1, S1, D1, count_sleep_failed_round.
      repeat split; try lia. intros E. specialize (Hnone E). lia.
    + destruct r as [[b|]|e]; try discriminate.
      rewrite (download_loop_buffer be _ _ _ _ Hd).
      exists (Some b), w1, [EvDownload (name file)].
      split; [reflexivity|]. unfold count. cbn. rewrite String.eqb_refl. cbn.
      repeat split; try lia. discriminate.
Qed.
End TaskShape.

(** X6.  Every task ends in exactly one of two ways.  Whatever the two
    clients answer, the task of a file makes between one and three
    download calls, waits once after each failed one, and then either
    makes exactly one upload call or prints exactly one skip line, never
    both and never neither; it skips only after three downloads, and a
    skipped task ends fulfilled with the shared counter unchanged. *)
Theorem task_uploads_once_or_skips {W} (be : Backend W) (cfg : Config)
        total file cnt (st : St W) :
  exists res w l,
    FullDiff.transfer_task be cfg total file cnt st = (res, extend st w l) /\
    1 <= count (is_download_of (name file)) l <= 3 /\
    count (is_put_of (name file)) l + count (is_skip_of (name file)) l = 1 /\
    count is_sleep l + count (is_put_of (name file)) l
    = count (is_download_of (name file)) l /\
    (count (is_skip_of (name file)) l = 1 ->
     count (is_download_of (name file)) l = 3 /\ res = Val cnt).
Proof.
  destruct (download_loop_shape be file 3 0 st)
    as (got & w1 & l1 & Hrun & Hle & Hp & Hs & Hsl & Hnone & Hone).
  specialize (Hone ltac:(lia)).
  destruct got as [b|].
  - destruct (s3_putObject be (FullDiff.upload_params cfg file b) w1)
      as [[[]|e] w2] eqn:Hput.
    + eexists _, w2, _. split.
      * erewrite transfer_task_uploaded by (try exact Hrun; exact Hput).
        rewrite extend_extend. reflexivity.
      * rewrite !count_app, Hp, Hs.
        remember (count (is_download_of (name file)) l1) as d.
        remember (count is_sleep l1) as sl.
        unfold count. cbn. rewrite ?String.eqb_refl. cbn.
        repeat split; try lia.
    + eexists _, w2, _. split.
      * erewrite transfer_task_upload_failed by (try exact Hrun; exact Hput).
        rewrite extend_extend. reflexivity.
      * rewrite !count_app, Hp, Hs.
        remember (count (is_download_of (name file)) l1) as d.
        remember (count is_sleep l1) as sl.
        unfold count. cbn. rewrite ?String.eqb_refl. cbn.
        repeat split; try lia.
  - eexists _, w1, _. split.
    + erewrite transfer_task_skipped by exact Hrun.
      rewrite extend_extend. reflexivity.
    + specialize (Hnone eq_refl).
      rewrite !count_app, Hp, Hs.
      remember (count (is_download_of (name file)) l1) as d.
      remember (count is_sleep l1) as sl.
      unfold count. cbn. rewrite ?String.eqb_refl. cbn.
      repeat split; try lia.
Qed.

(* ------------------------------------------------------------------ *)
(** ** The events of a whole run *)

Section Returns.
Context {W : Type}.

Lemma returns_ret {A} (Q : A -> Prop) a : Q a -> returns Q (@ret W A a).
Proof. intros H st a' st' E. inversion E. subst. exact H. Qed.

Lemma returns_bind {A B} (Q1 : A -> Prop) (Q : B -> Prop) (m : M W A) k :
  returns Q1 m -> (forall a, Q1 a -> returns Q (k a)) -> returns Q (bind m k).
Proof.
  intros Hm Hk st b st' E. unfold bind in E.
  destruct (m st) as [[a|e|] st1] eqn:Em; try discriminate.
  exact (Hk a (Hm _ _ _ Em) _ _ _ E).
Qed.

Lemma returns_any {A} (m : M W A) : returns (fun _ => True) m.
Proof. intros st a st' _. exact I. Qed.

Lemma emits_bind_post {A B} P (Q : A -> Prop) (m : M W A) (k : A -> M W B) :
  emits P m -> returns Q m -> (forall a, Q a -> emits P (k a)) ->
  emits P (bind m k).
Proof.
  intros Hm Hq Hk st. unfold bind. destruct (Hm st) as (l & E & F).
  destruct (m st) as [[a|e|] st1] eqn:Em; cbn in E.
  - destruct (Hk a (Hq _ _ _ Em) st1) as (l' & E' & F'). exists (l ++ l')%list.
    rewrite E', E, app_assoc. split; [reflexivity|]. apply Forall_app. auto.
  - exists l. auto.
  - exists l. auto.
Qed.
End Returns.

Section RunEvents.
Context {W : Type} (be : Backend W) (cfg : Config).
Variable P : Event -> Prop.
Hypothesis P_line :
  forall l, match l with
            | LogFoldersMigrated _ _ _ => True
            | LogOverallError _ => True
            | _ => P (EvLog l)
            end.
Hypothesis P_sleep : forall ms, P (EvSleep ms).
Hypothesis P_download : forall key, P (EvDownload key).
Hypothesis P_get_scan : forall tok, P (EvGetFiles (scan_options cfg tok)).
Hypothesis P_get_folder :
  forall folder, P (EvGetFiles (folder_files_options cfg folder)).

Lemma download_loop_run_emits file : forall rounds i,
  emits P (FullDiff.download_loop be rounds i file).
Proof.
  induction rounds as [|rounds IH]; intros i; cbn [FullDiff.download_loop].
  - apply emits_ret.
  - apply emits_bind.
    + apply emits_try_catch.
      * apply emits_bind; [apply emits_call, P_download|].
        intros [b|]; [apply emits_ret|apply emits_throw].
      * intros e.
        apply emits_bind;
          [apply emits_log; exact (P_line (LogRetrying (name file) (i + 1)))|intros _].
        apply emits_bind;
          [apply emits_log; exact (P_line (LogDownloadFailed e))|intros _].
        apply emits_bind; [apply emits_emit, P_sleep|intros _]. apply emits_ret.
    + intros [b|]; [apply emits_ret|apply IH].
Qed.

Lemma scan_loop_run_emits : forall fuel tok sc,
  emits P (scan_loop be cfg fuel tok sc).
Proof.
  induction fuel as [|fuel IH]; intros tok sc; cbn [scan_loop];
    [apply emits_out_of_fuel|].
  apply emits_bind; [apply emits_call, P_get_scan|intros [files next]].
  destruct files as [|f0 files0].
  - apply emits_bind; [|intros _; apply emits_ret].
    apply emits_when, emits_log. exact (P_line LogNoFilesAtPath).
  - destruct (classify_files cfg (f0 :: files0) _) as [sc1 n1].
    apply emits_bind;
      [apply emits_log; exact (P_line (LogRequest _ _ _ _))|intros _].
    destruct (truthy next); [apply IH|apply emits_ret].
Qed.

Lemma scan_run_emits fuel : emits P (scan be cfg fuel).
Proof.
  unfold scan.
  apply emits_bind; [apply emits_log; exact (P_line (LogGettingFileList _ _))|intros _].
  apply emits_bind; [apply emits_log; exact (P_line (LogSearching _))|intros _].
  apply emits_bind; [apply scan_loop_run_emits|intros sc].
  apply emits_bind; [|intros _; apply emits_ret].
  destruct (length (recentFoldersFound sc) =? 0)%nat.
  - apply emits_log. exact (P_line LogNoNewFolders).
  - apply emits_bind; [apply emits_log; exact (P_line (LogScanComplete _))|intros _].
    apply emits_log. exact (P_line (LogAllNewFolders _)).
Qed.

Section FullDiffRun.
Hypothesis P_list :
  forall folder, P (EvListObjectsV2 (FullDiff.list_params cfg folder)).
Hypothesis P_put :
  forall file b, P (EvPutObject (FullDiff.upload_params cfg file b)).

Lemma transfer_task_run_emits total file cnt :
  emits P (FullDiff.transfer_task be cfg total file cnt).
Proof.
  unfold FullDiff.transfer_task.
  apply emits_bind; [apply download_loop_run_emits|intros [b|]].
  - apply emits_bind; [apply emits_call, P_put|intros _].
    apply emits_bind; [|intros _; apply emits_ret].
    apply emits_log. exact (P_line (LogTransferred _ _ _)).
  - apply emits_bind; [|intros _; apply emits_ret].
    apply emits_log. exact (P_line (LogSkipping _)).
Qed.

Lemma run_pool_run_emits total files : forall cnt,
  emits P (FullDiff.run_pool be cfg total files cnt).
Proof.
  induction files as [|file rest IH]; intros cnt; [apply emits_ret|].
  intros st. cbn [FullDiff.run_pool].
  destruct (transfer_task_run_emits total file cnt st) as (l & E & F).
  destruct (FullDiff.transfer_task be cfg total file cnt st) as [[c|e|] st1];
    cbn [snd] in E.
  - assert (Hk : emits P (rs <- FullDiff.run_pool be cfg total rest c ;;
                          ret (Fulfilled :: rs)))
      by (apply emits_bind; [apply IH|intros; apply emits_ret]).
    destruct (Hk st1) as (l' & E' & F').
    exists (l ++ l')%list. rewrite E', E, app_assoc.
    split; [reflexivity|apply Forall_app; auto].
  - assert (Hk : emits P (rs <- FullDiff.run_pool be cfg total rest cnt ;;
                          ret (Rejected e :: rs)))
      by (apply emits_bind; [apply IH|intros; apply emits_ret]).
    destruct (Hk st1) as (l' & E' & F').
    exists (l ++ l')%list. rewrite E', E, app_assoc.
    split; [reflexivity|apply Forall_app; auto].
  - exists l. auto.
Qed.

Lemma full_diff_folder_run_emits fuel total folder cnt :
  P (EvLog (LogFoldersMigrated (S cnt) total (remaining total (S cnt)))) ->
  emits P (FullDiff.migrate_folder be cfg fuel total folder cnt).
Proof.
  intros Hm. unfold FullDiff.migrate_folder, FullDiff.files_to_migrate.
  apply emits_bind; [apply emits_log; exact (P_line (LogStartFolder _))|intros _].
  apply emits_bind.
  - apply emits_bind.
    + generalize (@nil JsStr). induction fuel as [|fuel IH]; intros r2Files;
        cbn [FullDiff.list_r2_files]; [apply emits_out_of_fuel|].
      apply emits_bind; [apply emits_call, P_list|intros out].
      destruct (truthy (NextContinuationToken out)); [apply IH|apply emits_ret].
    + intros r2Files.
      apply emits_bind; [apply emits_log; exact (P_line (LogFoundExisting _))|intros _].
      apply emits_bind; [apply emits_call, P_get_folder|intros [gcpFiles next]].
      apply emits_bind; [|intros _; apply emits_ret].
      apply emits_log. exact (P_line (LogFoundInGcp _ _)).
  - intros files. destruct (length files =? 0)%nat.
    + apply emits_bind; [apply emits_log; exact (P_line LogFullySynced)|intros _].
      apply emits_bind; [apply emits_log; exact Hm|intros _]. apply emits_ret.
    + apply emits_bind; [apply run_pool_run_emits|intros rs].
      apply emits_bind.
      { induction rs as [|[|e] rs IH]; cbn;
          [apply emits_ret|exact IH|apply emits_throw]. }
      intros _.
      apply emits_bind; [apply emits_log; exact (P_line (LogFolderComplete _))|intros _].
      apply emits_bind; [apply emits_log; exact Hm|intros _]. apply emits_ret.
Qed.

Lemma full_diff_folder_returns fuel total folder cnt :
  returns (fun c => c = S cnt) (FullDiff.migrate_folder be cfg fuel total folder cnt).
Proof.
  unfold FullDiff.migrate_folder.
  eapply returns_bind; [apply returns_any|intros _ _].
  eapply returns_bind; [apply returns_any|intros files _].
  destruct (length files =? 0)%nat.
  - eapply returns_bind; [apply returns_any|intros _ _].
    eapply returns_bind; [apply returns_any|intros _ _].
    apply returns_ret. reflexivity.
  - eapply returns_bind; [apply returns_any|intros rs _].
    eapply returns_bind; [apply returns_any|intros _ _].
    eapply returns_bind; [apply returns_any|intros _ _].
    eapply returns_bind; [apply returns_any|intros _ _].
    apply returns_ret. reflexivity.
Qed.

Lemma full_diff_folders_returns fuel total folders : forall cnt,
  returns (fun c => c = cnt + length folders)
          (FullDiff.migrate_folders be cfg fuel total folders cnt).
Proof.
  induction folders as [|folder rest IH]; intros cnt;
    cbn [FullDiff.migrate_folders].
  - apply returns_ret. cbn. lia.
  - eapply returns_bind; [apply full_diff_folder_returns|].
    intros c ->. intros st a st' E. apply IH in E. cbn [length]. lia.
Qed.

Lemma full_diff_folders_run_emits fuel total folders : forall cnt,
  (forall m, cnt < m <= cnt + length folders ->
             P (EvLog (LogFoldersMigrated m total (remaining total m)))) ->
  emits P (FullDiff.migrate_folders be cfg fuel total folders cnt).
Proof.
  induction folders as [|folder rest IH]; intros cnt Hm;
    cbn [FullDiff.migrate_folders]; [apply emits_ret|].
  eapply emits_bind_post.
  - apply full_diff_folder_run_emits. apply Hm. cbn [length]. lia.
  - apply full_diff_folder_returns.
  - intros c ->. apply IH. intros m Hrange. apply Hm. cbn [length]. lia.
Qed.

Lemma full_diff_pipeline_run_emits fuel :
  (forall total m, 0 < m <= total ->
                   P (EvLog (LogFoldersMigrated m total (remaining total m)))) ->
  emits P (FullDiff.pipeline be cfg fuel).
Proof.
  intros Hm. unfold FullDiff.pipeline.
  apply emits_bind; [apply scan_run_emits|intros folders].
  apply emits_bind; [apply emits_log; exact (P_line LogStartingMigration)|intros _].
  apply emits_bind.
  - apply full_diff_folders_run_emits. intros m Hrange. apply Hm. lia.
  - intros _. apply emits_log. exact (P_line LogFinished).
Qed.

Lemma full_diff_run_emits fuel :
  (forall total m, 0 < m <= total ->
                   P (EvLog (LogFoldersMigrated m total (remaining total m)))) ->
  (forall e, P (EvLog (LogOverallError e))) ->
  emits P (FullDiff.findAndProcessRecentFolders be cfg fuel).
Proof.
  intros Hm He. unfold FullDiff.findAndProcessRecentFolders.
  apply emits_try_catch.
  - apply full_diff_pipeline_run_emits. exact Hm.
  - intros e. apply emits_log. apply He.
Qed.
End FullDiffRun.

Section PresenceRun.
Hypothesis P_list :
  forall folder, P (EvListObjectsV2 (PresenceCheck.list_params cfg folder)).
Hypothesis P_put :
  forall file buf, P (EvPutObject (PresenceCheck.upload_params cfg file buf)).

Lemma transfer_files_run_emits total files : forall cnt,
  emits P (PresenceCheck.transfer_files be cfg total files cnt).
Proof.
  induction files as [|file rest IH]; intros cnt;
    cbn [PresenceCheck.transfer_files]; [apply emits_ret|].
  apply emits_bind; [apply emits_call, P_download|intros buf].
  apply emits_bind; [apply emits_call, P_put|intros _].
  apply emits_bind; [apply emits_log; exact (P_line (LogTransferred _ _ _))|intros _].
  apply IH.
Qed.

Lemma presence_folder_run_emits total folder cnt :
  P (EvLog (LogFoldersMigrated (S cnt) total (remaining total (S cnt)))) ->
  emits P (PresenceCheck.migrate_folder be cfg total folder cnt).
Proof.
  intros Hm. unfold PresenceCheck.migrate_folder.
  apply emits_bind; [apply emits_log; exact (P_line (LogStartFolder _))|intros _].
  apply emits_bind; [apply emits_call, P_list|intros out].
  destruct (PresenceCheck.already_exists out).
  - apply emits_bind; [apply emits_log; exact (P_line (LogAlreadyExists _))|intros _].
    apply emits_bind; [apply emits_log; exact Hm|intros _]. apply emits_ret.
  - apply emits_bind; [apply emits_log; exact (P_line (LogNotFoundInS3 _))|intros _].
    apply emits_bind; [apply emits_call, P_get_folder|intros [gcpFiles next]].
    apply emits_bind; [apply emits_log; exact (P_line (LogFoundToTransfer _))|intros _].
    destruct (length gcpFiles =? 0)%nat.
    + apply emits_bind; [apply emits_log; exact (P_line LogFolderEmpty)|intros _].
      apply emits_bind; [apply emits_log; exact Hm|intros _]. apply emits_ret.
    + apply emits_bind; [apply transfer_files_run_emits|intros _].
      apply emits_bind; [apply emits_log; exact (P_line (LogFolderComplete _))|intros _].
      apply emits_bind; [apply emits_log; exact Hm|intros _]. apply emits_ret.
Qed.

Lemma presence_folder_returns total folder cnt :
  returns (fun c => c = S cnt) (PresenceCheck.migrate_folder be cfg total folder cnt).
Proof.
  unfold PresenceCheck.migrate_folder.
  eapply returns_bind; [apply returns_any|intros _ _].
  eapply returns_bind; [apply returns_any|intros out _].
  destruct (PresenceCheck.already_exists out).
  - eapply returns_bind; [apply returns_any|intros _ _].
    eapply returns_bind; [apply returns_any|intros _ _].
    apply returns_ret. reflexivity.
  - eapply returns_bind; [apply returns_any|intros _ _].
    eapply returns_bind; [apply returns_any|intros [gcpFiles next] _].
    eapply returns_bind; [apply returns_any|intros _ _].
    destruct (length gcpFiles =? 0)%nat.
    + eapply returns_bind; [apply returns_any|intros _ _].
      eapply returns_bind; [apply returns_any|intros _ _].
      apply returns_ret. reflexivity.
    + eapply returns_bind; [apply returns_any|intros _ _].
      eapply returns_bind; [apply returns_any|intros _ _].
      eapply returns_bind; [apply returns_any|intros _ _].
      apply returns_ret. reflexivity.
Qed.

Lemma presence_folders_returns total folders : forall cnt,
  returns (fun c => c = cnt + length folders)
          (PresenceCheck.migrate_folders be cfg total folders cnt).
Proof.
  induction folders as [|folder rest IH]; intros cnt;
    cbn [PresenceCheck.migrate_folders].
  - apply returns_ret. cbn. lia.
  - eapply returns_bind; [apply presence_folder_returns|].
    intros c ->. intros st a st' E. apply IH in E. cbn [length]. lia.
Qed.

Lemma presence_folders_run_emits total folders : forall cnt,
  (forall m, cnt < m <= cnt + length folders ->
             P (EvLog (LogFoldersMigrated m total (remaining total m)))) ->
  emits P (PresenceCheck.migrate_folders be cfg total folders cnt).
Proof.
  induction folders as [|folder rest IH]; intros cnt Hm;
    cbn [PresenceCheck.migrate_folders]; [apply emits_ret|].
  eapply emits_bind_post.
  - apply presence_folder_run_emits. apply Hm. cbn [length]. lia.
  - apply presence_folder_returns.
  - intros c ->. apply IH. intros m Hrange. apply Hm. cbn [length]. lia.
Qed.

Lemma presence_run_emits fuel :
  (forall total m, 0 < m <= total ->
                   P (EvLog (LogFoldersMigrated m total (remaining total m)))) ->
  (forall e, P (EvLog (LogOverallError e))) ->
  emits P (PresenceCheck.findAndProcessRecentFolders be cfg fuel).
Proof.
  intros Hm He. unfold PresenceCheck.findAndProcessRecentFolders, PresenceCheck.pipeline.
  apply emits_try_catch.
  - apply emits_bind; [apply scan_run_emits|intros folders].
    apply emits_bind; [apply emits_log; exact (P_line LogStartingMigration)|intros _].
    apply emits_bind.
    + apply presence_folders_run_emits. intros m Hrange. apply Hm. lia.
    + intros _. apply emits_log. exact (P_line LogFinished).
  - intros e. apply emits_log. apply He.
Qed.
End PresenceRun.
End RunEvents.

Lemma upload_params_request cfg file b :
  upload_request_of cfg file (FullDiff.upload_params cfg file b).
Proof.
  unfold upload_request_of. split; [reflexivity|]. split; [reflexivity|].
  split; [eexists; reflexivity|].
  cbn [FullDiff.upload_params put_ContentType]. unfold truthy.
  destruct (contentType (metadata file)) as [c|]; [|reflexivity].
  destruct (String.eqb c ""); reflexivity.
Qed.

Lemma pool_request_events {W} (be : Backend W) cfg total files : forall cnt,
  emits (pool_request cfg files) (FullDiff.run_pool be cfg total files cnt).
Proof.
  induction files as [|file rest IH]; intros cnt; [apply emits_ret|].
  assert (Hweak : forall e, pool_request cfg rest e -> pool_request cfg (file :: rest) e).
  { intros [o|k|q|q|ms|ln]; cbn; auto.
    intros (f & Hf & Hq). exists f. auto. }
  intros st. cbn [FullDiff.run_pool].
  assert (Htask : emits (pool_request cfg (file :: rest))
                        (FullDiff.transfer_task be cfg total file cnt)).
  { apply transfer_task_emits; [exact I| |intros [o|k|q|q|ms|ln]; exact I].
    intros b. exists file. split; [left; reflexivity|apply upload_params_request]. }
  destruct (Htask st) as (l & E & F).
  destruct (FullDiff.transfer_task be cfg total file cnt st) as [[c|e|] st1];
    cbn [snd] in E.
  - assert (Hk : emits (pool_request cfg (file :: rest))
                       (rs <- FullDiff.run_pool be cfg total rest c ;;
                        ret (Fulfilled :: rs))).
    { apply emits_bind; [|intros; apply emits_ret].
      eapply emits_weaken; [exact Hweak|apply IH]. }
    destruct (Hk st1) as (l' & E' & F').
    exists (l ++ l')%list. rewrite E', E, app_assoc.
    split; [reflexivity|apply Forall_app; auto].
  - assert (Hk : emits (pool_request cfg (file :: rest))
                       (rs <- FullDiff.run_pool be cfg total rest cnt ;;
                        ret (Rejected e :: rs))).
    { apply emits_bind; [|intros; apply emits_ret].
      eapply emits_weaken; [exact Hweak|apply IH]. }
    destruct (Hk st1) as (l' & E' & F').
    exists (l ++ l')%list. rewrite E', E, app_assoc.
    split; [reflexivity|apply Forall_app; auto].
  - exists l. auto.
Qed.

(** X7.  The requests of gcp-r2-migration.ts to the destination.  In a
    whole run, whatever the clients answer, every upload goes to
    [S3_BUCKET_NAME] with a body and a non-empty content type, and every
    listing request names that bucket and carries neither a key limit nor
    a continuation token.  Every upload of the task of a file carries the
    key of that file and the content type of the source, or
    [application/octet-stream] when the source gives none or an empty
    one; every upload of a pool is such a request of one of its files. *)
Theorem full_diff_requests_are_well_formed {W} (be : Backend W) (cfg : Config) :
  (forall fuel,
      emits (well_formed_request cfg)
            (FullDiff.findAndProcessRecentFolders be cfg fuel)) /\
  (forall total file cnt,
      emits (task_request cfg file) (FullDiff.transfer_task be cfg total file cnt)) /\
  (forall total files cnt,
      emits (pool_request cfg files) (FullDiff.run_pool be cfg total files cnt)).
Proof.
  split; [|split].
  - intros fuel. apply full_diff_run_emits; try (intros; exact I).
    + intros []; exact I.
    + intros folder. cbn. auto.
    + intros file b. cbn. split; [reflexivity|]. split; [eexists; reflexivity|].
      destruct (truthy (contentType (metadata file))) eqn:T; [exact T|reflexivity].
  - intros total file cnt.
    apply transfer_task_emits; [exact I| |intros [o|k|q|q|ms|ln]; exact I].
    intros b. apply upload_params_request.
  - intros total files cnt. apply pool_request_events.
Qed.

(** X8.  The scan only reads the source.  Step 1 makes no call to the
    destination and downloads nothing: besides console lines its events
    are listing calls on the root prefix with the page size
    [BATCH_SIZE]. *)
Theorem scan_only_lists_the_root {W} (be : Backend W) (cfg : Config) fuel :
  emits (scan_event cfg) (scan be cfg fuel).
Proof.
  apply scan_run_emits.
  - intros []; exact I.
  - intros tok. split; reflexivity.
Qed.

(** X9.  The progress lines.  In a whole run of either file, whatever the
    clients answer, every line [Folders migrated: m/total (Remaining: r)]
    has [1 <= m <= total] and [r = total - m], so the remainder is never
    negative. *)
Theorem progress_lines_are_in_step {W} (be : Backend W) (cfg : Config) fuel :
  emits progress_line (FullDiff.findAndProcessRecentFolders be cfg fuel) /\
  emits progress_line (PresenceCheck.findAndProcessRecentFolders be cfg fuel).
Proof.
  assert (Hm : forall total m, 0 < m <= total ->
               progress_line (EvLog (LogFoldersMigrated m total (remaining total m)))).
  { intros total m Hrange. unfold progress_line, remaining. lia. }
  split.
  - apply full_diff_run_emits; try (intros; exact I); [|exact Hm].
    intros []; exact I.
  - apply presence_run_emits; try (intros; exact I); [|exact Hm].
    intros []; exact I.
Qed.

(** X10.  Every folder that the loop gets through is counted once.  When
    the folder loop of either file ends without an error,
    [migratedFoldersCount] has grown by the number of folders, whether a
    folder was transferred, found in sync, found present or found
    empty. *)
Theorem finished_folders_are_all_counted {W} (be : Backend W) (cfg : Config) :
  (forall fuel total folders cnt (st : St W) c st',
      FullDiff.migrate_folders be cfg fuel total folders cnt st = (Val c, st') ->
      c = cnt + length folders) /\
  (forall total folders cnt (st : St W) c st',
      PresenceCheck.migrate_folders be cfg total folders cnt st = (Val c, st') ->
      c = cnt + length folders).
Proof.
  split.
  - intros fuel total folders cnt st c st' E.
    apply (full_diff_folders_returns be cfg fuel total folders cnt) in E. exact E.
  - intros total folders cnt st c st' E.
    apply (presence_folders_returns be cfg total folders cnt) in E. exact E.
Qed.

Lemma finished_folders_witness :
  (exists st',
      FullDiff.migrate_folders sim example_config 1 2 [Some "f1"; Some "f2"] 0
        (start two_folders) = (Val (0 + 2), st')) /\
  (exists st',
      PresenceCheck.migrate_folders sim example_config 2 [Some "f1"; Some "f2"] 0
        (start two_folders) = (Val (0 + 2), st')).
Proof.
  destruct (finished_folders_are_all_counted sim example_config) as (Hfull & Hpres).
  split.
  - destruct (FullDiff.migrate_folders sim example_config 1 2 [Some "f1"; Some "f2"] 0
                (start two_folders)) as [r st'] eqn:E.
    assert (Hr : exists c, r = Val c) by (vm_compute in E; inversion E; eauto).
    destruct Hr as (c & ->). exists st'.
    rewrite (Hfull 1 2 [Some "f1"; Some "f2"] 0 (start two_folders) c st' E).
    reflexivity.
  - destruct (PresenceCheck.migrate_folders sim example_config 2 [Some "f1"; Some "f2"] 0
                (start two_folders)) as [r st'] eqn:E.
    assert (Hr : exists c, r = Val c) by (vm_compute in E; inversion E; eauto).
    destruct Hr as (c & ->). exists st'.
    rewrite (Hpres 2 [Some "f1"; Some "f2"] 0 (start two_folders) c st' E).
    reflexivity.
Defined.

(* ------------------------------------------------------------------ *)
(** ** Whole folders in gcp-r2-migration.ts *)

Section WholeFolders.
Context {W : Type} (be : Backend W) (cfg : Config).


Lemma first_rejection_all_fulfilled {A} (l : list A) :
  first_rejection (map (fun _ => Fulfilled) l) = None.
Proof. induction l as [|x l IH]; [reflexivity|exact IH]. Qed.

Lemma count_put_of_keys key l :
  count (is_put_of key) l = count_occ string_dec (put_keys l) key.
Proof.
  unfold count. induction l as [|e l IH]; [reflexivity|].
  destruct e as [o|k|q|q|ms|ln]; cbn [filter is_put_of put_keys]; try exact IH.
  cbn [count_occ]. destruct (String.eqb_spec (put_Key q) key) as [E|E].
  - destruct (string_dec (put_Key q) key); [|congruence]. cbn [length]. rewrite IH.
    reflexivity.
  - destruct (string_dec (put_Key q) key); [congruence|]. exact IH.
Qed.

(** The pool when no call fails, in whatever state it is made. *)
Lemma run_pool_obliged total files :
  (forall file w, In file files ->
                  exists b w1, gcs_download be file w = (Ok (Some b), w1)) ->
  (forall file b w, In file files ->
                    exists w2, s3_putObject be (FullDiff.upload_params cfg file b) w
                               = (Ok tt, w2)) ->
  forall cnt (st : St W),
  exists w l,
    FullDiff.run_pool be cfg total files cnt st
    = (Val (map (fun _ => Fulfilled) files), extend st w l) /\
    put_keys l = keys_of files /\
    count is_skip_line l = 0 /\
    count is_sleep l = 0.
Proof.
  induction files as [|file rest IH]; intros Hd Hp cnt st.
  - exists (world st), []. rewrite extend_nil. repeat split.
  - destruct (Hd file (world st) (or_introl eq_refl)) as (b & w1 & Ed).
    destruct (Hp file b w1 (or_introl eq_refl)) as (w2 & Ep).
    pose proof (@download_loop_buffer _ be 2 0 file st b w1 Ed) as Hl.
    erewrite run_pool_cons_val
      by (eapply transfer_task_uploaded; [exact Hl|exact Ep]).
    rewrite extend_extend.
    destruct (IH (fun f w H => Hd f w (or_intror H))
                 (fun f b' w H => Hp f b' w (or_intror H)) (S cnt)
                 (extend st w2
                    ([EvDownload (name file)] ++
                     [EvPutObject (FullDiff.upload_params cfg file b);
                      EvLog (LogTransferred (S cnt) total (name file))])))
      as (w & l & E & Hk & Hs & Hsl).
    erewrite run_bind_val by exact E.
    unfold ret. rewrite extend_extend. eexists _, _. split; [reflexivity|].
    rewrite !put_keys_app, Hk, !count_app, Hs, Hsl.
    destruct (upload_body_is_buffer cfg file b) as [_ Hkey].
    cbn [put_keys app keys_of map]. rewrite Hkey.
    unfold count. cbn. auto.
Qed.

End WholeFolders.

Lemma add_keys_nodup items : forall r2Files,
  NoDup r2Files -> NoDup (FullDiff.add_keys items r2Files).
Proof.
  unfold FullDiff.add_keys.
  induction items as [|[k] items IH]; intros r2Files H; cbn [fold_left Key];
    [exact H|].
  apply IH. destruct (truthy k); [apply Set_add_nodup|]; exact H.
Qed.

(** X11.  The difference with a one-page listing.  When the destination
    answers the listing of the folder with a page that has no successor,
    the files to migrate are delivered after one listing call on each
    side: they are the source files of the folder, in the order and with
    the repetitions of the source listing, whose key is not a non-empty
    key of the page.  The set of existing keys has no duplicates, and
    entries of the page without a key are left out of it. *)
Theorem one_page_diff_is_set_difference
        {W} (be : Backend W) (cfg : Config) fuel folder (st : St W)
        out w1 gcpFiles next w2 :
  s3_listObjectsV2 be (FullDiff.list_params cfg folder) (world st) = (Ok out, w1) ->
  truthy (NextContinuationToken out) = false ->
  gcs_getFiles be (folder_files_options cfg folder) w1 = (Ok (gcpFiles, next), w2) ->
  exists r2Files tasks keep,
    FullDiff.files_to_migrate be cfg (S fuel) folder st
    = (Val tasks,
       extend st w2
         [EvListObjectsV2 (FullDiff.list_params cfg folder);
          EvLog (LogFoundExisting (length r2Files));
          EvGetFiles (folder_files_options cfg folder);
          EvLog (LogFoundInGcp (length gcpFiles) (length tasks))]) /\
    NoDup r2Files /\
    (forall x, In x r2Files <->
               truthy x = true /\
               exists items, Contents out = Some items /\ In {| Key := x |} items) /\
    tasks = filter keep gcpFiles /\
    (forall file, In file tasks <->
                  In file gcpFiles /\ ~ In (Some (name file)) r2Files).
Proof.
  intros Hl Ht Hg.
  destruct (@files_to_migrate_one_page _ be cfg fuel folder st out w1 gcpFiles
              next w2 Hl Ht Hg) as (Hrun & Hkeys & Htasks).
  exists (listed_keys out), (FullDiff.not_in_r2 (listed_keys out) gcpFiles),
    (fun file => negb (Set_has (Some (name file)) (listed_keys out))).
  split; [exact Hrun|]. split.
  - unfold listed_keys. destruct (Contents out);
      [apply add_keys_nodup|]; constructor.
  - split; [exact Hkeys|]. split; [reflexivity|exact Htasks].
Qed.

Lemma one_page_diff_witness :
  let w := bucket [f1_marker; f1_a] ["root/f1/marker.json"; "root/f9/x"] 1000 in
  exists r2Files tasks,
    fst (FullDiff.files_to_migrate sim example_config 1 (Some "f1") (start w))
    = Val tasks /\
    In (Some "root/f1/marker.json") r2Files /\
    (forall file, In file tasks <->
                  In file [fst f1_marker; fst f1_a] /\
                  ~ In (Some (name file)) r2Files).
Proof.
  intros w.
  destruct (@one_page_diff_is_set_difference _ sim example_config 0 (Some "f1")
              (start w)
              {| Contents := Some [{| Key := Some "root/f1/marker.json" |}];
                 NextContinuationToken := None |}
              w [fst f1_marker; fst f1_a] None w eq_refl eq_refl eq_refl)
    as (r2Files & tasks & keep & Hrun & _ & Hkeys & _ & Htasks).
  exists r2Files, tasks. split; [rewrite Hrun; reflexivity|].
  split; [|exact Htasks].
  apply Hkeys. split; [reflexivity|]. eexists. split; [reflexivity|].
  left. reflexivity.
Defined.

(** X12.  A folder that transfers.  When each file to migrate gives a
    buffer at its first download and is accepted by the destination, in
    whatever state the call is made, the folder body makes one upload
    call per file to migrate, under the key of that file, and no other
    upload, without a wait or a skip line; after the pool it prints the
    completion line and counts the folder.  Nothing is said about the
    order of the uploads. *)
Theorem folder_is_transferred
        {W} (be : Backend W) (cfg : Config) fuel total folder cnt (st : St W)
        files st1 :
  FullDiff.files_to_migrate be cfg fuel folder
    (extend st (world st) [EvLog (LogStartFolder folder)]) = (Val files, st1) ->
  files <> [] ->
  (forall file w, In file files ->
                  exists b w1, gcs_download be file w = (Ok (Some b), w1)) ->
  (forall file b w, In file files ->
                    exists w2, s3_putObject be (FullDiff.upload_params cfg file b) w
                               = (Ok tt, w2)) ->
  exists w3 l,
    FullDiff.migrate_folder be cfg fuel total folder cnt st
    = (Val (S cnt),
       extend st1 w3
         (l ++ [EvLog (LogFolderComplete folder);
                EvLog (LogFoldersMigrated (S cnt) total (remaining total (S cnt)))])) /\
    (forall key, count (is_put_of key) l
                 = count_occ string_dec (keys_of files) key) /\
    length (put_keys l) = length files /\
    count is_skip_line l = 0 /\
    count is_sleep l = 0.
Proof.
  intros Hf Hne Hd Hp. unfold FullDiff.migrate_folder.
  erewrite run_bind_val by apply run_log.
  erewrite run_bind_val by exact Hf. cbn beta.
  destruct (@run_pool_obliged _ be cfg (length files) files Hd Hp 0 st1)
    as (w3 & l & E & Hk & Hs & Hsl).
  destruct files as [|f0 files0]; [congruence|]. cbn [length Nat.eqb].
  erewrite run_bind_val by exact E.
  erewrite run_bind_val
    by (rewrite Promise_all_run, first_rejection_all_fulfilled; reflexivity).
  erewrite run_bind_val by apply run_log.
  erewrite run_bind_val by apply run_log.
  exists w3, l. split.
  - unfold ret. rewrite !extend_extend. reflexivity.
  - split; [intros key; rewrite count_put_of_keys, Hk; reflexivity|].
    split; [rewrite Hk; unfold keys_of; apply length_map|]. auto.
Qed.

Lemma folder_is_transferred_witness :
  exists st1 w3 l,
    FullDiff.migrate_folder obliging example_config 1 1 (Some "f1") 0 (start [])
    = (Val 1,
       extend st1 w3
         (l ++ [EvLog (LogFolderComplete (Some "f1"));
                EvLog (LogFoldersMigrated 1 1 (remaining 1 1))])) /\
    count (is_put_of "root/f1/a.txt") l = 1 /\
    count (is_put_of "root/f2/b.txt") l = 0 /\
    length (put_keys l) = 2.
Proof.
  eassert (H : _).
  { eapply (@folder_is_transferred _ obliging example_config 1 1 (Some "f1") 0
              (start []) [fst f1_marker; fst f1_a]).
    - vm_compute. reflexivity.
    - discriminate.
    - intros file w _. eexists _, _. reflexivity.
    - intros file b w _. eexists. reflexivity. }
  destruct H as (w3 & l & Hrun & Hcount & Hlen & _).
  eexists. exists w3, l. split; [exact Hrun|].
  split; [rewrite Hcount; reflexivity|].
  split; [rewrite Hcount; reflexivity|exact Hlen].
Defined.



(* ------------------------------------------------------------------ *)
(** ** The second file: failures *)

Section PresenceFailures.
Context {W : Type} (be : Backend W) (cfg : Config).

End PresenceFailures.



(** X15.  The requests of the second file.  In a whole run, whatever the
    clients answer, every listing of the destination names
    [S3_BUCKET_NAME] and asks for at most one key, every upload goes to
    that bucket, and the run never waits between two calls. *)
Theorem second_file_requests {W} (be : Backend W) (cfg : Config) fuel :
  emits (presence_request cfg) (PresenceCheck.findAndProcessRecentFolders be cfg fuel).
Proof.
  apply presence_run_emits; try (intros; exact I).
  - intros []; exact I.
  - intros folder. cbn. auto.
  - intros file buf. reflexivity.
Qed.

(* ------------------------------------------------------------------ *)
(** ** A refused upload *)

Lemma first_rejection_in rs e :
  In (Rejected e) rs ->
  exists e', first_rejection rs = Some e' /\ In (Rejected e') rs.
Proof.
  induction rs as [|[|e0] rs IH]; intros Hin; [destruct Hin| |].
  - destruct Hin as [Hin|Hin]; [discriminate|].
    destruct (IH Hin) as (e' & E & Hin'). exists e'. split; [exact E|right; exact Hin'].
  - exists e0. split; [reflexivity|left; reflexivity].
Qed.

Lemma count_none p l : Forall (fun e => p e = false) l -> count p l = 0.
Proof.
  unfold count. induction 1 as [|e l He _ IH]; [reflexivity|].
  cbn [filter]. rewrite He. exact IH.
Qed.

(** The [try] block prints no line of the top-level [catch]. *)
Lemma pipeline_prints_no_overall_error {W} (be : Backend W) cfg fuel :
  emits no_overall_error (FullDiff.pipeline be cfg fuel).
Proof.
  apply full_diff_pipeline_run_emits; try (intros; reflexivity).
  intros []; try exact I; reflexivity.
Qed.

(** C6 (as amended).  An upload that the destination refuses is made once
    and not repeated: the task ends rejected right after the call, without
    a line of its own, and the pool goes on with the remaining files of
    the folder; the pool always settles one promise per file.  When some
    upload of a folder is refused, the folder body is left at
    [await Promise.all] with the error of one of the refused uploads.
    The run then consists of what was done up to the end of that pool and
    of one line of the top-level [catch] with that error, the only such
    line of the run however many uploads were refused: the folder is not
    counted, the folders after it are not touched, and the function
    returns normally.  Nothing is said about which refused upload is
    reported nor about the place of its line among the events. *)
Theorem upload_failure_ends_the_run {W} (be : Backend W) (cfg : Config) :
  (forall total file rest cnt (st st1 : St W) b e w2,
      FullDiff.download_loop be 3 0 file st = (Val (Some b), st1) ->
      s3_putObject be (FullDiff.upload_params cfg file b) (world st1) = (Fail e, w2) ->
      FullDiff.transfer_task be cfg total file cnt st
      = (Exn e, extend st1 w2 [EvPutObject (FullDiff.upload_params cfg file b)]) /\
      FullDiff.run_pool be cfg total (file :: rest) cnt st
      = (rs <- FullDiff.run_pool be cfg total rest cnt ;; ret (Rejected e :: rs))
          (extend st1 w2 [EvPutObject (FullDiff.upload_params cfg file b)])) /\
  (forall total files cnt (st : St W),
      exists rs w l,
        FullDiff.run_pool be cfg total files cnt st = (Val rs, extend st w l) /\
        length rs = length files /\
        forall file, In file files -> In (EvDownload (name file)) l) /\
  (forall fuel (st : St W) done folder rest st0 c st1 files st2 rs st3 e,
      scan be cfg fuel st = (Val (done ++ folder :: rest)%list, st0) ->
      FullDiff.migrate_folders be cfg fuel (length (done ++ folder :: rest)%list) done 0
        (extend st0 (world st0) [EvLog LogStartingMigration]) = (Val c, st1) ->
      FullDiff.files_to_migrate be cfg fuel folder
        (extend st1 (world st1) [EvLog (LogStartFolder folder)]) = (Val files, st2) ->
      files <> [] ->
      FullDiff.run_pool be cfg (length files) files 0 st2 = (Val rs, st3) ->
      In (Rejected e) rs ->
      exists e' st' l,
        FullDiff.findAndProcessRecentFolders be cfg fuel st = (Val tt, st') /\
        In (Rejected e') rs /\
        world st' = world st3 /\
        Permutation (trace st') (EvLog (LogOverallError e') :: trace st3) /\
        trace st' = (trace st ++ l)%list /\
        count is_overall_error l = 1).
Proof.
  split; [|split].
  - intros total file rest cnt st st1 b e w2 Hl Hp.
    pose proof (transfer_task_upload_failed be cfg total file cnt st Hl Hp) as Ht.
    split; [exact Ht|].
    erewrite run_pool_cons_exn by exact Ht. reflexivity.
  - intros. apply run_pool_runs_all.
  - intros fuel st done folder rest st0 c st1 files st2 rs st3 e
           Hs Hd Hf Hne Hp Hin.
    destruct (first_rejection_in rs e Hin) as (e' & Hr & Hin').
    assert (Hpipe : FullDiff.pipeline be cfg fuel st = (Exn e', st3)).
    { eapply pipeline_stop; [exact Hs|exact Hd|].
      eapply migrate_folder_rejected; eassumption. }
    destruct (pipeline_prints_no_overall_error be cfg fuel st) as (l3 & E3 & F3).
    rewrite Hpipe in E3. cbn [snd] in E3.
    exists e', (extend st3 (world st3) [EvLog (LogOverallError e')]),
      (l3 ++ [EvLog (LogOverallError e')])%list.
    split; [apply top_level_catch; exact Hpipe|].
    split; [exact Hin'|]. split; [reflexivity|].
    split; [|split].
    + cbn [extend trace]. apply Permutation_sym, Permutation_cons_append.
    + cbn [extend trace]. rewrite E3, app_assoc. reflexivity.
    + rewrite count_app, (count_none is_overall_error F3). reflexivity.
Qed.

(** The data of C6: the destination refuses both files of [f1]. *)
Lemma upload_failure_witness :
  let file := fst f1_a in
  let st := start refusing_destination in
  let st1 := extend st refusing_destination [EvDownload "root/f1/a.txt"] in
  let put := EvPutObject (FullDiff.upload_params example_config file []) in
  (FullDiff.transfer_task sim example_config 2 file 0 st
   = (Exn "PutObject refused", extend st1 refusing_destination [put]) /\
   FullDiff.run_pool sim example_config 2 [file; fst f2_b] 0 st
   = (rs <- FullDiff.run_pool sim example_config 2 [fst f2_b] 0 ;;
      ret (Rejected "PutObject refused" :: rs))
       (extend st1 refusing_destination [put])) /\
  exists st' l,
    FullDiff.findAndProcessRecentFolders sim example_config 5
      (start refusing_everything) = (Val tt, st') /\
    trace st' = ([] ++ l)%list /\
    count is_overall_error l = 1 /\
    count (is_put_of "root/f1/marker.json") l = 1 /\
    count (is_put_of "root/f1/a.txt") l = 1 /\
    count (folder_started (Some "f2")) l = 0.
Proof.
  intros file st st1 put.
  destruct (upload_failure_ends_the_run sim example_config) as (Htask & _ & Hrun).
  split.
  - apply (Htask 2 file [fst f2_b] 0 st st1 [] "PutObject refused"
             refusing_destination); reflexivity.
  - eassert (H : _).
    { eapply (Hrun 5 (start refusing_everything) [] (Some "f1") [Some "f2"]
                _ _ _ _ _ _ _ "PutObject refused").
      - vm_compute. reflexivity.
      - vm_compute. reflexivity.
      - vm_compute. reflexivity.
      - discriminate.
      - vm_compute. reflexivity.
      - left. reflexivity. }
    destruct H as (e' & st' & l & Hrun' & _ & _ & _ & Htrace & Hcount).
    exists st', l. split; [exact Hrun'|]. split; [exact Htrace|].
    split; [exact Hcount|].
    assert (Hl : l = trace (snd (FullDiff.findAndProcessRecentFolders sim
                                   example_config 5 (start refusing_everything)))).
    { rewrite Hrun'. exact (eq_sym Htrace). }
    rewrite Hl. vm_compute. auto.
Defined.
